(** * Angular wrappers around the CodeMirror editor: [CodeEditor] and [DiffEditor]

    A shallow embedding of [projects/code-editor/code-editor.ts] and of the
    diff-editor component that imports [External] and [Setup] from it.

    The components are glue over two external collaborators: the editing
    engine ([@codemirror/state], [@codemirror/view], [@codemirror/merge]) and
    the host framework's signals and outputs.  Both are represented by the
    small part of their interface the components call:

    - a document is a string; the engine splits every text it is given (the
      [doc] of [EditorState.create], the [insert] of a change) at the line
      breaks [\r\n], [\r] and [\n] and reads it back joined by [\n], so a
      change [{from, to, insert}] replaces the range [from, to) by the
      inserted text with its line breaks normalised; the line separator
      facet is left at its default;
    - an editor state carries its document, its root extension and the
      current content of each compartment;
    - [view.dispatch(spec)] builds one transaction, installs the new state
      and then calls the update listeners synchronously; it throws, and
      installs nothing, when the change is out of range or when an effect
      puts [indentUnit.of(u)] into a compartment with a unit [u] that the
      [indentUnit] facet rejects;
    - an [output] is a log of emitted values, a registered callback is an
      identifier whose calls are logged, [console] is a log of entries.  The
      log holds the calls of the registered callbacks and the emissions of
      the declared outputs; what a [model] signal tells its own subscribers
      when it is [set] is not part of it.

    Two decisions about text belong to the platform and not to the
    components: what [String.prototype.toLowerCase] returns, and which
    indent units the engine accepts.  They are the methods of the class
    [Platform], which fixes them on ASCII text and leaves them open
    elsewhere; every definition and theorem below that depends on them holds
    for every platform.

    Extensions are inert values here: extra extensions handed in by the host
    (the [extensions] inputs and a custom theme) are assumed not to filter
    or rewrite transactions and not to bring an indent unit or a line
    separator of their own. *)

From stdpp Require Import gmap strings list.
From Stdlib Require Import Ascii String.

(** ** JavaScript strings *)

Definition CR : ascii := "013"%char.
Definition LF : ascii := "010"%char.

(** [text.split(/\r\n?|\n/).join("\n")]: what the engine keeps of a text. *)
Fixpoint normalize_line_breaks (s : string) : string :=
  match s with
  | EmptyString => EmptyString
  | String c r =>
      if Ascii.eqb c CR then
        String LF match r with
                  | String c' r' =>
                      if Ascii.eqb c' LF then normalize_line_breaks r'
                      else normalize_line_breaks r
                  | EmptyString => EmptyString
                  end
      else String c (normalize_line_breaks r)
  end.

(** Does the string contain a carriage return? *)
Fixpoint has_CR (s : string) : bool :=
  match s with
  | EmptyString => false
  | String c r => Ascii.eqb c CR || has_CR r
  end.

(** The text a\r\nb, and what the engine keeps of it. *)
Definition a_CRLF_b : string := String "a" (String CR (String LF "b")).
Definition a_LF_b : string := String "a" (String LF "b").

(** Text made of the 128 ASCII characters only. *)
Fixpoint is_ascii_text (s : string) : bool :=
  match s with
  | EmptyString => true
  | String c r => (nat_of_ascii c <? 128)%nat && is_ascii_text r
  end.

Definition ascii_toLowerCase_char (c : ascii) : ascii :=
  let n := nat_of_ascii c in
  if (65 <=? n)%nat && (n <=? 90)%nat then ascii_of_nat (n + 32) else c.

(** [String.prototype.toLowerCase] on ASCII text: the letters A-Z are
    replaced by a-z. *)
Fixpoint ascii_toLowerCase (s : string) : string :=
  match s with
  | EmptyString => EmptyString
  | String c r => String (ascii_toLowerCase_char c) (ascii_toLowerCase r)
  end.

(** The ASCII characters in the class [\s]: tab, line feed, vertical tab,
    form feed, carriage return and space. *)
Definition ascii_whitespace (c : ascii) : bool :=
  let n := nat_of_ascii c in
  ((9 <=? n)%nat && (n <=? 13)%nat) || (n =? 32)%nat.

Fixpoint all_equal_to (c : ascii) (s : string) : bool :=
  match s with
  | EmptyString => true
  | String c' r => Ascii.eqb c' c && all_equal_to c r
  end.

(** The test of the [indentUnit] facet on ASCII text: the unit is accepted
    unless [!unit || /\S/.test(unit) || Array.from(unit).some(e => e != unit[0])]. *)
Definition ascii_indentUnit_accepts (u : string) : bool :=
  match u with
  | EmptyString => false
  | String c r => ascii_whitespace c && all_equal_to c r
  end.

(** What the platform decides about text: [toLowerCase s] is
    [s.toLowerCase()], and [indentUnit_accepts u] tells whether the engine's
    [indentUnit] facet accepts the unit [u].  Both are fixed on ASCII
    text. *)
Class Platform := {
  toLowerCase : string → string;
  indentUnit_accepts : string → bool;
  toLowerCase_ascii :
    ∀ s, is_ascii_text s = true → toLowerCase s = ascii_toLowerCase s;
  indentUnit_accepts_ascii :
    ∀ u, is_ascii_text u = true → indentUnit_accepts u = ascii_indentUnit_accepts u;
}.

(** The platform that treats every text as ASCII text does; it serves to
    evaluate examples whose strings are ASCII. *)
Definition ascii_platform : Platform :=
  {| toLowerCase := ascii_toLowerCase;
     indentUnit_accepts := ascii_indentUnit_accepts;
     toLowerCase_ascii := λ _ _, eq_refl;
     indentUnit_accepts_ascii := λ _ _, eq_refl |}.

(** A string is truthy iff it is not empty. *)
Definition truthy_string (s : string) : bool :=
  match s with EmptyString => false | String _ _ => true end.

(** [xs.join(sep)] *)
Definition join (sep : string) (xs : list string) : string := String.concat sep xs.

(** ** Exceptions and the state-and-exception monad of method bodies *)

Inductive Exn :=
| TypeError                       (* property access on [undefined] *)
| RangeError                      (* change range outside the document *)
| InvalidIndentUnit (u : string). (* new Error("Invalid indent unit: " + JSON.stringify(u)) *)

Inductive completion (A : Type) :=
| Return (a : A)
| Throw (e : Exn).
Arguments Return {A} a.
Arguments Throw {A} e.

(** A method body: it transforms the store and either returns or throws.
    What was written before a throw stays written. *)
Definition M (St A : Type) : Type := St → St * completion A.

Definition ret {St A} (a : A) : M St A := λ s, (s, Return a).
Definition throw {St A} (e : Exn) : M St A := λ s, (s, Throw e).
Definition bind {St A B} (m : M St A) (k : A → M St B) : M St B :=
  λ s, match m s with
       | (s', Return a) => k a s'
       | (s', Throw e) => (s', Throw e)
       end.
Definition get {St} : M St St := λ s, (s, Return s).
Definition modify {St} (f : St → St) : M St unit := λ s, (f s, Return tt).

Notation "'do' x <- m ; k" := (bind m (λ x, k))
  (at level 10, x name, m at level 100, k at level 200).
Notation "m1 ;; m2" := (bind m1 (λ _, m2))
  (at level 100, m2 at level 200, right associativity).

(** [if (c) body] with no [else]. *)
Definition when {St} (c : bool) (body : M St unit) : M St unit :=
  if c then body else ret tt.

(** ** The engine interface *)

(** A [Compartment] object, by identity. *)
Definition Compartment := nat.

Definition LanguageSupport := nat.

#[warnings="-register-all"]
Inductive Extension :=
| ext_array (l : list Extension)                      (* [e1, ..., en] *)
| ext_updateListener                                  (* EditorView.updateListener.of(f) *)
| ext_compartment (c : Compartment) (inner : Extension) (* c.of(inner) *)
| ext_editable (b : bool)                             (* EditorView.editable.of(b) *)
| ext_readOnly (b : bool)                             (* EditorState.readOnly.of(b) *)
| ext_oneDark
| ext_placeholder (s : string)                        (* placeholder(s) *)
| ext_keymap_indentWithTab                            (* keymap.of([indentWithTab]) *)
| ext_indentUnit (s : string)                         (* indentUnit.of(s) *)
| ext_lineWrapping                                    (* EditorView.lineWrapping *)
| ext_highlightWhitespace                             (* highlightWhitespace() *)
| ext_basicSetup
| ext_minimalSetup
| ext_language (l : LanguageSupport)                  (* a loaded language package *)
| ext_opaque (id : nat).                              (* an extension supplied by the host *)

Record ChangeSpec := { from : nat; to : nat; insert_text : string }.

Inductive AnnotationType :=
| Transaction_addToHistory
| Transaction_userEvent
| External.  (* export const External = Annotation.define<boolean>() *)

Inductive AnnotationValue :=
| val_bool (b : bool)
| val_string (s : string).

(** [type.of(value)] *)
Record Annotation := annotation_of { ann_type : AnnotationType; ann_value : AnnotationValue }.

Inductive StateEffect :=
| Compartment_reconfigure (c : Compartment) (content : Extension) (* c.reconfigure(content) *)
| StateEffect_reconfigure (root : Extension).                     (* StateEffect.reconfigure.of(root) *)

Record TransactionSpec := {
  changes : option ChangeSpec;
  annotations : list Annotation;
  effects : list StateEffect;
}.

Record EditorState := {
  doc : string;
  base : Extension;
  compartments : gmap Compartment Extension;
}.

Record Transaction := {
  tr_startState : EditorState;
  tr_changes : option ChangeSpec;
  tr_annotations : list Annotation;
  tr_effects : list StateEffect;
  tr_state : EditorState;
}.

Record ViewUpdate := {
  vu_docChanged : bool;
  vu_transactions : list Transaction;
  vu_state : EditorState;
}.

Record EditorView := {
  view_id : nat;          (* identity of the instance *)
  view_state : EditorState;
  hasFocus : bool;
  destroyed : bool;
}.

Global Instance AnnotationType_eq_dec : EqDecision AnnotationType.
Proof. solve_decision. Defined.

(** The compartments met in an extension tree, each with the content it
    already has in [old], else with its initial content.  Compartment
    contents are not searched for further compartments. *)
Fixpoint resolve_compartments (old : gmap Compartment Extension) (e : Extension)
    (acc : gmap Compartment Extension) : gmap Compartment Extension :=
  match e with
  | ext_array l => fold_left (λ acc e', resolve_compartments old e' acc) l acc
  | ext_compartment c inner => <[c := default inner (old !! c)]> acc
  | _ => acc
  end.

(** [EditorState.create({doc, extensions})] *)
Definition EditorState_create (d : string) (exts : Extension) : EditorState :=
  {| doc := normalize_line_breaks d; base := exts;
     compartments := resolve_compartments ∅ exts ∅ |}.

(** A change that deletes nothing and inserts nothing is dropped from the
    change set; a text is empty exactly when its normalised form is. *)
Definition change_is_empty (c : ChangeSpec) : bool :=
  (from c =? to c)%nat && negb (truthy_string (insert_text c)).

Definition change_in_range (c : ChangeSpec) (d : string) : bool :=
  (from c <=? to c)%nat && (to c <=? String.length d)%nat.

Definition apply_change (c : ChangeSpec) (d : string) : string :=
  String.substring 0 (from c) d
    +:+ normalize_line_breaks (insert_text c)
    +:+ String.substring (to c) (String.length d - to c) d.

(** The change set of a whole-document replacement of [d] by [v]: empty
    only when nothing is deleted and nothing is inserted. *)
Definition whole_change (d v : string) : option ChangeSpec :=
  let c := {| from := 0; to := String.length d; insert_text := v |} in
  if change_is_empty c then None else Some c.

Definition apply_effect (st : EditorState) (eff : StateEffect) : EditorState :=
  match eff with
  | Compartment_reconfigure c content =>
      {| doc := doc st; base := base st;
         compartments := <[c := content]> (compartments st) |}
  | StateEffect_reconfigure root =>
      {| doc := doc st; base := root;
         compartments := resolve_compartments (compartments st) root ∅ |}
  end.

Section Engine.
Context {P : Platform}.

(** The unit for which the [indentUnit] facet throws when an extension
    becomes the content of a compartment. *)
Definition rejected_unit (e : Extension) : option string :=
  match e with
  | ext_indentUnit u => if indentUnit_accepts u then None else Some u
  | _ => None
  end.

(** The first rejected unit among the contents a list of effects puts into
    compartments. *)
Fixpoint rejected (effs : list StateEffect) : option string :=
  match effs with
  | [] => None
  | Compartment_reconfigure _ e :: r =>
      match rejected_unit e with Some u => Some u | None => rejected r end
  | StateEffect_reconfigure _ :: r => rejected r
  end.

(** [state.update(spec)] followed by the reading of [tr.state]: the
    transaction with its resulting state.  The change set is built first,
    the new configuration is resolved after it. *)
Definition EditorState_update (st : EditorState) (spec : TransactionSpec)
    : completion Transaction :=
  let chg :=
    match changes spec with
    | Some c => if negb (change_in_range c (doc st)) then Throw RangeError
                else if change_is_empty c then Return None
                else Return (Some c)
    | None => Return None
    end in
  match chg with
  | Throw e => Throw e
  | Return chg =>
      match rejected (effects spec) with
      | Some u => Throw (InvalidIndentUnit u)
      | None =>
          let d := match chg with Some c => apply_change c (doc st) | None => doc st end in
          let st1 := {| doc := d; base := base st; compartments := compartments st |} in
          Return {| tr_startState := st;
                    tr_changes := chg;
                    tr_annotations := annotations spec;
                    tr_effects := effects spec;
                    tr_state := fold_left apply_effect (effects spec) st1 |}
      end
  end.

End Engine.

(** [tr.docChanged] *)
Definition tr_docChanged (tr : Transaction) : bool :=
  match tr_changes tr with Some _ => true | None => false end.

(** [tr.annotation(type)]: the value of the first annotation of that type,
    [undefined] when there is none. *)
Definition Transaction_annotation (tr : Transaction) (ty : AnnotationType)
    : option AnnotationValue :=
  ann_value <$> List.find (λ a, bool_decide (ann_type a = ty)) (tr_annotations tr).

(** Truthiness of what [tr.annotation] returns. *)
Definition truthy (v : option AnnotationValue) : bool :=
  match v with
  | Some (val_bool b) => b
  | Some (val_string s) => truthy_string s
  | None => false
  end.

(** The update the view hands to its listeners after one dispatched
    transaction. *)
Definition ViewUpdate_of (tr : Transaction) : ViewUpdate :=
  {| vu_docChanged := tr_docChanged tr;
     vu_transactions := [tr];
     vu_state := tr_state tr |}.

Definition EditorView_setState (v : EditorView) (st : EditorState) : EditorView :=
  {| view_id := view_id v; view_state := st; hasFocus := hasFocus v; destroyed := destroyed v |}.

(** The view after a dispatch that reconfigures one compartment. *)
Definition reconfigured (v : EditorView) (c : Compartment) (e : Extension) : EditorView :=
  EditorView_setState v
    {| doc := doc (view_state v); base := base (view_state v);
       compartments := <[c := e]> (compartments (view_state v)) |}.

Definition EditorView_focus (v : EditorView) : EditorView :=
  {| view_id := view_id v; view_state := view_state v; hasFocus := true; destroyed := destroyed v |}.

Definition EditorView_destroy (v : EditorView) : EditorView :=
  {| view_id := view_id v; view_state := view_state v; hasFocus := hasFocus v; destroyed := true |}.

(** The update of a view whose empty document receives the typed text
    ["x"]. *)
Definition typed_x : ViewUpdate :=
  let st := EditorState_create "" (ext_array []) in
  ViewUpdate_of
    {| tr_startState := st;
       tr_changes := Some {| from := 0; to := 0; insert_text := "x" |};
       tr_annotations := [annotation_of Transaction_userEvent (val_string "input.type")];
       tr_effects := [];
       tr_state := {| doc := "x"; base := base st; compartments := compartments st |} |}.

Inductive Setup := basic | minimal | null.

Definition setup_extension (s : Setup) : Extension :=
  match s with
  | basic => ext_basicSetup
  | minimal => ext_minimalSetup
  | null => ext_array []
  end.

(** The events of the content element the components listen to. *)
Inductive DomEvent := dom_focus | dom_blur.

Global Instance DomEvent_eq_dec : EqDecision DomEvent.
Proof. solve_decision. Defined.

Inductive LogEntry :=
| console_error (args : list string)
| console_info (args : list string).

(** ** The single-editor wrapper, [code-editor.ts] *)

Module CodeEditor.

Inductive Theme := light | dark | custom (e : Extension).

(** A [LanguageDescription].  [load] is the outcome of the promise its
    [load()] returns: [Some l] when it fulfils with the package [l], [None]
    when it rejects. *)
Record LanguageDescription := {
  name : string;
  alias : list string;
  load : option LanguageSupport;
}.

(** The declared inputs.  [disabled] is a [model], the others are [input]s
    the component can only read. *)
Record Inputs := {
  root : option nat;
  autoFocus : bool;
  value : string;
  disabled : bool;
  readonly : bool;
  theme : Theme;
  placeholder : string;
  indentWithTab : bool;
  indentUnit : string;
  lineWrapping : bool;
  highlightWhitespace : bool;
  languages : list LanguageDescription;
  language : string;
  setup : Setup;
  extensions : list Extension;
}.

(** What the component makes observable outside the engine. *)
Inductive Event :=
| call_onChange (fn : nat) (v : string)  (* the registered on-change callback is called *)
| call_onTouched (fn : nat)              (* the registered on-touched callback is called *)
| emit_change (v : string)               (* change.emit(v) *)
| emit_focus
| emit_blur.

(** The component with the part of its surroundings it writes to. *)
Record World := {
  inputs : Inputs;
  _onChange : option nat;      (* [None] is the initial [() => {}] *)
  _onTouched : option nat;
  view : option EditorView;    (* [None] is [undefined] *)
  state : option EditorState;
  events : list Event;                  (* callback calls and emissions, oldest first *)
  console : list LogEntry;              (* oldest first *)
  loading : list LanguageDescription;   (* [load().then(...)] not yet settled *)
  contentDOM_listeners : list DomEvent;
  views_created : nat;                  (* how many times [new EditorView] ran *)
}.

Definition set_inputs (i : Inputs) (w : World) : World :=
  {| inputs := i; _onChange := _onChange w; _onTouched := _onTouched w; view := view w;
     state := state w; events := events w; console := console w; loading := loading w;
     contentDOM_listeners := contentDOM_listeners w; views_created := views_created w |}.

Definition set__onChange (f : option nat) (w : World) : World :=
  {| inputs := inputs w; _onChange := f; _onTouched := _onTouched w; view := view w;
     state := state w; events := events w; console := console w; loading := loading w;
     contentDOM_listeners := contentDOM_listeners w; views_created := views_created w |}.

Definition set__onTouched (f : option nat) (w : World) : World :=
  {| inputs := inputs w; _onChange := _onChange w; _onTouched := f; view := view w;
     state := state w; events := events w; console := console w; loading := loading w;
     contentDOM_listeners := contentDOM_listeners w; views_created := views_created w |}.

Definition set_view (v : option EditorView) (w : World) : World :=
  {| inputs := inputs w; _onChange := _onChange w; _onTouched := _onTouched w; view := v;
     state := state w; events := events w; console := console w; loading := loading w;
     contentDOM_listeners := contentDOM_listeners w; views_created := views_created w |}.

Definition set_state (st : option EditorState) (w : World) : World :=
  {| inputs := inputs w; _onChange := _onChange w; _onTouched := _onTouched w; view := view w;
     state := st; events := events w; console := console w; loading := loading w;
     contentDOM_listeners := contentDOM_listeners w; views_created := views_created w |}.

Definition set_events (l : list Event) (w : World) : World :=
  {| inputs := inputs w; _onChange := _onChange w; _onTouched := _onTouched w; view := view w;
     state := state w; events := l; console := console w; loading := loading w;
     contentDOM_listeners := contentDOM_listeners w; views_created := views_created w |}.

Definition set_console (l : list LogEntry) (w : World) : World :=
  {| inputs := inputs w; _onChange := _onChange w; _onTouched := _onTouched w; view := view w;
     state := state w; events := events w; console := l; loading := loading w;
     contentDOM_listeners := contentDOM_listeners w; views_created := views_created w |}.

Definition set_loading (l : list LanguageDescription) (w : World) : World :=
  {| inputs := inputs w; _onChange := _onChange w; _onTouched := _onTouched w; view := view w;
     state := state w; events := events w; console := console w; loading := l;
     contentDOM_listeners := contentDOM_listeners w; views_created := views_created w |}.

Definition set_contentDOM_listeners (l : list DomEvent) (w : World) : World :=
  {| inputs := inputs w; _onChange := _onChange w; _onTouched := _onTouched w; view := view w;
     state := state w; events := events w; console := console w; loading := loading w;
     contentDOM_listeners := l; views_created := views_created w |}.

Definition set_views_created (n : nat) (w : World) : World :=
  {| inputs := inputs w; _onChange := _onChange w; _onTouched := _onTouched w; view := view w;
     state := state w; events := events w; console := console w; loading := loading w;
     contentDOM_listeners := contentDOM_listeners w; views_created := n |}.

(** [this.disabled.set(b)] *)
Definition disabled_set (b : bool) (i : Inputs) : Inputs :=
  {| root := root i; autoFocus := autoFocus i; value := value i; disabled := b;
     readonly := readonly i; theme := theme i; placeholder := placeholder i;
     indentWithTab := indentWithTab i; indentUnit := indentUnit i;
     lineWrapping := lineWrapping i; highlightWhitespace := highlightWhitespace i;
     languages := languages i; language := language i; setup := setup i;
     extensions := extensions i |}.

Definition emit (e : Event) : M World unit :=
  modify (λ w, set_events (events w ++ [e]) w).

Definition console_log (e : LogEntry) : M World unit :=
  modify (λ w, set_console (console w ++ [e]) w).

(** [this._onChange(v)] *)
Definition call__onChange (v : string) : M World unit :=
  do w <- get;
  match _onChange w with
  | Some fn => emit (call_onChange fn v)
  | None => ret tt
  end.

(** [this._onTouched()] *)
Definition call__onTouched : M World unit :=
  do w <- get;
  match _onTouched w with
  | Some fn => emit (call_onTouched fn)
  | None => ret tt
  end.

Definition _updateListener (vu : ViewUpdate) : M World unit :=
  when (vu_docChanged vu
        && negb (existsb (λ tr, truthy (Transaction_annotation tr External))
                         (vu_transactions vu)))
    (let value := doc (vu_state vu) in
     call__onChange value ;;
     emit (emit_change value)).

(** The nine compartments, one object each. *)
Definition _editableConf : Compartment := 0.
Definition _readonlyConf : Compartment := 1.
Definition _themeConf : Compartment := 2.
Definition _placeholderConf : Compartment := 3.
Definition _indentWithTabConf : Compartment := 4.
Definition _indentUnitConf : Compartment := 5.
Definition _lineWrappingConf : Compartment := 6.
Definition _highlightWhitespaceConf : Compartment := 7.
Definition _languageConf : Compartment := 8.

Definition _getAllExtensions (w : World) : Extension :=
  ext_array
    ([ ext_updateListener;
       ext_compartment _editableConf (ext_array []);
       ext_compartment _readonlyConf (ext_array []);
       ext_compartment _themeConf (ext_array []);
       ext_compartment _placeholderConf (ext_array []);
       ext_compartment _indentWithTabConf (ext_array []);
       ext_compartment _indentUnitConf (ext_array []);
       ext_compartment _lineWrappingConf (ext_array []);
       ext_compartment _highlightWhitespaceConf (ext_array []);
       ext_compartment _languageConf (ext_array []);
       setup_extension (setup (inputs w)) ]
     ++ extensions (inputs w)).

Section Methods.
Context {P : Platform}.

(** [this.view.dispatch(spec)].  Every root extension set the component
    installs starts with [_updateListener], so the view calls it after each
    transaction. *)
Definition view_dispatch (spec : TransactionSpec) : M World unit :=
  do w <- get;
  match view w with
  | None => throw TypeError
  | Some v =>
      match EditorState_update (view_state v) spec with
      | Throw e => throw e
      | Return tr =>
          modify (set_view (Some (EditorView_setState v (tr_state tr)))) ;;
          _updateListener (ViewUpdate_of tr)
      end
  end.

(** The object literal [setValue] hands to [dispatch], for a document [d]. *)
Definition setValue_spec (v : string) (d : string) : TransactionSpec :=
  {| changes := Some {| from := 0; to := String.length d; insert_text := v |};
     annotations := [annotation_of Transaction_addToHistory (val_bool false)];
     effects := [] |}.

Definition setValue (v : string) : M World unit :=
  do w <- get;
  match view w with
  | None => throw TypeError   (* this.view.dispatch on undefined *)
  | Some vw => view_dispatch (setValue_spec v (doc (view_state vw)))
  end.

Definition _dispatchEffects (effs : list StateEffect) : M World unit :=
  view_dispatch {| changes := None; annotations := []; effects := effs |}.

Definition setExtensions (v : Extension) : M World unit :=
  _dispatchEffects [StateEffect_reconfigure v].

Definition setEditable (v : bool) : M World unit :=
  _dispatchEffects [Compartment_reconfigure _editableConf (ext_editable v)].

Definition setReadonly (v : bool) : M World unit :=
  _dispatchEffects [Compartment_reconfigure _readonlyConf (ext_readOnly v)].

Definition setTheme (v : Theme) : M World unit :=
  _dispatchEffects
    [Compartment_reconfigure _themeConf
       match v with light => ext_array [] | dark => ext_oneDark | custom e => e end].

Definition setPlaceholder (v : string) : M World unit :=
  _dispatchEffects
    [Compartment_reconfigure _placeholderConf
       (if truthy_string v then ext_placeholder v else ext_array [])].

Definition setIndentWithTab (v : bool) : M World unit :=
  _dispatchEffects
    [Compartment_reconfigure _indentWithTabConf
       (if v then ext_keymap_indentWithTab else ext_array [])].

Definition setIndentUnit (v : string) : M World unit :=
  _dispatchEffects
    [Compartment_reconfigure _indentUnitConf
       (if truthy_string v then ext_indentUnit v else ext_array [])].

Definition setLineWrapping (v : bool) : M World unit :=
  _dispatchEffects
    [Compartment_reconfigure _lineWrappingConf
       (if v then ext_lineWrapping else ext_array [])].

Definition setHighlightWhitespace (v : bool) : M World unit :=
  _dispatchEffects
    [Compartment_reconfigure _highlightWhitespaceConf
       (if v then ext_highlightWhitespace else ext_array [])].

(** Inner loop of [_findLanguage]: does [n] equal, in lower case, the name
    or one of the aliases of [lang]? *)
Definition matches_language (n : string) (lang : LanguageDescription) : bool :=
  existsb (λ a, String.eqb (toLowerCase n) (toLowerCase a)) (name lang :: alias lang).

Definition _findLanguage (n : string) : M World (option LanguageDescription) :=
  do w <- get;
  match List.find (matches_language n) (languages (inputs w)) with
  | Some lang => ret (Some lang)
  | None =>
      console_log (console_error ["Language not found:"; n]) ;;
      console_log (console_info ["Supported language names:";
                                 join ", " (map name (languages (inputs w)))]) ;;
      ret None
  end.

(** The callback given to [then] in [setLanguage]. *)
Definition setLanguage_loaded (lang : LanguageSupport) : M World unit :=
  _dispatchEffects [Compartment_reconfigure _languageConf (ext_array [ext_language lang])].

Definition setLanguage (lang : string) : M World unit :=
  if negb (truthy_string lang) || String.eqb lang "plaintext" then
    _dispatchEffects [Compartment_reconfigure _languageConf (ext_array [])]
  else
    do w <- get;
    if (List.length (languages (inputs w)) =? 0)%nat then
      when (bool_decide (is_Some (view w)))
        (console_log
           (console_error ["No supported languages. Please set the `languages` prop at first."]))
    else
      do langDesc <- _findLanguage lang;
      match langDesc with
      | Some d => modify (λ w, set_loading (loading w ++ [d]) w)
      | None => ret tt
      end.

(** The [k]-th pending load settles: its [then] callback runs when the
    promise fulfils; nothing runs when it rejects. *)
Definition settle_load (k : nat) : M World unit :=
  do w <- get;
  match loading w !! k with
  | None => ret tt
  | Some d =>
      modify (set_loading (delete k (loading w))) ;;
      match load d with
      | Some l => setLanguage_loaded l
      | None => ret tt
      end
  end.

(** [changes[key]] is truthy iff [key] is among the changed inputs. *)
Definition changed (changes : gset string) (key : string) : bool :=
  bool_decide (key ∈ changes).

Definition ngOnChanges (changes : gset string) : M World unit :=
  do w <- get;
  if negb (bool_decide (is_Some (view w))) then ret tt else
  when (changed changes "value")
    (do w <- get; setValue (value (inputs w))) ;;
  when (changed changes "disabled")
    (do w <- get; setEditable (negb (disabled (inputs w)))) ;;
  when (changed changes "readonly")
    (do w <- get; setReadonly (readonly (inputs w))) ;;
  when (changed changes "theme")
    (do w <- get; setTheme (theme (inputs w))) ;;
  when (changed changes "placeholder")
    (do w <- get; setPlaceholder (placeholder (inputs w))) ;;
  when (changed changes "indentWithTab")
    (do w <- get; setIndentWithTab (indentWithTab (inputs w))) ;;
  when (changed changes "indentUnit")
    (do w <- get; setIndentUnit (indentUnit (inputs w))) ;;
  when (changed changes "lineWrapping")
    (do w <- get; setLineWrapping (lineWrapping (inputs w))) ;;
  when (changed changes "highlightWhitespace")
    (do w <- get; setHighlightWhitespace (highlightWhitespace (inputs w))) ;;
  when (changed changes "language")
    (do w <- get; setLanguage (language (inputs w))) ;;
  when (changed changes "setup" || changed changes "extensions")
    (do w <- get; setExtensions (_getAllExtensions w)).

(** The two listeners [ngOnInit] attaches to [view.contentDOM]. *)
Definition contentDOM_handler (e : DomEvent) : M World unit :=
  call__onTouched ;;
  emit match e with dom_focus => emit_focus | dom_blur => emit_blur end.

(** The content element receives a focus or blur event. *)
Definition contentDOM_dispatchEvent (e : DomEvent) : M World unit :=
  do w <- get;
  when (bool_decide (e ∈ contentDOM_listeners w)) (contentDOM_handler e).

Definition ngOnInit : M World unit :=
  do w <- get;
  let st := EditorState_create (value (inputs w)) (_getAllExtensions w) in
  modify (set_state (Some st)) ;;
  modify (λ w, set_views_created (S (views_created w))
                 (set_view (Some {| view_id := views_created w; view_state := st;
                                    hasFocus := false; destroyed := false |}) w)) ;;
  when (autoFocus (inputs w))
    (modify (λ w, set_view (EditorView_focus <$> view w) w)) ;;
  modify (λ w, set_contentDOM_listeners (contentDOM_listeners w ++ [dom_focus]) w) ;;
  modify (λ w, set_contentDOM_listeners (contentDOM_listeners w ++ [dom_blur]) w) ;;
  setEditable (negb (disabled (inputs w))) ;;
  setReadonly (readonly (inputs w)) ;;
  setTheme (theme (inputs w)) ;;
  setPlaceholder (placeholder (inputs w)) ;;
  setIndentWithTab (indentWithTab (inputs w)) ;;
  setIndentUnit (indentUnit (inputs w)) ;;
  setLineWrapping (lineWrapping (inputs w)) ;;
  setHighlightWhitespace (highlightWhitespace (inputs w)) ;;
  setLanguage (language (inputs w)).

Definition ngOnDestroy : M World unit :=
  do w <- get;
  match view w with
  | None => throw TypeError
  | Some v => modify (set_view (Some (EditorView_destroy v)))
  end.

Definition writeValue (v : string) : M World unit :=
  do w <- get;
  when (bool_decide (is_Some (view w))) (setValue v).

Definition registerOnChange (fn : nat) : M World unit :=
  modify (set__onChange (Some fn)).

Definition registerOnTouched (fn : nat) : M World unit :=
  modify (set__onTouched (Some fn)).

Definition setDisabledState (isDisabled : bool) : M World unit :=
  modify (λ w, set_inputs (disabled_set isDisabled (inputs w)) w) ;;
  setEditable (negb isDisabled).

End Methods.

(** A component as constructed, before [ngOnInit], with its inputs bound. *)
Definition constructed (i : Inputs) : World :=
  {| inputs := i; _onChange := None; _onTouched := None; view := None; state := None;
     events := []; console := []; loading := []; contentDOM_listeners := [];
     views_created := 0 |}.

(** The inputs' declared defaults. *)
Definition default_inputs : Inputs :=
  {| root := None; autoFocus := false; value := ""; disabled := false; readonly := false;
     theme := light; placeholder := ""; indentWithTab := false; indentUnit := "";
     lineWrapping := false; highlightWhitespace := false; languages := [];
     language := ""; setup := basic; extensions := [] |}.

(** [this.view.state.doc.toString()], the current content. *)
Definition current_content (w : World) : option string :=
  (λ v, doc (view_state v)) <$> view w.

(** The content of a compartment in the view's current state. *)
Definition slot_content (w : World) (c : Compartment) : option Extension :=
  view w ≫= λ v, compartments (view_state v) !! c.

(** The engine dispatches a transaction for a local edit (typing, paste,
    ...): one change, annotated with the kind of user event. *)
Definition user_edit {P : Platform} (c : ChangeSpec) (userEvent : string) : M World unit :=
  view_dispatch {| changes := Some c;
                   annotations := [annotation_of Transaction_userEvent (val_string userEvent)];
                   effects := [] |}.

(** What the listener appends to the log when it forwards [v]. *)
Definition forwarded (w : World) (v : string) : list Event :=
  match _onChange w with
  | Some fn => [call_onChange fn v; emit_change v]
  | None => [emit_change v]
  end.

(** The component after [ngOnInit]. *)
Definition initialized {P : Platform} (i : Inputs) : World :=
  fst (ngOnInit (constructed i)).

(** Sample language registries. *)
Definition javascript : LanguageDescription :=
  {| name := "JavaScript"; alias := ["js"]; load := Some 1 |}.
Definition c_language : LanguageDescription :=
  {| name := "C"; alias := ["h"]; load := Some 2 |}.
Definition cpp_language : LanguageDescription :=
  {| name := "C++"; alias := ["cpp"; "h"]; load := Some 3 |}.

(** The default inputs with a language registry and a requested language. *)
Definition with_languages (ls : list LanguageDescription) (lang : string) : Inputs :=
  {| root := None; autoFocus := false; value := ""; disabled := false; readonly := false;
     theme := light; placeholder := ""; indentWithTab := false; indentUnit := "";
     lineWrapping := false; highlightWhitespace := false; languages := ls;
     language := lang; setup := basic; extensions := [] |}.

(** Components after [ngOnInit], evaluated on ASCII text: with the default inputs; with
    callback 7 registered as well; with sample registries; and with the
    JavaScript package requested at initialization and loaded. *)
Definition sample : World :=
  Eval vm_compute in initialized (P := ascii_platform) default_inputs.
Definition sample_registered : World :=
  Eval vm_compute in fst (registerOnChange 7 (initialized (P := ascii_platform) default_inputs)).
Definition sample_c_cpp : World :=
  Eval vm_compute in
    initialized (P := ascii_platform) (with_languages [c_language; cpp_language] "").
Definition sample_js : World :=
  Eval vm_compute in initialized (P := ascii_platform) (with_languages [javascript] "").
Definition sample_js_loaded : World :=
  Eval vm_compute in
    fst (settle_load (P := ascii_platform) 0
           (initialized (P := ascii_platform) (with_languages [javascript] "js"))).

(** The dynamic fields that own a compartment. *)
Inductive Field :=
| f_disabled | f_readonly | f_theme | f_placeholder | f_indentWithTab
| f_indentUnit | f_lineWrapping | f_highlightWhitespace | f_language.

(** The name under which [ngOnChanges] looks a field up in [changes]. *)
Definition key (f : Field) : string :=
  match f with
  | f_disabled => "disabled"
  | f_readonly => "readonly"
  | f_theme => "theme"
  | f_placeholder => "placeholder"
  | f_indentWithTab => "indentWithTab"
  | f_indentUnit => "indentUnit"
  | f_lineWrapping => "lineWrapping"
  | f_highlightWhitespace => "highlightWhitespace"
  | f_language => "language"
  end.

(** The compartment the setter of a field reconfigures. *)
Definition slot (f : Field) : Compartment :=
  match f with
  | f_disabled => _editableConf
  | f_readonly => _readonlyConf
  | f_theme => _themeConf
  | f_placeholder => _placeholderConf
  | f_indentWithTab => _indentWithTabConf
  | f_indentUnit => _indentUnitConf
  | f_lineWrapping => _lineWrappingConf
  | f_highlightWhitespace => _highlightWhitespaceConf
  | f_language => _languageConf
  end.

(** The call [ngOnChanges] makes for a field. *)
Definition setter {P : Platform} (f : Field) (i : Inputs) : M World unit :=
  match f with
  | f_disabled => setEditable (negb (disabled i))
  | f_readonly => setReadonly (readonly i)
  | f_theme => setTheme (theme i)
  | f_placeholder => setPlaceholder (placeholder i)
  | f_indentWithTab => setIndentWithTab (indentWithTab i)
  | f_indentUnit => setIndentUnit (indentUnit i)
  | f_lineWrapping => setLineWrapping (lineWrapping i)
  | f_highlightWhitespace => setHighlightWhitespace (highlightWhitespace i)
  | f_language => setLanguage (language i)
  end.

(** The content the setter of a field hands to [reconfigure]; the language
    setter decides it by lookup and loading. *)
Definition content (f : Field) (i : Inputs) : option Extension :=
  match f with
  | f_disabled => Some (ext_editable (negb (disabled i)))
  | f_readonly => Some (ext_readOnly (readonly i))
  | f_theme =>
      Some match theme i with light => ext_array [] | dark => ext_oneDark | custom e => e end
  | f_placeholder =>
      Some (if truthy_string (placeholder i) then ext_placeholder (placeholder i)
            else ext_array [])
  | f_indentWithTab =>
      Some (if indentWithTab i then ext_keymap_indentWithTab else ext_array [])
  | f_indentUnit =>
      Some (if truthy_string (indentUnit i) then ext_indentUnit (indentUnit i)
            else ext_array [])
  | f_lineWrapping => Some (if lineWrapping i then ext_lineWrapping else ext_array [])
  | f_highlightWhitespace =>
      Some (if highlightWhitespace i then ext_highlightWhitespace else ext_array [])
  | f_language => None
  end.

(** The component just after [new EditorView] and the two
    [addEventListener] calls of [ngOnInit], before the setters run. *)
Definition view_created (w : World) : World :=
  let st := EditorState_create (value (inputs w)) (_getAllExtensions w) in
  set_contentDOM_listeners (contentDOM_listeners w ++ [dom_focus; dom_blur])
    (set_views_created (S (views_created w))
       (set_view (Some {| view_id := views_created w; view_state := st;
                          hasFocus := autoFocus (inputs w); destroyed := false |})
          (set_state (Some st) w))).

(** The view after the eight setters of [ngOnInit] that precede
    [setLanguage], in the order of the source. *)
Definition configured_view (w : World) : EditorView :=
  let i := inputs w in
  let put (f : Field) (v : EditorView) : EditorView :=
    match content f i with Some e => reconfigured v (slot f) e | None => v end in
  put f_highlightWhitespace
    (put f_lineWrapping
       (put f_indentUnit
          (put f_indentWithTab
             (put f_placeholder
                (put f_theme
                   (put f_readonly
                      (put f_disabled
                         {| view_id := views_created w;
                            view_state := EditorState_create (value i) (_getAllExtensions w);
                            hasFocus := autoFocus i; destroyed := false |}))))))).

Definition configured (w : World) : World :=
  set_view (Some (configured_view w)) (view_created w).

(** The inputs from which the setter of a field builds a content the
    engine accepts, and those for which every setter does. *)
Definition acceptable {P : Platform} (f : Field) (i : Inputs) : Prop :=
  ∀ e, content f i = Some e → rejected_unit e = None.

Definition accepted {P : Platform} (i : Inputs) : Prop := ∀ f, acceptable f i.

(** [w'] still has the editor instance of [w]: the same view identity, no
    further view created, the inputs, the registered on-touched callback
    and the content listeners as they were; when [quiet] is set, also the
    same document and nothing more in the event log. *)
Definition same_instance (quiet : bool) (w w' : World) : Prop :=
  ∃ v v', view w = Some v ∧ view w' = Some v'
          ∧ view_id v' = view_id v
          ∧ views_created w' = views_created w
          ∧ inputs w' = inputs w
          ∧ _onTouched w' = _onTouched w
          ∧ contentDOM_listeners w' = contentDOM_listeners w
          ∧ (quiet = true →
             doc (view_state v') = doc (view_state v) ∧ events w' = events w).

(** How a body ends on a component with inputs [i]: it returns normally, or
    it stops with the error of a rejected indent unit, which takes inputs
    that are not all accepted. *)
Definition ends_well {P : Platform} (i : Inputs) (r : completion unit) : Prop :=
  r = Return tt ∨ ((∃ u, r = Throw (InvalidIndentUnit u)) ∧ ¬ accepted i).

(** A body that, on every component with a view and the inputs [i], keeps
    the instance and ends well, whether it returns or throws. *)
Definition keeps {P : Platform} (i : Inputs) (quiet : bool) (m : M World unit) : Prop :=
  ∀ w v, view w = Some v → inputs w = i →
         ∃ w' r, m w = (w', r) ∧ same_instance quiet w w' ∧ ends_well i r.

(** The default inputs with a given theme. *)
Definition with_theme (t : Theme) : Inputs :=
  {| root := None; autoFocus := false; value := ""; disabled := false; readonly := false;
     theme := t; placeholder := ""; indentWithTab := false; indentUnit := "";
     lineWrapping := false; highlightWhitespace := false; languages := [];
     language := ""; setup := basic; extensions := [] |}.

(** The default inputs with a given indent unit. *)
Definition with_indentUnit (u : string) : Inputs :=
  {| root := None; autoFocus := false; value := ""; disabled := false; readonly := false;
     theme := light; placeholder := ""; indentWithTab := false; indentUnit := u;
     lineWrapping := false; highlightWhitespace := false; languages := [];
     language := ""; setup := basic; extensions := [] |}.

(** The view [ngOnInit] leaves when [setIndentUnit] throws: the five
    setters before it have run, the three after it have not. *)
Definition half_configured_view (w : World) : EditorView :=
  let i := inputs w in
  let put (f : Field) (v : EditorView) : EditorView :=
    match content f i with Some e => reconfigured v (slot f) e | None => v end in
  put f_indentWithTab
    (put f_placeholder
       (put f_theme
          (put f_readonly
             (put f_disabled
                {| view_id := views_created w;
                   view_state := EditorState_create (value i) (_getAllExtensions w);
                   hasFocus := autoFocus i; destroyed := false |})))).

End CodeEditor.

(** ** The diff wrapper *)

Module DiffEditor.

Inductive Orientation := a_b | b_a.
Inductive RevertControls := a_to_b | b_to_a.

(** The parameter [editor: 'a' | 'b']. *)
Inductive Editor := editor_a | editor_b.

Global Instance Editor_eq_dec : EqDecision Editor.
Proof. solve_decision. Defined.

Record DiffEditorModel := { original : string; modified : string }.

Record CollapseUnchanged := { margin : option nat; minSize : option nat }.

(** The declared inputs.  [originalValue], [modifiedValue] and [disabled]
    are [model]s: the component reads them and also sets them. *)
Record Inputs := {
  setup : Setup;
  originalValue : string;
  originalExtensions : list Extension;
  modifiedValue : string;
  modifiedExtensions : list Extension;
  orientation : option Orientation;
  revertControls : option RevertControls;
  renderRevertControl : option nat;
  highlightChanges : bool;
  gutter : bool;
  disabled : bool;
  collapseUnchanged : option CollapseUnchanged;
  diffConfig : option nat;
}.

(** The options of the merge view that [reconfigure] can replace. *)
Record MergeConfig := {
  cfg_orientation : option Orientation;
  cfg_revertControls : option RevertControls;
  cfg_renderRevertControl : option nat;
  cfg_highlightChanges : bool;
  cfg_gutter : bool;
  cfg_collapseUnchanged : option CollapseUnchanged;
  cfg_diffConfig : option nat;
}.

(** The argument of [mergeView.reconfigure], an object with one key. *)
Inductive MergeConfigChange :=
| set_orientation (v : option Orientation)
| set_revertControls (v : option RevertControls)
| set_renderRevertControl (v : option nat)
| set_highlightChanges (v : bool)
| set_gutter (v : bool)
| set_collapseUnchanged (v : option CollapseUnchanged)
| set_diffConfig (v : option nat).

Record MergeView := {
  mv_a : EditorView;
  mv_b : EditorView;
  mv_config : MergeConfig;
  mv_destroyed : bool;
}.

(** [mergeView[editor]] *)
Definition mv_editor (mv : MergeView) (editor : Editor) : EditorView :=
  match editor with editor_a => mv_a mv | editor_b => mv_b mv end.

Definition mv_set_editor (mv : MergeView) (editor : Editor) (v : EditorView) : MergeView :=
  match editor with
  | editor_a => {| mv_a := v; mv_b := mv_b mv; mv_config := mv_config mv;
                   mv_destroyed := mv_destroyed mv |}
  | editor_b => {| mv_a := mv_a mv; mv_b := v; mv_config := mv_config mv;
                   mv_destroyed := mv_destroyed mv |}
  end.

Definition MergeConfig_apply (c : MergeConfig) (ch : MergeConfigChange) : MergeConfig :=
  let '{| cfg_orientation := o; cfg_revertControls := rc; cfg_renderRevertControl := rr;
          cfg_highlightChanges := h; cfg_gutter := g; cfg_collapseUnchanged := cu;
          cfg_diffConfig := dc |} := c in
  match ch with
  | set_orientation v => Build_MergeConfig v rc rr h g cu dc
  | set_revertControls v => Build_MergeConfig o v rr h g cu dc
  | set_renderRevertControl v => Build_MergeConfig o rc v h g cu dc
  | set_highlightChanges v => Build_MergeConfig o rc rr v g cu dc
  | set_gutter v => Build_MergeConfig o rc rr h v cu dc
  | set_collapseUnchanged v => Build_MergeConfig o rc rr h g v dc
  | set_diffConfig v => Build_MergeConfig o rc rr h g cu v
  end.

(** [mergeView.reconfigure(change)] *)
Definition MergeView_reconfigure (mv : MergeView) (ch : MergeConfigChange) : MergeView :=
  {| mv_a := mv_a mv; mv_b := mv_b mv; mv_config := MergeConfig_apply (mv_config mv) ch;
     mv_destroyed := mv_destroyed mv |}.

Definition MergeView_destroy (mv : MergeView) : MergeView :=
  {| mv_a := EditorView_destroy (mv_a mv); mv_b := EditorView_destroy (mv_b mv);
     mv_config := mv_config mv; mv_destroyed := true |}.

Inductive Event :=
| call_onChange (fn : nat) (v : DiffEditorModel)
| call_onTouched (fn : nat)
| emit_originalValueChange (v : string)
| emit_originalFocus
| emit_originalBlur
| emit_modifiedValueChange (v : string)
| emit_modifiedFocus
| emit_modifiedBlur.

Record World := {
  inputs : Inputs;
  _onChange : option nat;     (* [None] is the initial [() => {}] *)
  _onTouched : option nat;
  mergeView : option MergeView;  (* [None] is [undefined] *)
  events : list Event;           (* oldest first *)
  contentDOM_listeners : list (Editor * DomEvent);
  views_created : nat;           (* how many times [new MergeView] ran *)
}.

Definition set_inputs (i : Inputs) (w : World) : World :=
  {| inputs := i; _onChange := _onChange w; _onTouched := _onTouched w;
     mergeView := mergeView w; events := events w;
     contentDOM_listeners := contentDOM_listeners w; views_created := views_created w |}.

Definition set__onChange (f : option nat) (w : World) : World :=
  {| inputs := inputs w; _onChange := f; _onTouched := _onTouched w;
     mergeView := mergeView w; events := events w;
     contentDOM_listeners := contentDOM_listeners w; views_created := views_created w |}.

Definition set__onTouched (f : option nat) (w : World) : World :=
  {| inputs := inputs w; _onChange := _onChange w; _onTouched := f;
     mergeView := mergeView w; events := events w;
     contentDOM_listeners := contentDOM_listeners w; views_created := views_created w |}.

Definition set_mergeView (mv : option MergeView) (w : World) : World :=
  {| inputs := inputs w; _onChange := _onChange w; _onTouched := _onTouched w;
     mergeView := mv; events := events w;
     contentDOM_listeners := contentDOM_listeners w; views_created := views_created w |}.

Definition set_events (l : list Event) (w : World) : World :=
  {| inputs := inputs w; _onChange := _onChange w; _onTouched := _onTouched w;
     mergeView := mergeView w; events := l;
     contentDOM_listeners := contentDOM_listeners w; views_created := views_created w |}.

Definition set_contentDOM_listeners (l : list (Editor * DomEvent)) (w : World) : World :=
  {| inputs := inputs w; _onChange := _onChange w; _onTouched := _onTouched w;
     mergeView := mergeView w; events := events w;
     contentDOM_listeners := l; views_created := views_created w |}.

Definition set_views_created (n : nat) (w : World) : World :=
  {| inputs := inputs w; _onChange := _onChange w; _onTouched := _onTouched w;
     mergeView := mergeView w; events := events w;
     contentDOM_listeners := contentDOM_listeners w; views_created := n |}.

(** [this.originalValue.set(v)] *)
Definition originalValue_set (v : string) (i : Inputs) : Inputs :=
  {| setup := setup i; originalValue := v; originalExtensions := originalExtensions i;
     modifiedValue := modifiedValue i; modifiedExtensions := modifiedExtensions i;
     orientation := orientation i; revertControls := revertControls i;
     renderRevertControl := renderRevertControl i; highlightChanges := highlightChanges i;
     gutter := gutter i; disabled := disabled i; collapseUnchanged := collapseUnchanged i;
     diffConfig := diffConfig i |}.

(** [this.modifiedValue.set(v)] *)
Definition modifiedValue_set (v : string) (i : Inputs) : Inputs :=
  {| setup := setup i; originalValue := originalValue i;
     originalExtensions := originalExtensions i;
     modifiedValue := v; modifiedExtensions := modifiedExtensions i;
     orientation := orientation i; revertControls := revertControls i;
     renderRevertControl := renderRevertControl i; highlightChanges := highlightChanges i;
     gutter := gutter i; disabled := disabled i; collapseUnchanged := collapseUnchanged i;
     diffConfig := diffConfig i |}.

(** [this.disabled.set(b)] *)
Definition disabled_set (b : bool) (i : Inputs) : Inputs :=
  {| setup := setup i; originalValue := originalValue i;
     originalExtensions := originalExtensions i;
     modifiedValue := modifiedValue i; modifiedExtensions := modifiedExtensions i;
     orientation := orientation i; revertControls := revertControls i;
     renderRevertControl := renderRevertControl i; highlightChanges := highlightChanges i;
     gutter := gutter i; disabled := b; collapseUnchanged := collapseUnchanged i;
     diffConfig := diffConfig i |}.

Definition emit (e : Event) : M World unit :=
  modify (λ w, set_events (events w ++ [e]) w).

(** [this._onChange(v)] *)
Definition call__onChange (v : DiffEditorModel) : M World unit :=
  do w <- get;
  match _onChange w with
  | Some fn => emit (call_onChange fn v)
  | None => ret tt
  end.

(** [this._onTouched()] *)
Definition call__onTouched : M World unit :=
  do w <- get;
  match _onTouched w with
  | Some fn => emit (call_onTouched fn)
  | None => ret tt
  end.

Definition _updateListener (editor : Editor) (vu : ViewUpdate) : M World unit :=
  when (vu_docChanged vu
        && negb (existsb (λ tr, truthy (Transaction_annotation tr External))
                         (vu_transactions vu)))
    (let value := doc (vu_state vu) in
     match editor with
     | editor_a =>
         (do w <- get;
          call__onChange {| original := value; modified := modifiedValue (inputs w) |}) ;;
         modify (λ w, set_inputs (originalValue_set value (inputs w)) w) ;;
         emit (emit_originalValueChange value)
     | editor_b =>
         (do w <- get;
          call__onChange {| original := originalValue (inputs w); modified := value |}) ;;
         modify (λ w, set_inputs (modifiedValue_set value (inputs w)) w) ;;
         emit (emit_modifiedValueChange value)
     end).

(** One compartment object, used in both sub-editors. *)
Definition _editableConf : Compartment := 0.

Section Methods.
Context {P : Platform}.

(** [mergeView[editor].dispatch(spec)] on an existing merge view: the
    sub-editor's state is replaced and its own listener is called. *)
Definition editor_dispatch (mv : MergeView) (editor : Editor) (spec : TransactionSpec)
    : M World unit :=
  match EditorState_update (view_state (mv_editor mv editor)) spec with
  | Throw e => throw e
  | Return tr =>
      modify (set_mergeView
                (Some (mv_set_editor mv editor
                         (EditorView_setState (mv_editor mv editor) (tr_state tr))))) ;;
      _updateListener editor (ViewUpdate_of tr)
  end.

(** The object literal [setValue] hands to [dispatch], for a document [d]. *)
Definition setValue_spec (v : string) (d : string) : TransactionSpec :=
  {| changes := Some {| from := 0; to := String.length d; insert_text := v |};
     annotations := [];
     effects := [] |}.

Definition setValue (editor : Editor) (v : string) : M World unit :=
  do w <- get;
  match mergeView w with
  | None => ret tt   (* [?.] on undefined *)
  | Some mv =>
      editor_dispatch mv editor (setValue_spec v (doc (view_state (mv_editor mv editor))))
  end.

Definition setEditable (editor : Editor) (v : bool) : M World unit :=
  do w <- get;
  match mergeView w with
  | None => ret tt
  | Some mv =>
      editor_dispatch mv editor
        {| changes := None; annotations := [];
           effects := [Compartment_reconfigure _editableConf (ext_editable v)] |}
  end.

(** [this.mergeView?.reconfigure(change)] *)
Definition reconfigure (ch : MergeConfigChange) : M World unit :=
  modify (λ w, set_mergeView ((λ mv, MergeView_reconfigure mv ch) <$> mergeView w) w).

Definition changed (changes : gset string) (key : string) : bool :=
  bool_decide (key ∈ changes).

Definition ngOnChanges (changes : gset string) : M World unit :=
  when (changed changes "originalValue")
    (do w <- get; setValue editor_a (originalValue (inputs w))) ;;
  when (changed changes "modifiedValue")
    (do w <- get; setValue editor_b (modifiedValue (inputs w))) ;;
  when (changed changes "orientation")
    (do w <- get; reconfigure (set_orientation (orientation (inputs w)))) ;;
  when (changed changes "revertControls")
    (do w <- get; reconfigure (set_revertControls (revertControls (inputs w)))) ;;
  when (changed changes "renderRevertControl")
    (do w <- get; reconfigure (set_renderRevertControl (renderRevertControl (inputs w)))) ;;
  when (changed changes "highlightChanges")
    (do w <- get; reconfigure (set_highlightChanges (highlightChanges (inputs w)))) ;;
  when (changed changes "gutter")
    (do w <- get; reconfigure (set_gutter (gutter (inputs w)))) ;;
  when (changed changes "collapseUnchanged")
    (do w <- get; reconfigure (set_collapseUnchanged (collapseUnchanged (inputs w)))) ;;
  when (changed changes "diffConfig")
    (do w <- get; reconfigure (set_diffConfig (diffConfig (inputs w)))) ;;
  when (changed changes "disabled")
    (do w <- get;
     let disabled := disabled (inputs w) in
     setEditable editor_a (negb disabled) ;;
     setEditable editor_b (negb disabled)).

(** The extensions of one side, as [ngOnInit] lists them. *)
Definition side_extensions (s : Setup) (extra : list Extension) : Extension :=
  ext_array ([ ext_updateListener;
               ext_compartment _editableConf (ext_array []);
               setup_extension s ] ++ extra).

Definition contentDOM_handler (editor : Editor) (e : DomEvent) : M World unit :=
  call__onTouched ;;
  emit match editor, e with
       | editor_a, dom_focus => emit_originalFocus
       | editor_a, dom_blur => emit_originalBlur
       | editor_b, dom_focus => emit_modifiedFocus
       | editor_b, dom_blur => emit_modifiedBlur
       end.

(** The content element of one side receives a focus or blur event. *)
Definition contentDOM_dispatchEvent (editor : Editor) (e : DomEvent) : M World unit :=
  do w <- get;
  when (bool_decide ((editor, e) ∈ contentDOM_listeners w)) (contentDOM_handler editor e).

Definition addEventListener (editor : Editor) (e : DomEvent) : M World unit :=
  modify (λ w, set_contentDOM_listeners (contentDOM_listeners w ++ [(editor, e)]) w).

Definition ngOnInit : M World unit :=
  do w <- get;
  let i := inputs w in
  let setup := setup i in
  let setupValue := DiffEditor.setup i in
  let n := views_created w in
  modify (λ w, set_views_created (S n)
    (set_mergeView
       (Some {| mv_a := {| view_id := 2 * n;
                           view_state := EditorState_create (originalValue i)
                                           (side_extensions setup (originalExtensions i));
                           hasFocus := false; destroyed := false |};
                mv_b := {| view_id := 2 * n + 1;
                           view_state := EditorState_create (modifiedValue i)
                                           (side_extensions setupValue (modifiedExtensions i));
                           hasFocus := false; destroyed := false |};
                mv_config := {| cfg_orientation := orientation i;
                                cfg_revertControls := revertControls i;
                                cfg_renderRevertControl := renderRevertControl i;
                                cfg_highlightChanges := highlightChanges i;
                                cfg_gutter := gutter i;
                                cfg_collapseUnchanged := collapseUnchanged i;
                                cfg_diffConfig := diffConfig i |};
                mv_destroyed := false |}) w)) ;;
  addEventListener editor_a dom_focus ;;
  addEventListener editor_a dom_blur ;;
  addEventListener editor_b dom_focus ;;
  addEventListener editor_b dom_blur ;;
  let disabled := disabled i in
  setEditable editor_a (negb disabled) ;;
  setEditable editor_b (negb disabled).

Definition ngOnDestroy : M World unit :=
  modify (λ w, set_mergeView (MergeView_destroy <$> mergeView w) w).

(** [value] is [None] for [null], [undefined] or anything that is not an
    object. *)
Definition writeValue (value : option DiffEditorModel) : M World unit :=
  do w <- get;
  match mergeView w, value with
  | Some _, Some value =>
      modify (λ w, set_inputs (originalValue_set (original value) (inputs w)) w) ;;
      modify (λ w, set_inputs (modifiedValue_set (modified value) (inputs w)) w) ;;
      setValue editor_a (original value) ;;
      setValue editor_b (modified value)
  | _, _ => ret tt
  end.

Definition registerOnChange (fn : nat) : M World unit :=
  modify (set__onChange (Some fn)).

Definition registerOnTouched (fn : nat) : M World unit :=
  modify (set__onTouched (Some fn)).

Definition setDisabledState (isDisabled : bool) : M World unit :=
  modify (λ w, set_inputs (disabled_set isDisabled (inputs w)) w) ;;
  setEditable editor_a (negb isDisabled) ;;
  setEditable editor_b (negb isDisabled).

End Methods.

(** A component as constructed, before [ngOnInit], with its inputs bound. *)
Definition constructed (i : Inputs) : World :=
  {| inputs := i; _onChange := None; _onTouched := None; mergeView := None;
     events := []; contentDOM_listeners := []; views_created := 0 |}.

(** The inputs' declared defaults. *)
Definition default_inputs : Inputs :=
  {| setup := basic; originalValue := ""; originalExtensions := [];
     modifiedValue := ""; modifiedExtensions := [];
     orientation := None; revertControls := None; renderRevertControl := None;
     highlightChanges := true; gutter := true; disabled := false;
     collapseUnchanged := None; diffConfig := None |}.

(** [this.mergeView[editor].state.doc.toString()] *)
Definition current_content (w : World) (editor : Editor) : option string :=
  (λ mv, doc (view_state (mv_editor mv editor))) <$> mergeView w.

(** The engine dispatches a transaction for a local edit in one of the
    sub-editors. *)
Definition user_edit {P : Platform} (editor : Editor) (c : ChangeSpec) (userEvent : string)
    : M World unit :=
  do w <- get;
  match mergeView w with
  | None => throw TypeError
  | Some mv =>
      editor_dispatch mv editor
        {| changes := Some c;
           annotations := [annotation_of Transaction_userEvent (val_string userEvent)];
           effects := [] |}
  end.

(** The component after [ngOnInit]. *)
Definition initialized {P : Platform} (i : Inputs) : World :=
  fst (ngOnInit (constructed i)).

(** Components after [ngOnInit] with the default inputs, evaluated; the
    second has callback 7 registered. *)
Definition sample : World :=
  Eval vm_compute in initialized (P := ascii_platform) default_inputs.
Definition sample_registered : World :=
  Eval vm_compute in fst (registerOnChange 7 (initialized (P := ascii_platform) default_inputs)).

(** The options of the merge view that [ngOnChanges] forwards one by one. *)
Inductive Option_ :=
| o_orientation | o_revertControls | o_renderRevertControl | o_highlightChanges
| o_gutter | o_collapseUnchanged | o_diffConfig.

(** The name under which [ngOnChanges] looks an option up in [changes]. *)
Definition option_key (o : Option_) : string :=
  match o with
  | o_orientation => "orientation"
  | o_revertControls => "revertControls"
  | o_renderRevertControl => "renderRevertControl"
  | o_highlightChanges => "highlightChanges"
  | o_gutter => "gutter"
  | o_collapseUnchanged => "collapseUnchanged"
  | o_diffConfig => "diffConfig"
  end.

(** The object [ngOnChanges] hands to [reconfigure] for an option. *)
Definition option_change (o : Option_) (i : Inputs) : MergeConfigChange :=
  match o with
  | o_orientation => set_orientation (orientation i)
  | o_revertControls => set_revertControls (revertControls i)
  | o_renderRevertControl => set_renderRevertControl (renderRevertControl i)
  | o_highlightChanges => set_highlightChanges (highlightChanges i)
  | o_gutter => set_gutter (gutter i)
  | o_collapseUnchanged => set_collapseUnchanged (collapseUnchanged i)
  | o_diffConfig => set_diffConfig (diffConfig i)
  end.

(** The merge view [ngOnInit] constructs. *)
Definition new_MergeView (w : World) : MergeView :=
  let i := inputs w in
  {| mv_a := {| view_id := 2 * views_created w;
                view_state := EditorState_create (originalValue i)
                                (side_extensions (setup i) (originalExtensions i));
                hasFocus := false; destroyed := false |};
     mv_b := {| view_id := 2 * views_created w + 1;
                view_state := EditorState_create (modifiedValue i)
                                (side_extensions (setup i) (modifiedExtensions i));
                hasFocus := false; destroyed := false |};
     mv_config := {| cfg_orientation := orientation i;
                     cfg_revertControls := revertControls i;
                     cfg_renderRevertControl := renderRevertControl i;
                     cfg_highlightChanges := highlightChanges i;
                     cfg_gutter := gutter i;
                     cfg_collapseUnchanged := collapseUnchanged i;
                     cfg_diffConfig := diffConfig i |};
     mv_destroyed := false |}.

(** Both sub-editors with their editable compartment reconfigured. *)
Definition both_editable (mv : MergeView) (b : bool) : MergeView :=
  mv_set_editor
    (mv_set_editor mv editor_a (reconfigured (mv_a mv) _editableConf (ext_editable b)))
    editor_b (reconfigured (mv_b mv) _editableConf (ext_editable b)).

(** The two model fields hold what the two documents hold. *)
Definition in_sync (w : World) : Prop :=
  current_content w editor_a = Some (originalValue (inputs w))
  ∧ current_content w editor_b = Some (modifiedValue (inputs w)).

(** The current value of an option of the merge view, with its key. *)
Definition option_get (o : Option_) (c : MergeConfig) : MergeConfigChange :=
  match o with
  | o_orientation => set_orientation (cfg_orientation c)
  | o_revertControls => set_revertControls (cfg_revertControls c)
  | o_renderRevertControl => set_renderRevertControl (cfg_renderRevertControl c)
  | o_highlightChanges => set_highlightChanges (cfg_highlightChanges c)
  | o_gutter => set_gutter (cfg_gutter c)
  | o_collapseUnchanged => set_collapseUnchanged (cfg_collapseUnchanged c)
  | o_diffConfig => set_diffConfig (cfg_diffConfig c)
  end.

(** What the host, the form binding or the user can do to an initialized
    diff wrapper. *)
Inductive Operation :=
| op_setValue (editor : Editor) (x : string)
| op_setEditable (editor : Editor) (b : bool)
| op_writeValue (value : option DiffEditorModel)
| op_setDisabledState (isDisabled : bool)
| op_ngOnChanges (changes : gset string)
| op_user_edit (editor : Editor) (c : ChangeSpec) (userEvent : string).

Definition perform {P : Platform} (op : Operation) : M World unit :=
  match op with
  | op_setValue editor x => setValue editor x
  | op_setEditable editor b => setEditable editor b
  | op_writeValue value => writeValue value
  | op_setDisabledState isDisabled => setDisabledState isDisabled
  | op_ngOnChanges changes => ngOnChanges changes
  | op_user_edit editor c userEvent => user_edit editor c userEvent
  end.

(** A merge view exists and the model fields agree with the documents. *)
Definition synced (w : World) : Prop := is_Some (mergeView w) ∧ in_sync w.

(** A body that, started on a synced component, ends on a synced one,
    whether it returns or throws. *)
Definition keeps_synced (m : M World unit) : Prop :=
  ∀ w, synced w → ∃ w' r, m w = (w', r) ∧ synced w'.

(** The model field of a side, its name in [changes], and its setter. *)
Definition model_value (editor : Editor) (i : Inputs) : string :=
  match editor with editor_a => originalValue i | editor_b => modifiedValue i end.

Definition model_key (editor : Editor) : string :=
  match editor with editor_a => "originalValue" | editor_b => "modifiedValue" end.

Definition model_set (editor : Editor) (x : string) (i : Inputs) : Inputs :=
  match editor with
  | editor_a => originalValue_set x i
  | editor_b => modifiedValue_set x i
  end.

End DiffEditor.

(** Examples are evaluated on ASCII text. *)
#[global] Existing Instance ascii_platform | 100.

(** * Facts about the engine interface *)

Section EngineFacts.

Lemma append_empty_r (s : string) : s +:+ "" = s.
Proof.
  induction s as [|c s IH]; [reflexivity |].
  change (String c (s +:+ "") = String c s). by rewrite IH.
Qed.

Lemma substring_zero_length (n : nat) (s : string) : String.substring n 0 s = "".
Proof.
  revert n. induction s as [|c s IH]; intros [|n]; simpl; try reflexivity. apply IH.
Qed.

(** A text without carriage return is kept as it is, and only such a
    text. *)
Lemma normalize_line_breaks_fixed (s : string) :
  normalize_line_breaks s = s ↔ has_CR s = false.
Proof.
  induction s as [|c s IH]; [done |]. cbn [normalize_line_breaks has_CR].
  destruct (Ascii.eqb c CR) eqn:Hc.
  - apply Ascii.eqb_eq in Hc. subst c. cbn [orb]. split; [| discriminate].
    intros H. injection H as H _. discriminate H.
  - cbn [orb]. rewrite <- IH. split; [by intros [= ->] | by intros ->].
Qed.

Lemma normalize_line_breaks_no_CR (s : string) : has_CR (normalize_line_breaks s) = false.
Proof.
  assert (H : ∀ n s, String.length s ≤ n → has_CR (normalize_line_breaks s) = false).
  { clear s. induction n as [|n IH]; intros [|c s] Hn; cbn in Hn; try done; try lia.
    cbn [normalize_line_breaks]. destruct (Ascii.eqb c CR) eqn:Hc.
    - cbn [has_CR]. change (Ascii.eqb LF CR) with false. cbn [orb].
      destruct s as [|c' s']; [done |].
      destruct (Ascii.eqb c' LF); apply IH; cbn in *; lia.
    - cbn [has_CR]. rewrite Hc. cbn [orb]. apply IH. lia. }
  by apply (H (String.length s)).
Qed.

(** What the engine keeps of a text it already keeps is the same text. *)
Lemma normalize_line_breaks_idemp (s : string) :
  normalize_line_breaks (normalize_line_breaks s) = normalize_line_breaks s.
Proof. apply normalize_line_breaks_fixed, normalize_line_breaks_no_CR. Qed.

Lemma normalize_line_breaks_truthy (s : string) :
  truthy_string (normalize_line_breaks s) = truthy_string s.
Proof. destruct s as [|c s]; [done |]. cbn. by destruct (Ascii.eqb c CR). Qed.

(** Replacing the whole document by [v] leaves [v] with its line breaks
    normalised. *)
Lemma apply_change_whole (v d : string) :
  apply_change {| from := 0; to := String.length d; insert_text := v |} d
  = normalize_line_breaks v.
Proof.
  unfold apply_change; simpl from; simpl to; simpl insert_text.
  rewrite Nat.sub_diag, !substring_zero_length. simpl. apply append_empty_r.
Qed.

Lemma truthy_string_false (s : string) : truthy_string s = false ↔ s = "".
Proof. destruct s; simpl; split; congruence. Qed.

Lemma length_zero_empty (s : string) : String.length s = 0 → s = "".
Proof. destruct s; simpl; [reflexivity | discriminate]. Qed.

Lemma whole_change_None (d v : string) : whole_change d v = None ↔ d = "" ∧ v = "".
Proof.
  unfold whole_change, change_is_empty. cbn [from to insert_text].
  destruct d as [|c d], v as [|c' v]; cbn; split; try discriminate; try tauto.
  all: intros [? ?]; discriminate.
Qed.

(** The transaction of a whole-document replacement, whatever annotations
    come with it. *)
Lemma EditorState_update_whole {P : Platform}
    (st : EditorState) (v : string) (anns : list Annotation) :
  EditorState_update st
    {| changes := Some {| from := 0; to := String.length (doc st); insert_text := v |};
       annotations := anns; effects := [] |}
  = Return {| tr_startState := st; tr_changes := whole_change (doc st) v;
              tr_annotations := anns; tr_effects := [];
              tr_state := {| doc := normalize_line_breaks v; base := base st;
                             compartments := compartments st |} |}.
Proof.
  unfold EditorState_update, change_in_range. cbn [changes from to annotations effects].
  rewrite Nat.leb_refl. cbn [Nat.leb negb andb fold_left rejected].
  unfold whole_change.
  destruct (change_is_empty _) eqn:He.
  - unfold change_is_empty in He. cbn [from to insert_text] in He.
    apply andb_true_iff in He as [Hl Hv].
    apply Nat.eqb_eq in Hl. symmetry in Hl. apply length_zero_empty in Hl.
    apply negb_true_iff, truthy_string_false in Hv. by rewrite Hl, Hv.
  - by rewrite apply_change_whole.
Qed.

Lemma no_External_existsb (trs : list Transaction) :
  (∀ tr, tr ∈ trs → truthy (Transaction_annotation tr External) = false) →
  existsb (λ tr, truthy (Transaction_annotation tr External)) trs = false.
Proof.
  intros Hext. apply not_true_iff_false. intros He.
  apply existsb_exists in He as (tr & Hin & Ht).
  rewrite Hext in Ht; [discriminate | by apply list_elem_of_In].
Qed.

(** Steps of the monad that leave the store as it is. *)
Lemma when_unchanged {St} (c : bool) (m : M St unit) (s : St) :
  m s = (s, Return tt) → when c m s = (s, Return tt).
Proof. intros H. by destruct c. Qed.

Lemma bind_unchanged {St B} (m : M St unit) (k : unit → M St B) (s : St) :
  m s = (s, Return tt) → bind m k s = k tt s.
Proof. intros H. unfold bind. by rewrite H. Qed.

Lemma bool_decide_is_Some {A} (x : A) : bool_decide (is_Some (Some x)) = true.
Proof. apply bool_decide_eq_true_2. eauto. Qed.

Lemma bool_decide_is_Some_None {A} : bool_decide (is_Some (@None A)) = false.
Proof. apply bool_decide_eq_false_2. intros [? ?]. discriminate. Qed.

(** [find] returns the first element that satisfies the test. *)
Lemma find_first {A} (P : A → bool) (xs : list A) (x : A) :
  List.find P xs = Some x
  ↔ ∃ pre post, xs = pre ++ x :: post ∧ Forall (λ y, P y = false) pre ∧ P x = true.
Proof.
  split.
  - induction xs as [|y xs IH]; [discriminate |]. cbn.
    destruct (P y) eqn:Hy.
    + intros [= ->]. exists [], xs. by repeat split.
    + intros H. destruct (IH H) as (pre & post & -> & Hpre & Hx).
      exists (y :: pre), post. repeat split; [| exact Hx]. by constructor.
  - intros (pre & post & -> & Hpre & Hx).
    induction Hpre as [|y pre Hy _ IH]; cbn; [by rewrite Hx | by rewrite Hy].
Qed.

Lemma find_is_Some {A} (P : A → bool) (xs : list A) (x : A) :
  x ∈ xs → P x = true → is_Some (List.find P xs).
Proof.
  intros Hin Hx. destruct (List.find P xs) eqn:Hf; [eauto |].
  apply list_elem_of_In in Hin.
  pose proof (find_none P xs Hf x Hin). congruence.
Qed.

(** An effects-only update: no effect brings a rejected unit, or the update
    throws for the first one. *)
Lemma EditorState_update_effects {P : Platform} (st : EditorState) (effs : list StateEffect) :
  EditorState_update st {| changes := None; annotations := []; effects := effs |}
  = match rejected effs with
    | Some u => Throw (InvalidIndentUnit u)
    | None =>
        Return {| tr_startState := st; tr_changes := None; tr_annotations := [];
                  tr_effects := effs;
                  tr_state := fold_left apply_effect effs
                                {| doc := doc st; base := base st;
                                   compartments := compartments st |} |}
    end.
Proof. reflexivity. Qed.

(** Effects reconfigure; they never touch the document. *)
Lemma apply_effects_doc (effs : list StateEffect) (st : EditorState) :
  doc (fold_left apply_effect effs st) = doc st.
Proof.
  revert st. induction effs as [|eff effs IH]; intros st; [reflexivity |].
  cbn [fold_left]. rewrite IH. by destruct eff.
Qed.

Lemma rejected_singleton {P : Platform} (c : Compartment) (e : Extension) :
  rejected [Compartment_reconfigure c e] = rejected_unit e.
Proof. cbn. by destruct (rejected_unit e). Qed.

(** Every platform rejects the unit ab and accepts two spaces and a tab. *)
Lemma indentUnit_accepts_samples {P : Platform} :
  indentUnit_accepts "ab" = false
  ∧ indentUnit_accepts "  " = true
  ∧ indentUnit_accepts (String "009"%char "") = true.
Proof. by rewrite !indentUnit_accepts_ascii. Qed.

End EngineFacts.

(** Running method bodies: a step that returns hands its store to the rest
    of the body. *)
Section MonadFacts.

Lemma bind_run {St A B} (m : M St A) (k : A → M St B) (s s' : St) (a : A) :
  m s = (s', Return a) → bind m k s = k a s'.
Proof. intros H. unfold bind. by rewrite H. Qed.

Lemma bind_modify {St B} (f : St → St) (k : unit → M St B) (s : St) :
  bind (modify f) k s = k tt (f s).
Proof. reflexivity. Qed.

Lemma bind_ret {St A B} (a : A) (k : A → M St B) (s : St) : bind (ret a) k s = k a s.
Proof. reflexivity. Qed.

Lemma bind_get {St B} (k : St → M St B) (s : St) : bind get k s = k s s.
Proof. reflexivity. Qed.

End MonadFacts.

(** Reduce the projections of a store that is written as a record. *)
Ltac code_editor_proj :=
  cbn [CodeEditor.inputs CodeEditor._onChange CodeEditor._onTouched CodeEditor.view
       CodeEditor.state CodeEditor.events CodeEditor.console CodeEditor.loading
       CodeEditor.contentDOM_listeners CodeEditor.views_created
       CodeEditor.set_inputs CodeEditor.set__onChange CodeEditor.set__onTouched
       CodeEditor.set_view CodeEditor.set_state CodeEditor.set_events
       CodeEditor.set_console CodeEditor.set_loading CodeEditor.set_contentDOM_listeners
       CodeEditor.set_views_created].

Ltac diff_editor_proj :=
  cbn [DiffEditor.inputs DiffEditor._onChange DiffEditor._onTouched DiffEditor.mergeView
       DiffEditor.events DiffEditor.contentDOM_listeners DiffEditor.views_created
       DiffEditor.set_inputs DiffEditor.set__onChange DiffEditor.set__onTouched
       DiffEditor.set_mergeView DiffEditor.set_events DiffEditor.set_contentDOM_listeners
       DiffEditor.set_views_created].

(** Evaluate the comparisons of literal keys. *)
Ltac decide_literal_keys :=
  repeat match goal with
         | |- context [bool_decide (?a = ?b)] =>
             let r := eval vm_compute in (bool_decide (a = b)) in
             change (bool_decide (a = b)) with r
         end.


(** * The single-editor wrapper *)

Section CodeEditorFacts.
Import CodeEditor.

Lemma _updateListener_forwards (w : World) (vu : ViewUpdate) :
  vu_docChanged vu = true →
  existsb (λ tr, truthy (Transaction_annotation tr External)) (vu_transactions vu) = false →
  _updateListener vu w
  = (set_events (events w ++ forwarded w (doc (vu_state vu))) w, Return tt).
Proof.
  intros Hd He. unfold _updateListener, forwarded. rewrite Hd, He. cbn [andb negb when].
  unfold call__onChange, bind, get, emit, modify.
  destruct w as [i oc ot vw st ev co lo li n]. cbn.
  destruct oc; cbn; unfold set_events; cbn; by rewrite <- ?app_assoc.
Qed.

Lemma _updateListener_ignores (w : World) (vu : ViewUpdate) :
  vu_docChanged vu = false
  ∨ existsb (λ tr, truthy (Transaction_annotation tr External)) (vu_transactions vu) = true →
  _updateListener vu w = (w, Return tt).
Proof.
  intros [H|H]; unfold _updateListener; rewrite H; [|rewrite andb_false_r]; reflexivity.
Qed.

(** [setValue] on an existing view. *)
Lemma setValue_initialized {P : Platform} (w : World) (v : EditorView) (x : string) :
  view w = Some v →
  setValue x w
  = let st' := {| doc := normalize_line_breaks x; base := base (view_state v);
                  compartments := compartments (view_state v) |} in
    let w' := set_view (Some (EditorView_setState v st')) w in
    (match whole_change (doc (view_state v)) x with
     | Some _ => set_events (events w ++ forwarded w (normalize_line_breaks x)) w'
     | None => w'
     end, Return tt).
Proof.
  intros Hv. unfold setValue, view_dispatch, setValue_spec, bind, get.
  rewrite Hv. cbv beta iota. rewrite Hv. cbv beta iota.
  rewrite EditorState_update_whole. unfold modify. cbv beta iota zeta.
  destruct (whole_change _ _) eqn:Hc.
  - by rewrite _updateListener_forwards.
  - rewrite _updateListener_ignores; [reflexivity | by left].
Qed.

(** An effects-only dispatch that the engine accepts replaces the state and
    notifies nobody. *)
Lemma _dispatchEffects_initialized {P : Platform}
    (w : World) (v : EditorView) (effs : list StateEffect) :
  view w = Some v →
  rejected effs = None →
  _dispatchEffects effs w
  = (set_view (Some (EditorView_setState v
                       (fold_left apply_effect effs
                          {| doc := doc (view_state v); base := base (view_state v);
                             compartments := compartments (view_state v) |}))) w,
     Return tt).
Proof.
  intros Hv Hr. unfold _dispatchEffects, view_dispatch, bind, get. rewrite Hv.
  cbv beta iota. rewrite EditorState_update_effects, Hr. reflexivity.
Qed.

(** An effects-only dispatch that brings a rejected unit throws and leaves
    the component as it was. *)
Lemma _dispatchEffects_rejected {P : Platform}
    (w : World) (v : EditorView) (effs : list StateEffect) (u : string) :
  view w = Some v →
  rejected effs = Some u →
  _dispatchEffects effs w = (w, Throw (InvalidIndentUnit u)).
Proof.
  intros Hv Hr. unfold _dispatchEffects, view_dispatch, bind, get. rewrite Hv.
  cbv beta iota. rewrite EditorState_update_effects, Hr. reflexivity.
Qed.


Lemma changed_singleton (k k' : string) : changed {[k]} k' = bool_decide (k' = k).
Proof. unfold changed. apply bool_decide_ext. set_solver. Qed.

(** Name the view of an evaluated component. *)
Ltac exists_view w :=
  let o := eval vm_compute in (view w) in
  match o with Some ?v => exists v end.

(** Evaluate the comparisons of literal keys. *)
Ltac decide_keys :=
  repeat match goal with
         | |- context [bool_decide (?a = ?b)] =>
             let r := eval vm_compute in (bool_decide (a = b)) in
             change (bool_decide (a = b)) with r
         end.

(** Run a chain of [when]s in which one branch is taken. *)
Ltac run_chain :=
  cbn [negb orb when]; unfold bind, ret, get; cbv beta iota;
  repeat match goal with
         | |- context [match ?m ?s with pair _ _ => _ end] =>
             destruct (m s) as [? [[]|?]]
         end;
  try reflexivity.

Lemma ngOnChanges_value {P : Platform} (w : World) (v : EditorView) :
  view w = Some v → ngOnChanges {["value"]} w = setValue (value (inputs w)) w.
Proof.
  intros Hv. unfold ngOnChanges. rewrite !changed_singleton.
  unfold bind at 1. unfold get at 1. rewrite Hv, bool_decide_is_Some.
  decide_keys. run_chain.
Qed.

Lemma ngOnChanges_field {P : Platform} (f : Field) (w : World) (v : EditorView) :
  view w = Some v → ngOnChanges {[key f]} w = setter f (inputs w) w.
Proof.
  intros Hv. unfold ngOnChanges. rewrite !changed_singleton.
  unfold bind at 1. unfold get at 1. rewrite Hv, bool_decide_is_Some.
  destruct f; cbn [key setter]; decide_keys; run_chain.
Qed.

Lemma writeValue_initialized {P : Platform} (w : World) (v : EditorView) (x : string) :
  view w = Some v → writeValue x w = setValue x w.
Proof.
  intros Hv. unfold writeValue. unfold bind at 1. unfold get at 1.
  by rewrite Hv, bool_decide_is_Some.
Qed.

Lemma reconfigure_initialized {P : Platform}
    (w : World) (v : EditorView) (c : Compartment) (e : Extension) :
  view w = Some v →
  rejected_unit e = None →
  _dispatchEffects [Compartment_reconfigure c e] w
  = (set_view (Some (reconfigured v c e)) w, Return tt).
Proof.
  intros Hv Hr. rewrite (_dispatchEffects_initialized w v); [done | done |].
  by rewrite rejected_singleton.
Qed.

Lemma reconfigure_rejected {P : Platform}
    (w : World) (v : EditorView) (c : Compartment) (e : Extension) (u : string) :
  view w = Some v →
  rejected_unit e = Some u →
  _dispatchEffects [Compartment_reconfigure c e] w = (w, Throw (InvalidIndentUnit u)).
Proof.
  intros Hv Hr. apply (_dispatchEffects_rejected w v); [done |].
  by rewrite rejected_singleton.
Qed.

(** The setter of a field other than the language is one reconfigure
    effect on the field's compartment. *)
Lemma setter_simple {P : Platform} (f : Field) (i : Inputs) (e : Extension) :
  content f i = Some e →
  setter f i = _dispatchEffects [Compartment_reconfigure (slot f) e].
Proof. destruct f; cbn [content setter slot]; intros [= <-]; reflexivity. Qed.

Lemma content_simple (f : Field) (i : Inputs) :
  f ≠ f_language → ∃ e, content f i = Some e.
Proof. destruct f; cbn [content]; intros Hf; by eauto. Qed.

(** The three ways [setLanguage] can end on an existing view. *)
Lemma setLanguage_initialized {P : Platform} (w : World) (v : EditorView) (lang : string) :
  view w = Some v →
  setLanguage lang w = (set_view (Some (reconfigured v _languageConf (ext_array []))) w, Return tt)
  ∨ (∃ entries, setLanguage lang w = (set_console (console w ++ entries) w, Return tt))
  ∨ (∃ d, setLanguage lang w = (set_loading (loading w ++ [d]) w, Return tt)).
Proof.
  intros Hv. unfold setLanguage.
  destruct (negb (truthy_string lang) || String.eqb lang "plaintext").
  { left. by apply reconfigure_initialized. }
  right. unfold bind, get. cbv beta iota.
  destruct (List.length (languages (inputs w)) =? 0)%nat.
  { left. rewrite Hv, bool_decide_is_Some. eexists. reflexivity. }
  unfold _findLanguage, bind, get. cbv beta iota.
  destruct (List.find _ _) as [d|].
  - right. exists d. reflexivity.
  - left. eexists [_; _]. cbn. unfold set_console. cbn. by rewrite <- app_assoc.
Qed.

(** ** Content writes *)

(** C4, as amended.  On an initialized component, [setValue x] returns
    normally and the document read back afterwards is [x] with each of its
    line breaks, written [\r\n], [\r] or [\n], replaced by [\n], whatever
    the document was before; it is exactly [x] when, and only when, [x]
    contains no carriage return. *)
Theorem setValue_then_read {P : Platform} (w : World) (v : EditorView) (x : string) :
  view w = Some v →
  ∃ w', setValue x w = (w', Return tt)
        ∧ current_content w' = Some (normalize_line_breaks x)
        ∧ (current_content w' = Some x ↔ has_CR x = false).
Proof.
  intros Hv. rewrite (setValue_initialized w v x Hv). cbv zeta.
  eexists. split; [reflexivity |].
  assert (Hc : ∀ w1 : World,
             view w1 = Some (EditorView_setState v
                               {| doc := normalize_line_breaks x; base := base (view_state v);
                                  compartments := compartments (view_state v) |}) →
             current_content w1 = Some (normalize_line_breaks x)).
  { intros w1 H1. unfold current_content. by rewrite H1. }
  assert (Hw : current_content
                 (match whole_change (doc (view_state v)) x with
                  | Some _ =>
                      set_events (events w ++ forwarded w (normalize_line_breaks x))
                        (set_view (Some (EditorView_setState v
                           {| doc := normalize_line_breaks x; base := base (view_state v);
                              compartments := compartments (view_state v) |})) w)
                  | None =>
                      set_view (Some (EditorView_setState v
                           {| doc := normalize_line_breaks x; base := base (view_state v);
                              compartments := compartments (view_state v) |})) w
                  end) = Some (normalize_line_breaks x)).
  { destruct (whole_change _ _); by apply Hc. }
  split; [exact Hw |]. rewrite Hw, <- normalize_line_breaks_fixed.
  split; [by intros [= ->] | by intros ->].
Qed.

Lemma setValue_then_read_witness :
  ∃ v, view sample = Some v
       ∧ ∃ w', setValue "hello" sample = (w', Return tt)
               ∧ current_content w' = Some "hello".
Proof.
  exists_view sample. split; [reflexivity |].
  destruct (setValue_then_read sample _ "hello" eq_refl) as (w' & Hrun & Hread & _).
  exists w'. split; [exact Hrun | exact Hread].
Defined.

(** C4, counterexample.  After initialization with the default inputs,
    [setValue] of the text a\r\nb leaves the document a\nb, which is not the
    text that was set. *)
Lemma setValue_reads_back_normalised :
  let w' := fst (setValue a_CRLF_b sample) in
  snd (setValue a_CRLF_b sample) = Return tt
  ∧ current_content w' = Some a_LF_b
  ∧ current_content w' ≠ Some a_CRLF_b.
Proof. cbv zeta. split; [reflexivity |]. split; [reflexivity | discriminate]. Qed.

(** C1, as amended.  On an initialized component with a registered
    on-change callback, the transaction [setValue] dispatches carries the
    add-to-history annotation set to false and no [External] annotation, so
    the update listener does not filter it out: the write calls the callback
    once and emits one change event, both with the new content, which is the
    value with its line breaks normalised, unless the old document and the
    new value are both empty, in which case the document does not change and
    nothing is forwarded.  [writeValue] and a change notification for
    [value] do the same, being calls of [setValue]. *)
Theorem setValue_is_forwarded {P : Platform}
    (w : World) (v : EditorView) (x : string) (fn : nat) :
  view w = Some v →
  _onChange w = Some fn →
  (∃ tr, EditorState_update (view_state v) (setValue_spec x (doc (view_state v))) = Return tr
         ∧ Transaction_annotation tr External = None
         ∧ Transaction_annotation tr Transaction_addToHistory = Some (val_bool false))
  ∧ (∃ w', setValue x w = (w', Return tt)
           ∧ current_content w' = Some (normalize_line_breaks x)
           ∧ events w' = events w ++
               (if bool_decide (doc (view_state v) = "" ∧ x = "") then []
                else [call_onChange fn (normalize_line_breaks x);
                      emit_change (normalize_line_breaks x)]))
  ∧ writeValue x w = setValue x w
  ∧ (value (inputs w) = x → ngOnChanges {["value"]} w = setValue x w).
Proof.
  intros Hv Hfn. split; [| split; [| split]].
  - unfold setValue_spec. rewrite EditorState_update_whole. eexists. by repeat split.
  - rewrite (setValue_initialized w v x Hv). cbv zeta. eexists. split; [reflexivity |].
    case_bool_decide as Hd.
    + apply whole_change_None in Hd. rewrite Hd. unfold current_content. cbn.
      by rewrite app_nil_r.
    + destruct (whole_change _ _) eqn:Hc.
      * unfold forwarded, current_content. rewrite Hfn. by split.
      * apply whole_change_None in Hc. contradiction.
  - by apply writeValue_initialized with v.
  - intros <-. by apply ngOnChanges_value with v.
Qed.

Lemma setValue_is_forwarded_witness :
  ∃ v, view sample_registered = Some v
       ∧ _onChange sample_registered = Some 7
       ∧ ∃ w', setValue "hello" sample_registered = (w', Return tt)
               ∧ events w' = [call_onChange 7 "hello"; emit_change "hello"].
Proof.
  exists_view sample_registered. split; [reflexivity |]. split; [reflexivity |].
  destruct (setValue_is_forwarded sample_registered _ "hello" 7 eq_refl eq_refl)
    as (_ & (w' & Hrun & _ & Hev) & _).
  exists w'. split; [exact Hrun | exact Hev].
Defined.

(** C1, counterexample.  After initialization with the default inputs and
    with callback 7 registered, [setValue] and [writeValue] of the string
    hello each call the callback and emit a change event. *)
Lemma setValue_emits_change :
  let w := sample_registered in
  events w = []
  ∧ events (fst (setValue "hello" w)) = [call_onChange 7 "hello"; emit_change "hello"]
  ∧ events (fst (writeValue "hello" w)) = [call_onChange 7 "hello"; emit_change "hello"].
Proof. cbv zeta. repeat split. Qed.

(** C9, as amended.  When the update listener is handed an update that
    changed the document and in which no transaction carries a truthy
    [External] annotation, it calls the registered on-change callback with
    the new full content and then emits a change event with it.  The inputs
    of the component, among them the one-way [value] input, stay as they
    were. *)
Theorem updateListener_forwards_user_edit (w : World) (vu : ViewUpdate) (fn : nat) :
  _onChange w = Some fn →
  vu_docChanged vu = true →
  (∀ tr, tr ∈ vu_transactions vu → truthy (Transaction_annotation tr External) = false) →
  ∃ w', _updateListener vu w = (w', Return tt)
        ∧ events w' = events w ++ [call_onChange fn (doc (vu_state vu));
                                   emit_change (doc (vu_state vu))]
        ∧ inputs w' = inputs w.
Proof.
  intros Hfn Hd Hext.
  rewrite _updateListener_forwards; [| exact Hd |].
  - eexists. split; [reflexivity |]. unfold forwarded. rewrite Hfn. by split.
  - by apply no_External_existsb.
Qed.

Lemma updateListener_forwards_user_edit_witness :
  ∃ w',
    _onChange sample_registered = Some 7
    ∧ vu_docChanged typed_x = true
    ∧ (∀ tr, tr ∈ vu_transactions typed_x →
             truthy (Transaction_annotation tr External) = false)
    ∧ _updateListener typed_x sample_registered
      = (w', Return tt)
    ∧ events w' = [call_onChange 7 "x"; emit_change "x"].
Proof.
  assert (H : ∀ tr, tr ∈ vu_transactions typed_x →
                    truthy (Transaction_annotation tr External) = false).
  { intros tr Hin. apply list_elem_of_singleton in Hin. by subst tr. }
  destruct (updateListener_forwards_user_edit
              sample_registered typed_x 7
              eq_refl eq_refl H)
    as (w' & Hrun & Hev & _).
  exists w'. repeat split; [exact H | exact Hrun | exact Hev].
Defined.

(** C9, counterexample.  A typed character reaches the callback and the
    change event, and the document holds it, but the [value] input still
    holds the initial empty string. *)
Lemma user_edit_does_not_write_value :
  let w := sample_registered in
  let w' := fst (user_edit {| from := 0; to := 0; insert_text := "x" |} "input.type" w) in
  events w' = [call_onChange 7 "x"; emit_change "x"]
  ∧ current_content w' = Some "x"
  ∧ value (inputs w') = "".
Proof. cbv zeta. repeat split. Qed.

(** ** Language lookup *)

Lemma matches_language_spec {P : Platform} (n : string) (l : LanguageDescription) :
  matches_language n l = true
  ↔ ∃ a, a ∈ name l :: alias l ∧ toLowerCase n = toLowerCase a.
Proof.
  unfold matches_language. rewrite existsb_exists. split.
  - intros (a & Ha & He). exists a. split; [by apply list_elem_of_In |].
    by apply String.eqb_eq.
  - intros (a & Ha & He). exists a. split; [by apply list_elem_of_In |].
    by apply String.eqb_eq.
Qed.

Lemma not_sentinel (lang : string) :
  lang ≠ "" → lang ≠ "plaintext" →
  negb (truthy_string lang) || String.eqb lang "plaintext" = false.
Proof.
  intros H1 H2. apply orb_false_iff. split.
  - destruct lang; [done | reflexivity].
  - by apply String.eqb_neq.
Qed.

Lemma sentinel_test (lang : string) :
  negb (truthy_string lang) || String.eqb lang "plaintext" = true
  ↔ lang = "" ∨ lang = "plaintext".
Proof.
  rewrite orb_true_iff, negb_true_iff, truthy_string_false, String.eqb_eq. tauto.
Qed.

(** A store whose console is rewritten with nothing appended is the same
    store. *)
Lemma set_console_same (w : World) : set_console (console w ++ []) w = w.
Proof. destruct w. unfold set_console. cbn. by rewrite app_nil_r. Qed.

(** [setLanguage] with the empty string or the word plaintext, on an
    existing view. *)
Lemma setLanguage_sentinel {P : Platform} (w : World) (v : EditorView) (lang : string) :
  view w = Some v →
  lang = "" ∨ lang = "plaintext" →
  setLanguage lang w = (set_view (Some (reconfigured v _languageConf (ext_array []))) w, Return tt).
Proof.
  intros Hv Hs.
  assert (setLanguage lang w
          = _dispatchEffects [Compartment_reconfigure _languageConf (ext_array [])] w) as ->.
  { by destruct Hs as [-> | ->]. }
  by apply reconfigure_initialized.
Qed.

(** [setLanguage] with a name that is looked up, whether a view exists or
    not. *)
Lemma setLanguage_lookup {P : Platform} (w : World) (lang : string) :
  lang ≠ "" → lang ≠ "plaintext" →
  setLanguage lang w
  = match languages (inputs w) with
    | [] =>
        (set_console
           (console w ++
              if bool_decide (is_Some (view w)) then
                [console_error
                   ["No supported languages. Please set the `languages` prop at first."]]
              else []) w,
         Return tt)
    | _ :: _ =>
        match List.find (matches_language lang) (languages (inputs w)) with
        | Some d => (set_loading (loading w ++ [d]) w, Return tt)
        | None =>
            (set_console
               (console w ++
                  [console_error ["Language not found:"; lang];
                   console_info ["Supported language names:";
                                 join ", " (map name (languages (inputs w)))]]) w,
             Return tt)
        end
    end.
Proof.
  intros H1 H2. unfold setLanguage. rewrite (not_sentinel lang H1 H2).
  unfold bind, get. cbv beta iota.
  destruct (languages (inputs w)) as [|l0 ls] eqn:Hl; cbn [List.length Nat.eqb].
  - destruct (bool_decide (is_Some (view w))); cbn [when]; [reflexivity |].
    by rewrite set_console_same.
  - unfold _findLanguage, bind, get. cbv beta iota. rewrite Hl.
    destruct (List.find _ _); [reflexivity |].
    cbn. unfold set_console. cbn. by rewrite <- app_assoc.
Qed.

(** [setLanguage] with a name the lookup finds: a load is started. *)
Lemma setLanguage_found {P : Platform} (w : World) (n : string) (d : LanguageDescription) :
  n ≠ "" → n ≠ "plaintext" →
  List.find (matches_language n) (languages (inputs w)) = Some d →
  setLanguage n w = (set_loading (loading w ++ [d]) w, Return tt).
Proof.
  intros H1 H2 Hf. rewrite setLanguage_lookup by done.
  destruct (languages (inputs w)); [discriminate Hf | by rewrite Hf].
Qed.

(** A pending load that fulfils installs its package. *)
Lemma settle_load_fulfilled {P : Platform} (w : World) (v : EditorView) (k : nat)
    (d : LanguageDescription) (s : LanguageSupport) :
  view w = Some v → loading w !! k = Some d → load d = Some s →
  settle_load k w
  = (set_view (Some (reconfigured v _languageConf (ext_array [ext_language s])))
       (set_loading (delete k (loading w)) w), Return tt).
Proof.
  intros Hv Hk Hs. unfold settle_load. rewrite bind_get, Hk, bind_modify, Hs.
  unfold setLanguage_loaded. by rewrite (reconfigure_initialized _ v).
Qed.

(** C5, as amended.  On an initialized component, for a requested name that
    is neither empty nor the lower-case word plaintext, if some registered
    language has the name or an alias equal to the request once both are
    put in lower case by [toLowerCase], then [setLanguage] resolves to the
    first registered language, in registry order, that has such a name or
    alias; this is the language in question whenever no language registered
    before it matches as well.  The call returns normally with a load of the
    resolved language pending, and when that load fulfils its package is
    installed as the content of the language compartment. *)
Theorem setLanguage_resolves_first_match {P : Platform}
    (w : World) (v : EditorView) (n : string) (l : LanguageDescription) (a : string) :
  view w = Some v →
  n ≠ "" → n ≠ "plaintext" →
  l ∈ languages (inputs w) →
  a ∈ name l :: alias l →
  toLowerCase n = toLowerCase a →
  ∃ pre l0 post,
    languages (inputs w) = pre ++ l0 :: post
    ∧ Forall (λ x, matches_language n x = false) pre
    ∧ matches_language n l0 = true
    ∧ (∀ pre' post', languages (inputs w) = pre' ++ l :: post' →
                     Forall (λ x, matches_language n x = false) pre' → l0 = l)
    ∧ setLanguage n w = (set_loading (loading w ++ [l0]) w, Return tt)
    ∧ ∀ sup, load l0 = Some sup →
        ∃ w' v',
          settle_load (List.length (loading w)) (set_loading (loading w ++ [l0]) w)
          = (w', Return tt)
          ∧ view w' = Some v'
          ∧ compartments (view_state v') !! _languageConf = Some (ext_array [ext_language sup])
          ∧ loading w' = loading w.
Proof.
  intros Hv Hn1 Hn2 Hl Ha He.
  assert (Hm : matches_language n l = true) by (apply matches_language_spec; eauto).
  destruct (find_is_Some _ _ _ Hl Hm) as [l0 Hf].
  destruct (proj1 (find_first _ _ _) Hf) as (pre & post & Hsplit & Hpre & Hl0).
  exists pre, l0, post. split; [exact Hsplit |]. split; [exact Hpre |].
  split; [exact Hl0 |]. split; [| split].
  - intros pre' post' Hs' Hpre'.
    assert (List.find (matches_language n) (languages (inputs w)) = Some l) as Hf'.
    { apply find_first. by exists pre', post'. }
    congruence.
  - by apply setLanguage_found.
  - intros sup Hsup.
    erewrite settle_load_fulfilled; [| exact Hv | | exact Hsup].
    2:{ cbn [loading set_loading]. rewrite lookup_app_r, Nat.sub_diag by done. reflexivity. }
    eexists _, _. split; [reflexivity |]. split; [reflexivity |]. split.
    + cbn. by rewrite lookup_insert_eq.
    + cbn. rewrite delete_middle. apply app_nil_r.
Qed.

Lemma setLanguage_resolves_first_match_witness :
  ∃ v, view sample_js = Some v
       ∧ "JS" ≠ "" ∧ "JS" ≠ "plaintext"
       ∧ javascript ∈ languages (inputs sample_js)
       ∧ "js" ∈ name javascript :: alias javascript
       ∧ toLowerCase "JS" = toLowerCase "js"
       ∧ setLanguage "JS" sample_js
         = (set_loading [javascript] sample_js, Return tt).
Proof.
  exists_view sample_js. split; [reflexivity |].
  assert (H1 : "JS" ≠ "") by discriminate.
  assert (H2 : "JS" ≠ "plaintext") by discriminate.
  assert (H3 : javascript ∈ languages (inputs sample_js))
    by apply list_elem_of_here.
  assert (H4 : "js" ∈ name javascript :: alias javascript)
    by (apply list_elem_of_further, list_elem_of_here).
  assert (H5 : toLowerCase "JS" = toLowerCase "js") by reflexivity.
  repeat (split; [assumption |]).
  destruct (setLanguage_resolves_first_match
              sample_js _ "JS" javascript "js"
              eq_refl H1 H2 H3 H4 H5)
    as (pre & l0 & post & _ & _ & _ & Hfirst & Hset & _).
  rewrite Hset. rewrite (Hfirst [] []); [reflexivity | reflexivity | constructor].
Defined.

(** The example of the lookup, on every platform: a language named
    JavaScript with alias js is found under the requests JS and
    javascript. *)
Example findLanguage_JavaScript {P : Platform} :
  snd (_findLanguage "JS" sample_js) = Return (Some javascript)
  ∧ snd (_findLanguage "javascript" sample_js) = Return (Some javascript).
Proof.
  unfold _findLanguage. rewrite !bind_get.
  change (languages (inputs sample_js)) with [javascript].
  cbn [List.find]. unfold matches_language. cbn [name alias javascript existsb].
  rewrite !(toLowerCase_ascii "JS"), !(toLowerCase_ascii "javascript"),
    !(toLowerCase_ascii "JavaScript"), !(toLowerCase_ascii "js") by reflexivity.
  split; reflexivity.
Qed.

(** C5, counterexample.  With the registry C (alias h), C++ (aliases cpp,
    h), the request H equals an alias of C++ in lower case, yet the language
    resolved and loaded is C. *)
Lemma setLanguage_shared_alias :
  let w := sample_c_cpp in
  "h" ∈ name cpp_language :: alias cpp_language
  ∧ toLowerCase "H" = toLowerCase "h"
  ∧ setLanguage "H" w = (set_loading [c_language] w, Return tt)
  ∧ c_language ≠ cpp_language.
Proof.
  cbv zeta. split; [| split; [| split]].
  - do 2 apply list_elem_of_further. apply list_elem_of_here.
  - reflexivity.
  - reflexivity.
  - discriminate.
Qed.

(** C6, as amended.  On an initialized component, [setLanguage] with the
    empty string or with exactly the lower-case word plaintext returns
    normally with the language compartment emptied; nothing else changes: no
    log entry is written and no load is started, so the registry is not
    consulted. *)
Theorem setLanguage_sentinel_clears {P : Platform}
    (w : World) (v : EditorView) (lang : string) :
  view w = Some v →
  lang = "" ∨ lang = "plaintext" →
  ∃ w', setLanguage lang w = (w', Return tt)
        ∧ slot_content w' _languageConf = Some (ext_array [])
        ∧ w' = set_view (Some (reconfigured v _languageConf (ext_array []))) w
        ∧ console w' = console w
        ∧ loading w' = loading w.
Proof.
  intros Hv Hs. rewrite (setLanguage_sentinel w v lang Hv Hs).
  eexists. split; [reflexivity |].
  repeat split. unfold slot_content. cbn. by rewrite lookup_insert_eq.
Qed.

Lemma setLanguage_sentinel_clears_witness :
  ∃ v, view sample_js_loaded = Some v
       ∧ slot_content sample_js_loaded _languageConf = Some (ext_array [ext_language 1])
       ∧ ∃ w', setLanguage "plaintext" sample_js_loaded = (w', Return tt)
               ∧ slot_content w' _languageConf = Some (ext_array []).
Proof.
  exists_view sample_js_loaded. split; [reflexivity |]. split; [reflexivity |].
  destruct (setLanguage_sentinel_clears sample_js_loaded _ "plaintext"
              eq_refl (or_intror eq_refl))
    as (w' & H1 & H2 & _).
  exists w'. by split.
Defined.

(** C6, counterexample.  With JavaScript registered and installed,
    [setLanguage] of the capitalised word Plaintext looks the name up, logs
    that it was not found, and leaves the installed language in its
    compartment. *)
Lemma setLanguage_Plaintext_is_looked_up :
  let w := sample_js_loaded in
  let w' := fst (setLanguage "Plaintext" w) in
  slot_content w _languageConf = Some (ext_array [ext_language 1])
  ∧ slot_content w' _languageConf = Some (ext_array [ext_language 1])
  ∧ console w = []
  ∧ console w' = [console_error ["Language not found:"; "Plaintext"];
                  console_info ["Supported language names:"; "JavaScript"]].
Proof. cbv zeta. repeat split. Qed.

(** C7, as amended.  For a requested name that is neither empty nor the
    lower-case word plaintext, if the registry is empty or no registered
    language has the name or an alias equal to the request in lower case,
    [setLanguage] returns normally and changes nothing but the console:
    view, language compartment, inputs, pending loads and emitted events are
    as before, with or without an editor instance.  With a non-empty
    registry it logs that the language was not found and the list of the
    registered names.  With an empty registry it logs one error when the
    editor instance exists, and nothing at all before initialization. *)
Theorem setLanguage_unknown_is_logged {P : Platform} (w : World) (lang : string) :
  lang ≠ "" → lang ≠ "plaintext" →
  languages (inputs w) = []
  ∨ (∀ l a, l ∈ languages (inputs w) → a ∈ name l :: alias l →
            toLowerCase lang ≠ toLowerCase a) →
  ∃ w' entries,
    setLanguage lang w = (w', Return tt)
    ∧ w' = set_console (console w ++ entries) w
    ∧ entries
      = match languages (inputs w) with
        | [] =>
            if bool_decide (is_Some (view w)) then
              [console_error
                 ["No supported languages. Please set the `languages` prop at first."]]
            else []
        | _ :: _ =>
            [console_error ["Language not found:"; lang];
             console_info ["Supported language names:";
                           join ", " (map name (languages (inputs w)))]]
        end
    ∧ view w' = view w
    ∧ slot_content w' _languageConf = slot_content w _languageConf
    ∧ inputs w' = inputs w
    ∧ loading w' = loading w
    ∧ events w' = events w.
Proof.
  intros H1 H2 Hno. rewrite (setLanguage_lookup w lang H1 H2).
  destruct (languages (inputs w)) as [|l0 ls] eqn:Hl.
  - eexists _, _. split; [reflexivity |]. by repeat split.
  - destruct Hno as [? | Hno]; [done |].
    destruct (List.find _ _) as [d|] eqn:Hf.
    + apply find_some in Hf as [Hin Hm].
      apply matches_language_spec in Hm as (a & Ha & He).
      exfalso. apply (Hno d a); [by apply list_elem_of_In | done | done].
    + eexists _, _. split; [reflexivity |]. by repeat split.
Qed.

Lemma setLanguage_unknown_is_logged_witness :
  "Rust" ≠ "" ∧ "Rust" ≠ "plaintext"
  ∧ (∀ l a, l ∈ languages (inputs sample_js) → a ∈ name l :: alias l →
            toLowerCase "Rust" ≠ toLowerCase a)
  ∧ ∃ w', setLanguage "Rust" sample_js = (w', Return tt)
          ∧ console w' = [console_error ["Language not found:"; "Rust"];
                          console_info ["Supported language names:"; "JavaScript"]]
          ∧ view w' = view sample_js.
Proof.
  assert (H1 : "Rust" ≠ "") by discriminate.
  assert (H2 : "Rust" ≠ "plaintext") by discriminate.
  assert (H3 : ∀ l a, l ∈ languages (inputs sample_js) → a ∈ name l :: alias l →
                      toLowerCase "Rust" ≠ toLowerCase a).
  { intros l a Hl Ha. apply list_elem_of_singleton in Hl. subst l.
    apply elem_of_cons in Ha as [-> | Ha]; [discriminate |].
    apply list_elem_of_singleton in Ha. subst a. discriminate. }
  split; [exact H1 |]. split; [exact H2 |]. split; [exact H3 |].
  destruct (setLanguage_unknown_is_logged sample_js "Rust" H1 H2 (or_intror H3))
    as (w' & entries & Hrun & Hw' & Hentries & Hview & _).
  exists w'. split; [exact Hrun |]. split; [| exact Hview].
  rewrite Hw', Hentries. reflexivity.
Defined.

(** C7, counterexample.  On a component that was constructed but not
    initialized, with the registry empty, [setLanguage] of the name Rust
    returns normally and logs nothing; on the initialized component the same
    call logs one error. *)
Lemma setLanguage_before_init_logs_nothing :
  let w := constructed default_inputs in
  view w = None
  ∧ languages (inputs w) = []
  ∧ setLanguage "Rust" w = (w, Return tt)
  ∧ console (fst (setLanguage "Rust" w)) = []
  ∧ console (fst (setLanguage "Rust" sample))
    = [console_error ["No supported languages. Please set the `languages` prop at first."]].
Proof. cbv zeta. repeat split. Qed.

(** ** Configuration changes *)

Lemma settle_load_initialized {P : Platform} (w : World) (v : EditorView) (k : nat) :
  view w = Some v →
  ∃ w' v',
    settle_load k w = (w', Return tt)
    ∧ view w' = Some v'
    ∧ view_id v' = view_id v
    ∧ views_created w' = views_created w
    ∧ doc (view_state v') = doc (view_state v)
    ∧ (∀ c, c ≠ _languageConf →
            compartments (view_state v') !! c = compartments (view_state v) !! c)
    ∧ (∀ d sup, loading w !! k = Some d → load d = Some sup →
                compartments (view_state v') !! _languageConf
                = Some (ext_array [ext_language sup])).
Proof.
  intros Hv. unfold settle_load, bind, get, modify. cbv beta iota.
  destruct (loading w !! k) as [d|]; [| by exists w, v].
  destruct (load d) as [l|] eqn:Hload.
  - unfold setLanguage_loaded.
    rewrite (reconfigure_initialized _ v); [| exact Hv | reflexivity].
    eexists _, _. repeat split; try reflexivity.
    + intros c Hc. cbn. by rewrite lookup_insert_ne.
    + intros d' sup [= <-] Hs. rewrite Hload in Hs. injection Hs as <-.
      cbn. by rewrite lookup_insert_eq.
  - eexists _, v. repeat split; try reflexivity; [exact Hv |].
    intros d' sup [= <-] Hs. rewrite Hload in Hs. discriminate Hs.
Qed.

(** Distinct fields own distinct compartments. *)
Lemma slot_inj (f g : Field) : slot f = slot g → f = g.
Proof. destruct f, g; cbn; intros H; first [reflexivity | discriminate H]. Qed.

(** C3.  For each of the nine dynamic fields (disabled, readonly, theme,
    placeholder, indentWithTab, indentUnit, lineWrapping,
    highlightWhitespace, language), a change notification for that field on
    an initialized component keeps the same editor instance and document
    and leaves the content of every compartment other than the field's own
    as it was.  For the eight fields whose content is computed from the
    input, the call returns normally and the field's compartment then holds
    that content, unless the content is an indent unit the engine rejects:
    then the call throws and nothing changes.  For the language the call
    returns normally: the empty string and the word plaintext empty the
    language compartment; any other name leaves it as it is and either
    starts a load of the language the lookup finds or writes to the console.
    A load that settles afterwards touches the language compartment only,
    and installs its package there when it fulfils. *)
Theorem ngOnChanges_reconfigures_one_slot {P : Platform}
    (f : Field) (w : World) (v : EditorView) :
  view w = Some v →
  ∃ w' v' r,
    ngOnChanges {[key f]} w = (w', r)
    ∧ view w' = Some v'
    ∧ view_id v' = view_id v
    ∧ views_created w' = views_created w
    ∧ doc (view_state v') = doc (view_state v)
    ∧ (∀ c, c ≠ slot f →
            compartments (view_state v') !! c = compartments (view_state v) !! c)
    ∧ (∀ e, content f (inputs w) = Some e →
            match rejected_unit e with
            | None => r = Return tt ∧ compartments (view_state v') !! slot f = Some e
            | Some u => r = Throw (InvalidIndentUnit u) ∧ w' = w
            end)
    ∧ (f = f_language →
       let lang := language (inputs w) in
       r = Return tt
       ∧ (lang = "" ∨ lang = "plaintext" →
          compartments (view_state v') !! _languageConf = Some (ext_array [])
          ∧ loading w' = loading w ∧ console w' = console w)
       ∧ (lang ≠ "" → lang ≠ "plaintext" →
          compartments (view_state v') !! _languageConf
          = compartments (view_state v) !! _languageConf
          ∧ match List.find (matches_language lang) (languages (inputs w)) with
            | Some d => loading w' = loading w ++ [d] ∧ console w' = console w
            | None =>
                loading w' = loading w
                ∧ ∃ args entries, console w' = console w ++ console_error args :: entries
            end))
    ∧ (∀ k, ∃ w'' v'',
            settle_load k w' = (w'', Return tt)
            ∧ view w'' = Some v''
            ∧ view_id v'' = view_id v
            ∧ (∀ c, c ≠ _languageConf →
                    compartments (view_state v'') !! c = compartments (view_state v') !! c)
            ∧ (∀ d sup, loading w' !! k = Some d → load d = Some sup →
                        compartments (view_state v'') !! _languageConf
                        = Some (ext_array [ext_language sup]))).
Proof.
  intros Hv. rewrite (ngOnChanges_field f w v Hv).
  assert (Hsettle : ∀ w' v',
    view w' = Some v' → view_id v' = view_id v →
    ∀ k, ∃ w'' v'',
      settle_load k w' = (w'', Return tt) ∧ view w'' = Some v'' ∧ view_id v'' = view_id v
      ∧ (∀ c, c ≠ _languageConf →
              compartments (view_state v'') !! c = compartments (view_state v') !! c)
      ∧ (∀ d sup, loading w' !! k = Some d → load d = Some sup →
                  compartments (view_state v'') !! _languageConf
                  = Some (ext_array [ext_language sup]))).
  { intros w' v' Hv' Hid k.
    destruct (settle_load_initialized w' v' k Hv')
      as (w'' & v'' & H1 & H2 & H3 & _ & _ & H4 & H5).
    exists w'', v''. repeat split; [exact H1 | exact H2 | congruence | exact H4 | exact H5]. }
  assert (f = f_language ∨ f ≠ f_language) as [-> | Hf]
    by (destruct f; first [by left | by right]).
  - cbn [setter slot content].
    destruct (decide (language (inputs w) = "" ∨ language (inputs w) = "plaintext"))
      as [Hs | Hs].
    + rewrite (setLanguage_sentinel w v _ Hv Hs).
      eexists _, _, _. split; [reflexivity |]. split; [reflexivity |].
      split; [reflexivity |]. split; [reflexivity |]. split; [reflexivity |].
      split; [intros c Hc; cbn; by rewrite lookup_insert_ne |].
      split; [discriminate |]. split; [| by apply Hsettle].
      intros _. cbv zeta. split; [reflexivity |]. split.
      * intros _. cbn. by rewrite lookup_insert_eq.
      * intros H1 H2. exfalso. destruct Hs; contradiction.
    + assert (H1 : language (inputs w) ≠ "") by tauto.
      assert (H2 : language (inputs w) ≠ "plaintext") by tauto.
      rewrite (setLanguage_lookup w _ H1 H2).
      destruct (languages (inputs w)) as [|l0 ls] eqn:Hl.
      * rewrite Hv, bool_decide_is_Some.
        eexists _, v, _. split; [reflexivity |]. split; [exact Hv |].
        do 4 (split; [done |]). split; [discriminate |]. split; [| by apply Hsettle].
        intros _. cbv zeta. split; [reflexivity |]. split; [tauto |].
        intros _ _. split; [reflexivity |]. cbn [List.find]. split; [reflexivity |].
        eexists _, []. reflexivity.
      * destruct (List.find _ (l0 :: ls)) as [d|] eqn:Hfind.
        -- eexists _, v, _. split; [reflexivity |]. split; [exact Hv |].
           do 4 (split; [done |]). split; [discriminate |]. split; [| by apply Hsettle].
           intros _. cbv zeta. split; [reflexivity |]. split; [tauto |].
           intros _ _. by split.
        -- eexists _, v, _. split; [reflexivity |]. split; [exact Hv |].
           do 4 (split; [done |]). split; [discriminate |]. split; [| by apply Hsettle].
           intros _. cbv zeta. split; [reflexivity |]. split; [tauto |].
           intros _ _. split; [reflexivity |]. split; [reflexivity |].
           eexists _, [_]. reflexivity.
  - destruct (content_simple f (inputs w) Hf) as [e He].
    rewrite (setter_simple f (inputs w) e He).
    destruct (rejected_unit e) as [u|] eqn:Hr.
    + rewrite (reconfigure_rejected w v _ _ u Hv Hr).
      exists w, v. eexists. split; [reflexivity |]. split; [exact Hv |].
      do 4 (split; [done |]).
      split. { intros e' He'. assert (e' = e) as -> by congruence. by rewrite Hr. }
      split; [done | by apply Hsettle].
    + rewrite (reconfigure_initialized w v _ _ Hv Hr).
      eexists _, _, _. split; [reflexivity |]. split; [reflexivity |].
      split; [reflexivity |]. split; [reflexivity |]. split; [reflexivity |].
      split; [intros c Hc; cbn; by rewrite lookup_insert_ne |].
      split.
      { intros e' He'. assert (e' = e) as -> by congruence. rewrite Hr.
        split; [reflexivity |]. cbn. by rewrite lookup_insert_eq. }
      split; [done | by apply Hsettle].
Qed.

Lemma ngOnChanges_reconfigures_one_slot_witness :
  let w := set_inputs (with_theme dark) sample in
  ∃ v, view w = Some v
       ∧ compartments (view_state v) !! _themeConf = Some (ext_array [])
       ∧ ∃ w' v',
           ngOnChanges {["theme"]} w = (w', Return tt)
           ∧ view w' = Some v'
           ∧ view_id v' = view_id v
           ∧ compartments (view_state v') !! _themeConf = Some ext_oneDark
           ∧ compartments (view_state v') !! _readonlyConf
             = compartments (view_state v) !! _readonlyConf.
Proof.
  cbv zeta. exists_view sample. split; [reflexivity |]. split; [reflexivity |].
  destruct (ngOnChanges_reconfigures_one_slot f_theme
              (set_inputs (with_theme dark) sample) _ eq_refl)
    as (w' & v' & r & H1 & H2 & H3 & _ & _ & H4 & H5 & _).
  destruct (H5 ext_oneDark eq_refl) as [-> H6].
  exists w', v'. repeat split; [exact H1 | exact H2 | exact H3 | exact H6 |].
  apply H4. discriminate.
Defined.

End CodeEditorFacts.

(** * The diff wrapper *)

Section DiffEditorFacts.
Import DiffEditor.

Lemma diff_updateListener_a (w : World) (vu : ViewUpdate) :
  vu_docChanged vu = true →
  existsb (λ tr, truthy (Transaction_annotation tr External)) (vu_transactions vu) = false →
  _updateListener editor_a vu w
  = (let value := doc (vu_state vu) in
     set_events
       (events w ++
          match _onChange w with
          | Some fn => [call_onChange fn {| original := value;
                                            modified := modifiedValue (inputs w) |};
                        emit_originalValueChange value]
          | None => [emit_originalValueChange value]
          end)
       (set_inputs (originalValue_set value (inputs w)) w),
     Return tt).
Proof.
  intros Hd He. unfold _updateListener. rewrite Hd, He. cbn [andb negb when].
  unfold call__onChange, bind, get, emit, modify. cbv beta iota zeta.
  destruct (_onChange w) eqn:Hc; cbn; unfold set_events, set_inputs; cbn;
    by rewrite <- ?app_assoc.
Qed.

Lemma diff_updateListener_b (w : World) (vu : ViewUpdate) :
  vu_docChanged vu = true →
  existsb (λ tr, truthy (Transaction_annotation tr External)) (vu_transactions vu) = false →
  _updateListener editor_b vu w
  = (let value := doc (vu_state vu) in
     set_events
       (events w ++
          match _onChange w with
          | Some fn => [call_onChange fn {| original := originalValue (inputs w);
                                            modified := value |};
                        emit_modifiedValueChange value]
          | None => [emit_modifiedValueChange value]
          end)
       (set_inputs (modifiedValue_set value (inputs w)) w),
     Return tt).
Proof.
  intros Hd He. unfold _updateListener. rewrite Hd, He. cbn [andb negb when].
  unfold call__onChange, bind, get, emit, modify. cbv beta iota zeta.
  destruct (_onChange w) eqn:Hc; cbn; unfold set_events, set_inputs; cbn;
    by rewrite <- ?app_assoc.
Qed.

(** C10.  When the listener of side [a] is handed an update that changed
    the document and carries no truthy [External] annotation, it calls the
    registered on-change callback with the pair made of the side's new
    content and the stored modified value, stores the new content in
    [originalValue] and emits it on [originalValueChange]; the listener of
    side [b] does the same with the roles of the two sides exchanged. *)
Theorem diff_updateListener_forwards_pair
    (editor : Editor) (w : World) (vu : ViewUpdate) (fn : nat) :
  _onChange w = Some fn →
  vu_docChanged vu = true →
  (∀ tr, tr ∈ vu_transactions vu → truthy (Transaction_annotation tr External) = false) →
  ∃ w', _updateListener editor vu w = (w', Return tt)
        ∧ match editor with
          | editor_a =>
              events w' = events w ++
                [call_onChange fn {| original := doc (vu_state vu);
                                     modified := modifiedValue (inputs w) |};
                 emit_originalValueChange (doc (vu_state vu))]
              ∧ originalValue (inputs w') = doc (vu_state vu)
              ∧ modifiedValue (inputs w') = modifiedValue (inputs w)
          | editor_b =>
              events w' = events w ++
                [call_onChange fn {| original := originalValue (inputs w);
                                     modified := doc (vu_state vu) |};
                 emit_modifiedValueChange (doc (vu_state vu))]
              ∧ modifiedValue (inputs w') = doc (vu_state vu)
              ∧ originalValue (inputs w') = originalValue (inputs w)
          end.
Proof.
  intros Hfn Hd Hext. apply no_External_existsb in Hext.
  destruct editor.
  - rewrite (diff_updateListener_a w vu Hd Hext). cbv zeta. rewrite Hfn.
    eexists. split; [reflexivity |]. by repeat split.
  - rewrite (diff_updateListener_b w vu Hd Hext). cbv zeta. rewrite Hfn.
    eexists. split; [reflexivity |]. by repeat split.
Qed.

Lemma mv_editor_set_eq (mv : MergeView) (editor : Editor) (v : EditorView) :
  mv_editor (mv_set_editor mv editor v) editor = v.
Proof. by destruct editor. Qed.

Lemma mv_editor_set_ne (mv : MergeView) (editor other : Editor) (v : EditorView) :
  other ≠ editor → mv_editor (mv_set_editor mv editor v) other = mv_editor mv other.
Proof. by destruct editor, other. Qed.

(** [setValue] on an existing merge view: the side's state after the
    dispatch, then that side's listener. *)
Lemma diff_setValue_initialized {P : Platform}
    (w : World) (mv : MergeView) (editor : Editor) (x : string) :
  mergeView w = Some mv →
  setValue editor x w
  = let v := mv_editor mv editor in
    let st' := {| doc := normalize_line_breaks x; base := base (view_state v);
                  compartments := compartments (view_state v) |} in
    _updateListener editor
      (ViewUpdate_of {| tr_startState := view_state v;
                        tr_changes := whole_change (doc (view_state v)) x;
                        tr_annotations := []; tr_effects := []; tr_state := st' |})
      (set_mergeView (Some (mv_set_editor mv editor (EditorView_setState v st'))) w).
Proof.
  intros Hmv. unfold setValue, editor_dispatch, setValue_spec, bind, get.
  rewrite Hmv. cbv beta iota. by rewrite EditorState_update_whole.
Qed.

Lemma diff_updateListener_frame (editor : Editor) (vu : ViewUpdate) (w : World) :
  ∃ w', _updateListener editor vu w = (w', Return tt) ∧ mergeView w' = mergeView w.
Proof.
  unfold _updateListener.
  destruct (vu_docChanged vu && _); cbn [when]; [| by exists w].
  unfold call__onChange, bind, get, emit, modify. cbv beta iota zeta.
  destruct editor, (_onChange w); cbn; eexists; by split.
Qed.

(** C2, as amended.  For either side and every string, [setValue] of the
    diff wrapper on an existing merge view dispatches the same change as
    [setValue] of the single-editor wrapper, one replacement from 0 to the
    length of that side's document; the two transactions have the same
    change set and the same resulting state, and neither carries the
    [External] annotation.  The call returns normally, the side's document
    is then the given string with its line breaks normalised, and the other
    side is untouched. *)
Theorem diff_setValue_replaces_whole_document {P : Platform}
    (w : World) (mv : MergeView) (editor : Editor) (x : string) :
  mergeView w = Some mv →
  let st := view_state (mv_editor mv editor) in
  changes (setValue_spec x (doc st)) = changes (CodeEditor.setValue_spec x (doc st))
  ∧ changes (setValue_spec x (doc st))
    = Some {| from := 0; to := String.length (doc st); insert_text := x |}
  ∧ (∃ tr tr',
        EditorState_update st (setValue_spec x (doc st)) = Return tr
        ∧ EditorState_update st (CodeEditor.setValue_spec x (doc st)) = Return tr'
        ∧ tr_changes tr = tr_changes tr'
        ∧ tr_state tr = tr_state tr'
        ∧ doc (tr_state tr) = normalize_line_breaks x
        ∧ Transaction_annotation tr External = None
        ∧ Transaction_annotation tr' External = None)
  ∧ ∃ w' mv',
      setValue editor x w = (w', Return tt)
      ∧ mergeView w' = Some mv'
      ∧ doc (view_state (mv_editor mv' editor)) = normalize_line_breaks x
      ∧ ∀ other, other ≠ editor → mv_editor mv' other = mv_editor mv other.
Proof.
  intros Hmv st. split; [reflexivity |]. split; [reflexivity |]. split.
  - unfold setValue_spec, CodeEditor.setValue_spec. rewrite !EditorState_update_whole.
    eexists _, _. by repeat split.
  - rewrite (diff_setValue_initialized w mv editor x Hmv). cbv zeta.
    match goal with
    | |- ∃ _ _, _updateListener ?e ?vu ?w0 = _ ∧ _ =>
        destruct (diff_updateListener_frame e vu w0) as (w' & Hrun & Hframe)
    end.
    exists w'. eexists. split; [exact Hrun |]. split; [exact Hframe |]. split.
    + by rewrite mv_editor_set_eq.
    + intros other Hne. by apply mv_editor_set_ne.
Qed.

Lemma diff_setValue_replaces_whole_document_witness :
  ∃ mv, mergeView sample = Some mv
        ∧ ∃ w' mv',
            setValue editor_a "new" sample = (w', Return tt)
            ∧ mergeView w' = Some mv'
            ∧ doc (view_state (mv_a mv')) = "new"
            ∧ mv_b mv' = mv_b mv.
Proof.
  let o := eval vm_compute in (mergeView sample) in
  match o with Some ?mv => exists mv end.
  split; [reflexivity |].
  destruct (diff_setValue_replaces_whole_document sample _ editor_a "new" eq_refl)
    as (_ & _ & _ & w' & mv' & Hrun & Hmv' & Hdoc & Hother).
  exists w', mv'. split; [exact Hrun |].
  split; [exact Hmv' |]. split; [exact Hdoc |].
  apply (Hother editor_b). discriminate.
Defined.

(** C2, counterexample.  The dispatch of the diff wrapper has no
    annotations, that of the single-editor wrapper has the add-to-history
    annotation set to false; the transaction of the diff wrapper is not
    marked [External] either, and its listener forwards the write. *)
Lemma diff_setValue_is_not_tagged :
  let st := EditorState_create "old" (ext_array []) in
  annotations (setValue_spec "new" "old") = []
  ∧ annotations (CodeEditor.setValue_spec "new" "old")
    = [annotation_of Transaction_addToHistory (val_bool false)]
  ∧ (∃ tr tr',
        EditorState_update st (setValue_spec "new" "old") = Return tr
        ∧ EditorState_update st (CodeEditor.setValue_spec "new" "old") = Return tr'
        ∧ Transaction_annotation tr Transaction_addToHistory = None
        ∧ Transaction_annotation tr' Transaction_addToHistory = Some (val_bool false)
        ∧ Transaction_annotation tr External = None)
  ∧ events (fst (setValue editor_a "new"
                   sample_registered))
    = [call_onChange 7 {| original := "new"; modified := "" |};
       emit_originalValueChange "new"].
Proof.
  cbv zeta. split; [reflexivity |]. split; [reflexivity |]. split; [| reflexivity].
  eexists _, _. by repeat split.
Qed.

(** A character typed into the original side of a freshly initialized diff
    wrapper with callback 7 registered. *)
Example diff_user_edit_original :
  let w' := fst (user_edit editor_a {| from := 0; to := 0; insert_text := "x" |}
                   "input.type" sample_registered) in
  events w' = [call_onChange 7 {| original := "x"; modified := "" |};
               emit_originalValueChange "x"]
  ∧ originalValue (inputs w') = "x"
  ∧ current_content w' editor_a = Some "x"
  ∧ current_content w' editor_b = Some "".
Proof. cbv zeta. repeat split. Qed.

Lemma diff_updateListener_forwards_pair_witness :
  ∃ w',
    _onChange sample_registered = Some 7
    ∧ vu_docChanged typed_x = true
    ∧ (∀ tr, tr ∈ vu_transactions typed_x →
             truthy (Transaction_annotation tr External) = false)
    ∧ _updateListener editor_b typed_x
        sample_registered
      = (w', Return tt)
    ∧ events w' = [call_onChange 7 {| original := ""; modified := "x" |};
                   emit_modifiedValueChange "x"]
    ∧ modifiedValue (inputs w') = "x".
Proof.
  assert (H : ∀ tr, tr ∈ vu_transactions typed_x →
                    truthy (Transaction_annotation tr External) = false).
  { intros tr Hin. apply list_elem_of_singleton in Hin. by subst tr. }
  destruct (diff_updateListener_forwards_pair editor_b
              sample_registered typed_x 7
              eq_refl eq_refl H)
    as (w' & Hrun & Hev & Hmod & _).
  exists w'. repeat split; [exact H | exact Hrun | exact Hev | exact Hmod].
Defined.

End DiffEditorFacts.

(** * Before initialization *)

Section BeforeInit.

Lemma diff_set_mergeView_None (w : DiffEditor.World) :
  DiffEditor.mergeView w = None → DiffEditor.set_mergeView None w = w.
Proof. destruct w. cbn. by intros ->. Qed.

Lemma diff_setValue_uninitialized {P : Platform} (w : DiffEditor.World) e x :
  DiffEditor.mergeView w = None → DiffEditor.setValue e x w = (w, Return tt).
Proof. intros H. unfold DiffEditor.setValue, bind, get. by rewrite H. Qed.

Lemma diff_setEditable_uninitialized {P : Platform} (w : DiffEditor.World) e b :
  DiffEditor.mergeView w = None → DiffEditor.setEditable e b w = (w, Return tt).
Proof. intros H. unfold DiffEditor.setEditable, bind, get. by rewrite H. Qed.

Lemma diff_reconfigure_uninitialized (w : DiffEditor.World) ch :
  DiffEditor.mergeView w = None → DiffEditor.reconfigure ch w = (w, Return tt).
Proof.
  intros H. unfold DiffEditor.reconfigure, modify. rewrite H. cbn.
  by rewrite diff_set_mergeView_None.
Qed.

(** C8, as amended.  While no editor instance exists, [writeValue] and
    [ngOnChanges] of the single-editor wrapper, and [setValue],
    [setEditable], [writeValue] and [ngOnChanges] of the diff wrapper,
    return normally and change nothing; [setDisabledState] of the diff
    wrapper returns normally and only stores the flag in [disabled]. *)
Theorem guarded_entry_points_before_init {P : Platform}
    (w : CodeEditor.World) (dw : DiffEditor.World) :
  CodeEditor.view w = None →
  DiffEditor.mergeView dw = None →
  (∀ x, CodeEditor.writeValue x w = (w, Return tt))
  ∧ (∀ changes, CodeEditor.ngOnChanges changes w = (w, Return tt))
  ∧ (∀ editor x, DiffEditor.setValue editor x dw = (dw, Return tt))
  ∧ (∀ editor b, DiffEditor.setEditable editor b dw = (dw, Return tt))
  ∧ (∀ x, DiffEditor.writeValue x dw = (dw, Return tt))
  ∧ (∀ changes, DiffEditor.ngOnChanges changes dw = (dw, Return tt))
  ∧ (∀ b, DiffEditor.setDisabledState b dw
          = (DiffEditor.set_inputs (DiffEditor.disabled_set b (DiffEditor.inputs dw)) dw,
             Return tt)).
Proof.
  intros Hv Hmv. repeat split.
  - intros x. unfold CodeEditor.writeValue, bind, get.
    by rewrite Hv, bool_decide_is_Some_None.
  - intros changes. unfold CodeEditor.ngOnChanges. unfold bind at 1. unfold get at 1.
    by rewrite Hv, bool_decide_is_Some_None.
  - intros. by apply diff_setValue_uninitialized.
  - intros. by apply diff_setEditable_uninitialized.
  - intros x. unfold DiffEditor.writeValue, bind, get. by rewrite Hmv.
  - intros changes. unfold DiffEditor.ngOnChanges.
    repeat (rewrite bind_unchanged;
            [| apply when_unchanged; unfold bind at 1; unfold get at 1;
               first [ by apply diff_setValue_uninitialized
                     | by apply diff_reconfigure_uninitialized ] ]).
    apply when_unchanged. unfold bind at 1. unfold get at 1. cbv beta iota zeta.
    rewrite bind_unchanged; by apply diff_setEditable_uninitialized.
  - intros b. unfold DiffEditor.setDisabledState.
    unfold bind at 1. unfold modify at 1. cbv beta iota.
    rewrite bind_unchanged; by apply diff_setEditable_uninitialized.
Qed.

Lemma guarded_entry_points_before_init_witness :
  CodeEditor.view (CodeEditor.constructed CodeEditor.default_inputs) = None
  ∧ DiffEditor.mergeView (DiffEditor.constructed DiffEditor.default_inputs) = None
  ∧ CodeEditor.writeValue "hello" (CodeEditor.constructed CodeEditor.default_inputs)
    = (CodeEditor.constructed CodeEditor.default_inputs, Return tt)
  ∧ DiffEditor.setValue DiffEditor.editor_a "hello"
      (DiffEditor.constructed DiffEditor.default_inputs)
    = (DiffEditor.constructed DiffEditor.default_inputs, Return tt).
Proof.
  destruct (guarded_entry_points_before_init
              (CodeEditor.constructed CodeEditor.default_inputs)
              (DiffEditor.constructed DiffEditor.default_inputs) eq_refl eq_refl)
    as (H1 & _ & H3 & _).
  split; [reflexivity |]. split; [reflexivity |]. split; [apply H1 | apply H3].
Defined.

(** C8, counterexample.  On a single-editor component that was constructed
    but not initialized, [setValue], [setEditable], [setReadonly],
    [setTheme] and [setLanguage] of the empty string throw a [TypeError],
    and [setDisabledState] throws after it has stored the flag. *)
Lemma setValue_before_init_throws :
  let w := CodeEditor.constructed CodeEditor.default_inputs in
  CodeEditor.view w = None
  ∧ CodeEditor.setValue "hello" w = (w, Throw TypeError)
  ∧ CodeEditor.setEditable true w = (w, Throw TypeError)
  ∧ CodeEditor.setReadonly true w = (w, Throw TypeError)
  ∧ CodeEditor.setTheme CodeEditor.dark w = (w, Throw TypeError)
  ∧ CodeEditor.setLanguage "" w = (w, Throw TypeError)
  ∧ snd (CodeEditor.setDisabledState true w) = Throw TypeError
  ∧ CodeEditor.disabled (CodeEditor.inputs (fst (CodeEditor.setDisabledState true w))) = true.
Proof. cbv zeta. repeat split. Qed.

End BeforeInit.

(** * Further properties of the single-editor wrapper *)

Section CodeEditorLifecycle.
Import CodeEditor.

Lemma ngOnInit_setters {P : Platform} (w : World) :
  ngOnInit w
  = (setEditable (negb (disabled (inputs w))) ;;
     setReadonly (readonly (inputs w)) ;;
     setTheme (theme (inputs w)) ;;
     setPlaceholder (placeholder (inputs w)) ;;
     setIndentWithTab (indentWithTab (inputs w)) ;;
     setIndentUnit (indentUnit (inputs w)) ;;
     setLineWrapping (lineWrapping (inputs w)) ;;
     setHighlightWhitespace (highlightWhitespace (inputs w)) ;;
     setLanguage (language (inputs w))) (view_created w).
Proof.
  unfold ngOnInit, view_created. rewrite bind_get, !bind_modify.
  destruct (autoFocus (inputs w)); cbn [when]; rewrite ?bind_ret, ?bind_modify;
    f_equal; destruct w; code_editor_proj; cbn [fmap option_fmap option_map EditorView_focus
      view_id view_state hasFocus destroyed]; by rewrite <- app_assoc.
Qed.

Lemma reconfigure_run {P : Platform} {B} (c : Compartment) (e : Extension)
    (k : unit → M World B) (w : World) (v : EditorView) :
  view w = Some v →
  rejected_unit e = None →
  bind (_dispatchEffects [Compartment_reconfigure c e]) k w
  = k tt (set_view (Some (reconfigured v c e)) w).
Proof. intros Hv Hr. apply bind_run. by apply reconfigure_initialized. Qed.

Lemma reconfigure_stop {P : Platform} {B} (c : Compartment) (e : Extension)
    (k : unit → M World B) (w : World) (v : EditorView) (u : string) :
  view w = Some v →
  rejected_unit e = Some u →
  bind (_dispatchEffects [Compartment_reconfigure c e]) k w
  = (w, Throw (InvalidIndentUnit u)).
Proof.
  intros Hv Hr. unfold bind. by rewrite (reconfigure_rejected w v c e u Hv Hr).
Qed.

(** The content of a field other than the indent unit and a custom theme is
    never rejected. *)
Lemma content_not_rejected {P : Platform} (f : Field) (i : Inputs) (e : Extension) :
  f ≠ f_indentUnit → f ≠ f_theme → content f i = Some e → rejected_unit e = None.
Proof.
  intros H1 H2. destruct f; cbn [content]; try done; intros [= <-]; try reflexivity.
  - by destruct (truthy_string _).
  - by destruct (indentWithTab i).
  - by destruct (lineWrapping i).
  - by destruct (highlightWhitespace i).
Qed.

(** Discharge the acceptance of the content of one of the eight fields,
    from the acceptance of the inputs. *)
Ltac accept_content H :=
  first [ reflexivity
        | apply (H f_disabled); reflexivity
        | apply (H f_readonly); reflexivity
        | apply (H f_theme); reflexivity
        | apply (H f_placeholder); reflexivity
        | apply (H f_indentWithTab); reflexivity
        | apply (H f_indentUnit); reflexivity
        | apply (H f_lineWrapping); reflexivity
        | apply (H f_highlightWhitespace); reflexivity ].

(** [ngOnInit] up to its last call, when the engine accepts every
    content. *)
Lemma ngOnInit_language {P : Platform} (w : World) :
  accepted (inputs w) →
  ngOnInit w = setLanguage (language (inputs w)) (configured w).
Proof.
  intros Hacc. rewrite ngOnInit_setters.
  unfold setEditable, setReadonly, setTheme, setPlaceholder, setIndentWithTab,
    setIndentUnit, setLineWrapping, setHighlightWhitespace.
  do 8 (erewrite reconfigure_run; [| reflexivity | accept_content Hacc]).
  reflexivity.
Qed.

Lemma configured_view_slot (w : World) (f : Field) (e : Extension) :
  content f (inputs w) = Some e →
  compartments (view_state (configured_view w)) !! slot f = Some e.
Proof.
  intros He. unfold configured_view.
  cbn [content reconfigured EditorView_setState view_state compartments doc base slot].
  destruct f; cbn [content slot] in *; try discriminate He;
    injection He as <-;
    repeat (rewrite lookup_insert_ne by discriminate); by rewrite lookup_insert_eq.
Qed.

(** [setLanguage] with a name that is not the sentinel only logs or starts
    a load. *)
Lemma setLanguage_looked_up {P : Platform} (w : World) (v : EditorView) (lang : string) :
  view w = Some v →
  negb (truthy_string lang) || String.eqb lang "plaintext" = false →
  (∃ entries, setLanguage lang w = (set_console (console w ++ entries) w, Return tt))
  ∨ (∃ d, setLanguage lang w = (set_loading (loading w ++ [d]) w, Return tt)).
Proof.
  intros Hv Hs. unfold setLanguage. rewrite Hs. unfold bind, get. cbv beta iota.
  destruct (List.length (languages (inputs w)) =? 0)%nat.
  { left. rewrite Hv, bool_decide_is_Some. eexists. reflexivity. }
  unfold _findLanguage, bind, get. cbv beta iota.
  destruct (List.find _ _) as [d|].
  - right. exists d. reflexivity.
  - left. eexists [_; _]. unfold console_log, modify. code_editor_proj. by rewrite <- app_assoc.
Qed.

(** X1.  On a component whose inputs give every setter a content the engine
    accepts, [ngOnInit] returns normally.  It creates exactly one view,
    whose document is the [value] input with its line breaks normalised and
    whose focus flag is the [autoFocus] input, and leaves in every
    compartment of the eight fields disabled, readonly, theme, placeholder,
    indentWithTab, indentUnit, lineWrapping and highlightWhitespace the
    content computed from that field's input; with the language input empty
    or plaintext the language compartment is empty.  The [state] field holds
    the state the view was created from, the two listeners for focus and
    blur are attached, no callback is called, no declared output emits and
    the inputs are not written. *)
Theorem ngOnInit_applies_inputs {P : Platform} (w : World) :
  accepted (inputs w) →
  ∃ w' v',
    ngOnInit w = (w', Return tt)
    ∧ view w' = Some v'
    ∧ view_id v' = views_created w
    ∧ views_created w' = S (views_created w)
    ∧ hasFocus v' = autoFocus (inputs w)
    ∧ doc (view_state v') = normalize_line_breaks (value (inputs w))
    ∧ (∀ f e, content f (inputs w) = Some e →
              compartments (view_state v') !! slot f = Some e)
    ∧ (language (inputs w) = "" ∨ language (inputs w) = "plaintext" →
       compartments (view_state v') !! _languageConf = Some (ext_array []))
    ∧ state w' = Some (EditorState_create (value (inputs w)) (_getAllExtensions w))
    ∧ events w' = events w
    ∧ inputs w' = inputs w
    ∧ contentDOM_listeners w' = contentDOM_listeners w ++ [dom_focus; dom_blur].
Proof.
  intros Hacc. rewrite (ngOnInit_language w Hacc).
  destruct (negb (truthy_string (language (inputs w)))
            || String.eqb (language (inputs w)) "plaintext") eqn:Hs.
  - apply sentinel_test in Hs.
    rewrite (setLanguage_sentinel (configured w) (configured_view w) _ eq_refl Hs).
    eexists _, _. split; [reflexivity |]. split; [reflexivity |].
    repeat split.
    + intros f e He.
      cbn [reconfigured EditorView_setState view_state compartments].
      destruct f; cbn [content] in He; try discriminate He;
        (rewrite lookup_insert_ne by discriminate);
        by apply (configured_view_slot w _ _).
    + intros _. cbn [reconfigured EditorView_setState view_state compartments].
      by rewrite lookup_insert_eq.
  - assert (Hno : ¬ (language (inputs w) = "" ∨ language (inputs w) = "plaintext")).
    { intros H. apply sentinel_test in H. congruence. }
    destruct (setLanguage_looked_up (configured w) (configured_view w)
                (language (inputs w)) eq_refl Hs) as [[entries H] | [d H]].
    + rewrite H. exists (set_console (console (configured w) ++ entries) (configured w)),
        (configured_view w).
      repeat split; [by apply configured_view_slot | done].
    + rewrite H. exists (set_loading (loading (configured w) ++ [d]) (configured w)),
        (configured_view w).
      repeat split; [by apply configured_view_slot | done].
Qed.

Lemma default_inputs_accepted : accepted default_inputs.
Proof. intros f e. destruct f; cbn [content default_inputs]; intros [= <-]; reflexivity. Qed.

Lemma ngOnInit_applies_inputs_witness :
  accepted (inputs (constructed default_inputs))
  ∧ ∃ w' v',
      ngOnInit (constructed default_inputs) = (w', Return tt)
      ∧ view w' = Some v'
      ∧ doc (view_state v') = ""
      ∧ compartments (view_state v') !! _editableConf = Some (ext_editable true).
Proof.
  split; [exact default_inputs_accepted |].
  destruct (ngOnInit_applies_inputs (constructed default_inputs) default_inputs_accepted)
    as (w' & v' & H1 & H2 & _ & _ & _ & H3 & H4 & _).
  exists w', v'. split; [exact H1 |]. split; [exact H2 |]. split; [exact H3 |].
  exact (H4 f_disabled _ eq_refl).
Defined.

Lemma half_configured_view_slot (w : World) (f : Field) (e : Extension) :
  f ∈ [f_disabled; f_readonly; f_theme; f_placeholder; f_indentWithTab] →
  content f (inputs w) = Some e →
  compartments (view_state (half_configured_view w)) !! slot f = Some e.
Proof.
  intros Hf He. unfold half_configured_view.
  cbn [content reconfigured EditorView_setState view_state compartments doc base slot].
  repeat (apply elem_of_cons in Hf as [-> | Hf]); [.. | by apply elem_of_nil in Hf];
    cbn [content slot] in *; injection He as <-;
    repeat (rewrite lookup_insert_ne by discriminate); by rewrite lookup_insert_eq.
Qed.

Lemma half_configured_view_rest (w : World) (f : Field) :
  f ∈ [f_indentUnit; f_lineWrapping; f_highlightWhitespace; f_language] →
  compartments (view_state (half_configured_view w)) !! slot f
  = compartments (EditorState_create (value (inputs w)) (_getAllExtensions w)) !! slot f.
Proof.
  intros Hf. unfold half_configured_view.
  cbn [content reconfigured EditorView_setState view_state compartments doc base slot].
  repeat (apply elem_of_cons in Hf as [-> | Hf]); [.. | by apply elem_of_nil in Hf];
    cbn [slot]; by repeat (rewrite lookup_insert_ne by discriminate).
Qed.

(** X19.  When the [indentUnit] input is a non-empty unit the engine
    rejects (and the theme is one it accepts), [ngOnInit] throws the error
    of the rejected unit out of [setIndentUnit].  By then the view exists
    with the [value] input as document, the focus and blur listeners are
    attached and the five setters before [setIndentUnit] have run; the
    compartments of the indent unit, line wrapping, whitespace highlighting
    and language are still as [EditorState.create] left them, since the
    calls after the throw never run. *)
Theorem ngOnInit_stops_at_rejected_indent_unit {P : Platform} (w : World) :
  indentUnit (inputs w) ≠ "" →
  indentUnit_accepts (indentUnit (inputs w)) = false →
  acceptable f_theme (inputs w) →
  ∃ w' v',
    ngOnInit w = (w', Throw (InvalidIndentUnit (indentUnit (inputs w))))
    ∧ view w' = Some v'
    ∧ view_id v' = views_created w
    ∧ views_created w' = S (views_created w)
    ∧ doc (view_state v') = normalize_line_breaks (value (inputs w))
    ∧ (∀ f e, f ∈ [f_disabled; f_readonly; f_theme; f_placeholder; f_indentWithTab] →
              content f (inputs w) = Some e →
              compartments (view_state v') !! slot f = Some e)
    ∧ (∀ f, f ∈ [f_indentUnit; f_lineWrapping; f_highlightWhitespace; f_language] →
            compartments (view_state v') !! slot f
            = compartments (EditorState_create (value (inputs w)) (_getAllExtensions w))
                !! slot f)
    ∧ contentDOM_listeners w' = contentDOM_listeners w ++ [dom_focus; dom_blur]
    ∧ events w' = events w
    ∧ inputs w' = inputs w.
Proof.
  intros Hne Hrej Hth. rewrite ngOnInit_setters.
  unfold setEditable, setReadonly, setTheme, setPlaceholder, setIndentWithTab, setIndentUnit.
  do 5 (erewrite reconfigure_run;
        [| reflexivity
         | first [ reflexivity
                 | apply (content_not_rejected f_placeholder (inputs w));
                   [discriminate | discriminate | reflexivity]
                 | apply (content_not_rejected f_indentWithTab (inputs w));
                   [discriminate | discriminate | reflexivity]
                 | apply Hth; reflexivity ]]).
  assert (Hr : rejected_unit (if truthy_string (indentUnit (inputs w))
                              then ext_indentUnit (indentUnit (inputs w)) else ext_array [])
               = Some (indentUnit (inputs w))).
  { revert Hne Hrej. destruct (indentUnit (inputs w)) as [|c u];
      [intros H; contradiction |].
    intros _ Hrej. cbn [truthy_string rejected_unit]. by rewrite Hrej. }
  erewrite reconfigure_stop; [| reflexivity | exact Hr].
  exists (set_view (Some (half_configured_view w)) (view_created w)), (half_configured_view w).
  split; [reflexivity |]. split; [reflexivity |].
  repeat split.
  - intros f e Hf He. by apply half_configured_view_slot.
  - intros f Hf. by apply half_configured_view_rest.
Qed.

Lemma ngOnInit_stops_at_rejected_indent_unit_witness :
  let w := constructed (with_indentUnit "ab") in
  indentUnit (inputs w) ≠ ""
  ∧ indentUnit_accepts (indentUnit (inputs w)) = false
  ∧ acceptable f_theme (inputs w)
  ∧ ∃ w' v',
      ngOnInit w = (w', Throw (InvalidIndentUnit "ab"))
      ∧ view w' = Some v'
      ∧ compartments (view_state v') !! _editableConf = Some (ext_editable true)
      ∧ compartments (view_state v') !! _indentUnitConf = Some (ext_array []).
Proof.
  cbv zeta.
  assert (H1 : indentUnit (inputs (constructed (with_indentUnit "ab"))) ≠ "") by discriminate.
  assert (H3 : acceptable f_theme (inputs (constructed (with_indentUnit "ab")))).
  { intros e [= <-]. reflexivity. }
  assert (H2 : indentUnit_accepts (indentUnit (inputs (constructed (with_indentUnit "ab"))))
               = false) by reflexivity.
  split; [exact H1 |]. split; [exact H2 |]. split; [exact H3 |].
  destruct (ngOnInit_stops_at_rejected_indent_unit (constructed (with_indentUnit "ab"))
              H1 H2 H3)
    as (w' & v' & Hrun & Hv & _ & _ & _ & Hset & Hrest & _).
  exists w', v'. split; [exact Hrun |]. split; [exact Hv |]. split.
  - apply (Hset f_disabled); [apply list_elem_of_here | reflexivity].
  - etrans; [apply (Hrest f_indentUnit), list_elem_of_here | reflexivity].
Defined.

End CodeEditorLifecycle.

Section CodeEditorChanges.
Import CodeEditor.

Lemma same_instance_refl (quiet : bool) (w : World) (v : EditorView) :
  view w = Some v → same_instance quiet w w.
Proof. intros Hv. exists v, v. by repeat split. Qed.

Lemma same_instance_trans (quiet : bool) (w1 w2 w3 : World) :
  same_instance quiet w1 w2 → same_instance quiet w2 w3 → same_instance quiet w1 w3.
Proof.
  intros (v1 & v2 & H1 & H2 & Hid & Hn & Hi & Ht & Hl & Hq)
         (v2' & v3 & H2' & H3 & Hid' & Hn' & Hi' & Ht' & Hl' & Hq').
  assert (v2' = v2) as -> by congruence.
  exists v1, v3. repeat split; try congruence.
  - destruct (Hq H), (Hq' H). congruence.
  - destruct (Hq H), (Hq' H). congruence.
Qed.

Lemma same_instance_weaken (quiet : bool) (w w' : World) :
  same_instance true w w' → same_instance quiet w w'.
Proof.
  intros (v & v' & H1 & H2 & Hid & Hn & Hi & Ht & Hl & Hq).
  exists v, v'. repeat split; try done; by destruct (Hq eq_refl).
Qed.

Lemma same_instance_inputs (quiet : bool) (w w' : World) :
  same_instance quiet w w' → inputs w' = inputs w.
Proof. by intros (v & v' & _ & _ & _ & _ & Hi & _). Qed.

Lemma same_instance_view (quiet : bool) (w w' : World) :
  same_instance quiet w w' → ∃ v', view w' = Some v'.
Proof. intros (v & v' & _ & H & _). by exists v'. Qed.

Section Keeps.
Context {P : Platform}.

Lemma keeps_weaken (i : Inputs) (quiet : bool) (m : M World unit) :
  keeps i true m → keeps i quiet m.
Proof.
  intros Hm w v Hv Hi. destruct (Hm w v Hv Hi) as (w' & r & Hrun & Hsi & Hr).
  exists w', r. split; [exact Hrun |]. split; [by apply same_instance_weaken | exact Hr].
Qed.

Lemma keeps_seq (i : Inputs) (quiet : bool) (m k : M World unit) :
  keeps i quiet m → keeps i quiet k → keeps i quiet (m ;; k).
Proof.
  intros Hm Hk w v Hv Hi. destruct (Hm w v Hv Hi) as (w1 & r1 & Hrun1 & Hsi1 & Hr1).
  destruct r1 as [[] | e].
  - destruct (same_instance_view _ _ _ Hsi1) as [v1 Hv1].
    assert (Hi1 : inputs w1 = i) by (by rewrite (same_instance_inputs _ _ _ Hsi1)).
    destruct (Hk w1 v1 Hv1 Hi1) as (w2 & r2 & Hrun2 & Hsi2 & Hr2).
    exists w2, r2. split; [by rewrite (bind_run _ _ _ _ _ Hrun1) |].
    split; [by eapply same_instance_trans | exact Hr2].
  - exists w1, (Throw e). split; [unfold bind; by rewrite Hrun1 |]. by split.
Qed.

Lemma keeps_ret (i : Inputs) (quiet : bool) : keeps i quiet (ret tt).
Proof.
  intros w v Hv Hi. exists w, (Return tt). split; [reflexivity |].
  split; [by apply same_instance_refl with v | by left].
Qed.

Lemma keeps_when (i : Inputs) (quiet c : bool) (m : M World unit) :
  (c = true → keeps i quiet m) → keeps i quiet (when c m).
Proof. intros Hm. destruct c; cbn [when]; [by apply Hm | apply keeps_ret]. Qed.

(** A body that first reads the component reads the inputs [i]. *)
Lemma keeps_get (i : Inputs) (quiet : bool) (f : World → M World unit) :
  (∀ w0, inputs w0 = i → keeps i quiet (f w0)) → keeps i quiet (do w <- get; f w).
Proof. intros Hf w v Hv Hi. rewrite bind_get. by apply (Hf w Hi w v). Qed.

(** The setter of a field other than the language, called with the inputs
    of the component. *)
Lemma keeps_setter (i : Inputs) (f : Field) : f ≠ f_language → keeps i true (setter f i).
Proof.
  intros Hf w v Hv Hi. destruct (content_simple f i Hf) as [e He].
  rewrite (setter_simple f i e He).
  destruct (rejected_unit e) as [u|] eqn:Hr.
  - rewrite (reconfigure_rejected w v _ _ u Hv Hr).
    exists w. eexists. split; [reflexivity |]. split; [by apply same_instance_refl with v |].
    right. split; [by exists u |]. intros Hacc. rewrite (Hacc f e He) in Hr. discriminate Hr.
  - rewrite (reconfigure_initialized w v _ _ Hv Hr).
    eexists _, _. split; [reflexivity |]. split; [| by left].
    exists v. eexists. split; [exact Hv |]. split; [reflexivity |]. by repeat split.
Qed.

Lemma keeps_setValue (i : Inputs) (x : string) : keeps i false (setValue x).
Proof.
  intros w v Hv Hi. rewrite (setValue_initialized w v x Hv). cbv zeta.
  eexists _, _. split; [reflexivity |]. split; [| by left].
  exists v. eexists. split; [exact Hv |].
  destruct (whole_change _ _); (split; [reflexivity |]); by repeat split.
Qed.

Lemma keeps_setLanguage (i : Inputs) (lang : string) : keeps i true (setLanguage lang).
Proof.
  intros w v Hv Hi.
  destruct (setLanguage_initialized w v lang Hv) as [H | [[entries H] | [d H]]];
    rewrite H; (eexists _, _; split; [reflexivity |]; split; [| by left]).
  - exists v. eexists. split; [exact Hv |]. split; [reflexivity |]. by repeat split.
  - exists v, v. by repeat split.
  - exists v, v. by repeat split.
Qed.

Lemma keeps_setExtensions (i : Inputs) (root : Extension) : keeps i true (setExtensions root).
Proof.
  intros w v Hv Hi. unfold setExtensions.
  rewrite (_dispatchEffects_initialized w v [StateEffect_reconfigure root] Hv eq_refl).
  eexists _, _. split; [reflexivity |]. split; [| by left].
  exists v. eexists. split; [exact Hv |]. split; [reflexivity |]. by repeat split.
Qed.

(** The nine setters [ngOnInit] calls, in its order. *)
Lemma keeps_ngOnInit_setters (i : Inputs) :
  keeps i true
    (setEditable (negb (disabled i)) ;;
     setReadonly (readonly i) ;;
     setTheme (theme i) ;;
     setPlaceholder (placeholder i) ;;
     setIndentWithTab (indentWithTab i) ;;
     setIndentUnit (indentUnit i) ;;
     setLineWrapping (lineWrapping i) ;;
     setHighlightWhitespace (highlightWhitespace i) ;;
     setLanguage (language i)).
Proof.
  apply keeps_seq; [by apply (keeps_setter i f_disabled) |].
  apply keeps_seq; [by apply (keeps_setter i f_readonly) |].
  apply keeps_seq; [by apply (keeps_setter i f_theme) |].
  apply keeps_seq; [by apply (keeps_setter i f_placeholder) |].
  apply keeps_seq; [by apply (keeps_setter i f_indentWithTab) |].
  apply keeps_seq; [by apply (keeps_setter i f_indentUnit) |].
  apply keeps_seq; [by apply (keeps_setter i f_lineWrapping) |].
  apply keeps_seq; [by apply (keeps_setter i f_highlightWhitespace) |].
  apply keeps_setLanguage.
Qed.

Lemma keeps_ngOnChanges (i : Inputs) (changes : gset string) :
  keeps i (negb (changed changes "value")) (ngOnChanges changes).
Proof.
  unfold ngOnChanges. intros w v Hv Hi. rewrite bind_get, Hv, bool_decide_is_Some.
  cbn [negb]. revert w v Hv Hi. fold (keeps i (negb (changed changes "value"))).
  assert (Hstep : ∀ (c : bool) (f : Field), f ≠ f_language →
            keeps i (negb (changed changes "value"))
              (when c (do w <- get; setter f (inputs w)))).
  { intros c f Hf. apply keeps_when; intros _. apply keeps_get; intros w0 ->.
    by apply keeps_weaken, keeps_setter. }
  apply keeps_seq; [apply keeps_when; intros Hc; apply keeps_get; intros w1 _ |].
  { rewrite Hc. apply keeps_setValue. }
  apply keeps_seq; [by apply (Hstep _ f_disabled) |].
  apply keeps_seq; [by apply (Hstep _ f_readonly) |].
  apply keeps_seq; [by apply (Hstep _ f_theme) |].
  apply keeps_seq; [by apply (Hstep _ f_placeholder) |].
  apply keeps_seq; [by apply (Hstep _ f_indentWithTab) |].
  apply keeps_seq; [by apply (Hstep _ f_indentUnit) |].
  apply keeps_seq; [by apply (Hstep _ f_lineWrapping) |].
  apply keeps_seq; [by apply (Hstep _ f_highlightWhitespace) |].
  apply keeps_seq; [apply keeps_when; intros Hc; apply keeps_get; intros w1 _ |].
  { apply keeps_weaken, keeps_setLanguage. }
  apply keeps_when; intros Hc; apply keeps_get; intros w1 _.
  apply keeps_weaken, keeps_setExtensions.
Qed.

End Keeps.

(** X2.  On a component with a view, [ngOnChanges] keeps the editor
    instance for every set of changed keys, whether it returns or throws:
    same view identity, no view created, inputs not written.  When [value]
    is not among the changed keys, the document is unchanged as well, no
    registered callback is called and no declared output emits.  The call
    either returns normally or throws the error of a rejected indent unit,
    and it returns normally whenever the inputs give every setter a content
    the engine accepts. *)
Theorem ngOnChanges_keeps_instance {P : Platform}
    (changes : gset string) (w : World) (v : EditorView) :
  view w = Some v →
  ∃ w' v' r,
    ngOnChanges changes w = (w', r)
    ∧ view w' = Some v'
    ∧ view_id v' = view_id v
    ∧ views_created w' = views_created w
    ∧ inputs w' = inputs w
    ∧ ("value" ∉ changes →
       doc (view_state v') = doc (view_state v) ∧ events w' = events w)
    ∧ (r = Return tt ∨ ∃ u, r = Throw (InvalidIndentUnit u))
    ∧ (accepted (inputs w) → r = Return tt).
Proof.
  intros Hv.
  destruct (keeps_ngOnChanges (inputs w) changes w v Hv eq_refl)
    as (w' & r & Hrun & (v0 & v' & H0 & H' & Hid & Hn & Hi & _ & _ & Hq) & Hr).
  assert (v0 = v) as -> by congruence.
  exists w', v', r. do 5 (split; [done |]). split; [| split].
  - intros Hnot. apply Hq. unfold changed. by rewrite bool_decide_eq_false_2.
  - destruct Hr as [-> | [Hu _]]; [by left | by right].
  - intros Hacc. destruct Hr as [-> | [_ Hn']]; [reflexivity | contradiction].
Qed.

Lemma sample_js_accepted : accepted (inputs sample_js).
Proof. intros f e. destruct f; cbn; intros [= <-]; reflexivity. Qed.

Lemma ngOnChanges_keeps_instance_witness :
  ∃ v, view sample_js = Some v
       ∧ ∃ w' v',
           ngOnChanges {["theme"; "language"; "setup"]} sample_js = (w', Return tt)
           ∧ view w' = Some v'
           ∧ view_id v' = view_id v
           ∧ doc (view_state v') = doc (view_state v).
Proof.
  let o := eval vm_compute in (view sample_js) in
  match o with Some ?v => exists v end.
  split; [reflexivity |].
  destruct (ngOnChanges_keeps_instance {["theme"; "language"; "setup"]} sample_js _ eq_refl)
    as (w' & v' & r & H1 & H2 & H3 & _ & _ & H4 & _ & H5).
  rewrite (H5 sample_js_accepted) in H1.
  exists w', v'. repeat split; [exact H1 | exact H2 | exact H3 |].
  apply H4. intros H.
  repeat (apply elem_of_union in H as [H | H]);
    apply elem_of_singleton in H; discriminate H.
Defined.

End CodeEditorChanges.

Section CodeEditorSetters.
Import CodeEditor.

Lemma reconfigured_twice (v : EditorView) (c : Compartment) (e e' : Extension) :
  reconfigured (reconfigured v c e') c e = reconfigured v c e.
Proof.
  unfold reconfigured, EditorView_setState.
  cbn [view_id view_state hasFocus destroyed doc base compartments].
  by rewrite insert_insert_eq.
Qed.

Lemma reconfigured_swap (v : EditorView) (c c' : Compartment) (e e' : Extension) :
  c ≠ c' →
  reconfigured (reconfigured v c e) c' e' = reconfigured (reconfigured v c' e') c e.
Proof.
  intros Hc. unfold reconfigured, EditorView_setState.
  cbn [view_id view_state hasFocus destroyed doc base compartments].
  by rewrite insert_insert_ne.
Qed.

(** X3.  For each field other than the language, applying the field's
    setter twice in a row, with any two values the engine accepts, leaves
    the component exactly as the second application alone does; in
    particular applying the same accepted value twice equals applying it
    once. *)
Theorem setter_last_write_wins {P : Platform}
    (f : Field) (i j : Inputs) (w : World) (v : EditorView) :
  view w = Some v →
  f ≠ f_language →
  acceptable f i → acceptable f j →
  (setter f i ;; setter f j) w = setter f j w.
Proof.
  intros Hv Hf Hi Hj.
  destruct (content_simple f i Hf) as [e He], (content_simple f j Hf) as [e' He'].
  rewrite (setter_simple f i e He), (setter_simple f j e' He').
  rewrite (reconfigure_run _ _ _ w v Hv (Hi e He)).
  erewrite reconfigure_initialized; [| reflexivity | exact (Hj e' He')].
  rewrite (reconfigure_initialized w v _ _ Hv (Hj e' He')).
  by rewrite reconfigured_twice.
Qed.

Lemma setter_last_write_wins_witness :
  ∃ v, view sample = Some v
       ∧ f_indentUnit ≠ f_language
       ∧ acceptable f_indentUnit (with_indentUnit "    ")
       ∧ acceptable f_indentUnit (with_indentUnit "  ")
       ∧ (setter f_indentUnit (with_indentUnit "    ") ;;
          setter f_indentUnit (with_indentUnit "  ")) sample
         = setter f_indentUnit (with_indentUnit "  ") sample
       ∧ slot_content (fst (setter f_indentUnit (with_indentUnit "  ") sample))
           _indentUnitConf = Some (ext_indentUnit "  ").
Proof.
  let o := eval vm_compute in (view sample) in
  match o with Some ?v => exists v end.
  assert (H1 : acceptable f_indentUnit (with_indentUnit "    "))
    by (intros e [= <-]; reflexivity).
  assert (H2 : acceptable f_indentUnit (with_indentUnit "  "))
    by (intros e [= <-]; reflexivity).
  split; [reflexivity |]. split; [discriminate |].
  split; [exact H1 |]. split; [exact H2 |]. split; [| reflexivity].
  apply (setter_last_write_wins f_indentUnit _ _ sample _ eq_refl); [discriminate | done..].
Defined.

(** X4.  The setters of two different fields, neither of them the
    language, commute when the engine accepts both contents: either order
    leaves the same component. *)
Theorem setters_commute {P : Platform}
    (f g : Field) (i j : Inputs) (w : World) (v : EditorView) :
  view w = Some v →
  f ≠ f_language → g ≠ f_language → f ≠ g →
  acceptable f i → acceptable g j →
  (setter f i ;; setter g j) w = (setter g j ;; setter f i) w.
Proof.
  intros Hv Hf Hg Hfg Hi Hj.
  destruct (content_simple f i Hf) as [e He], (content_simple g j Hg) as [e' He'].
  rewrite (setter_simple f i e He), (setter_simple g j e' He').
  rewrite (reconfigure_run _ _ _ w v Hv (Hi e He)).
  rewrite (reconfigure_run _ _ _ w v Hv (Hj e' He')).
  erewrite reconfigure_initialized; [| reflexivity | exact (Hj e' He')].
  erewrite (reconfigure_initialized _ _ (slot f)); [| reflexivity | exact (Hi e He)].
  rewrite (reconfigured_swap v (slot f) (slot g)); [reflexivity |].
  intros Hs. by apply Hfg, slot_inj.
Qed.

Lemma setters_commute_witness :
  ∃ v, view sample = Some v
       ∧ f_theme ≠ f_language ∧ f_readonly ≠ f_language ∧ f_theme ≠ f_readonly
       ∧ acceptable f_theme (with_theme dark) ∧ acceptable f_readonly default_inputs
       ∧ (setter f_theme (with_theme dark) ;; setter f_readonly default_inputs) sample
         = (setter f_readonly default_inputs ;; setter f_theme (with_theme dark)) sample.
Proof.
  let o := eval vm_compute in (view sample) in
  match o with Some ?v => exists v end.
  assert (H1 : acceptable f_theme (with_theme dark)) by (intros e [= <-]; reflexivity).
  assert (H2 : acceptable f_readonly default_inputs) by (intros e [= <-]; reflexivity).
  split; [reflexivity |]. do 3 (split; [discriminate |]).
  split; [exact H1 |]. split; [exact H2 |].
  apply (setters_commute f_theme f_readonly _ _ sample _ eq_refl);
    [discriminate | discriminate | discriminate | done | done].
Defined.

Lemma ngOnChanges_indentUnit {P : Platform} (w : World) (v : EditorView) :
  view w = Some v →
  ngOnChanges {["indentUnit"]} w = setIndentUnit (indentUnit (inputs w)) w.
Proof. intros Hv. exact (ngOnChanges_field f_indentUnit w v Hv). Qed.

(** X20.  [setIndentUnit] on a component with a view.  The empty string
    empties the compartment of the indent unit; a unit the engine accepts
    becomes its content; for a non-empty unit the engine rejects the call
    throws the error of that unit and leaves the component as it was, and a
    body that goes on after the call does not get there.  A change
    notification for [indentUnit] is this call with the input. *)
Theorem setIndentUnit_checks_the_unit {P : Platform}
    (u : string) (w : World) (v : EditorView) (rest : M World unit) :
  view w = Some v →
  (u = "" →
   setIndentUnit u w
   = (set_view (Some (reconfigured v _indentUnitConf (ext_array []))) w, Return tt))
  ∧ (u ≠ "" → indentUnit_accepts u = true →
     setIndentUnit u w
     = (set_view (Some (reconfigured v _indentUnitConf (ext_indentUnit u))) w, Return tt))
  ∧ (u ≠ "" → indentUnit_accepts u = false →
     setIndentUnit u w = (w, Throw (InvalidIndentUnit u))
     ∧ (setIndentUnit u ;; rest) w = (w, Throw (InvalidIndentUnit u)))
  ∧ (indentUnit (inputs w) = u → ngOnChanges {["indentUnit"]} w = setIndentUnit u w).
Proof.
  intros Hv. unfold setIndentUnit. split; [| split; [| split]].
  - intros ->. by apply reconfigure_initialized.
  - intros Hne Hacc. destruct u as [|c u]; [done |]. cbn [truthy_string].
    apply reconfigure_initialized; [done |]. cbn [rejected_unit]. by rewrite Hacc.
  - intros Hne Hrej. destruct u as [|c u]; [done |]. cbn [truthy_string].
    assert (Hr : rejected_unit (ext_indentUnit (String c u)) = Some (String c u)).
    { cbn [rejected_unit]. by rewrite Hrej. }
    split; [by apply (reconfigure_rejected w v) |].
    by apply (reconfigure_stop _ _ _ w v).
  - intros <-. by apply ngOnChanges_indentUnit with v.
Qed.

Lemma setIndentUnit_checks_the_unit_witness :
  ∃ v, view sample = Some v
       ∧ "ab" ≠ "" ∧ indentUnit_accepts "ab" = false
       ∧ setIndentUnit "ab" sample = (sample, Throw (InvalidIndentUnit "ab"))
       ∧ (setIndentUnit "ab" ;; setLineWrapping true) sample
         = (sample, Throw (InvalidIndentUnit "ab"))
       ∧ slot_content (fst (setIndentUnit "  " sample)) _indentUnitConf
         = Some (ext_indentUnit "  ").
Proof.
  let o := eval vm_compute in (view sample) in
  match o with Some ?v => exists v end.
  assert (H1 : "ab" ≠ "") by discriminate.
  assert (H2 : indentUnit_accepts "ab" = false) by reflexivity.
  split; [reflexivity |]. split; [exact H1 |]. split; [exact H2 |].
  destruct (setIndentUnit_checks_the_unit "ab" sample _ (setLineWrapping true) eq_refl)
    as (_ & _ & H3 & _).
  destruct (H3 H1 H2) as [Ha Hb].
  split; [exact Ha |]. split; [exact Hb | reflexivity].
Defined.

End CodeEditorSetters.

Section CodeEditorContent.
Import CodeEditor.

(** X5.  [setValue] commutes with the setter of every field other than the
    language whose content the engine accepts: writing the content and
    reconfiguring the field give the same component, log of callback calls
    and change events included, in either order. *)
Theorem setValue_commutes_with_setter {P : Platform}
    (f : Field) (i : Inputs) (x : string) (w : World) (v : EditorView) :
  view w = Some v →
  f ≠ f_language →
  acceptable f i →
  (setValue x ;; setter f i) w = (setter f i ;; setValue x) w.
Proof.
  intros Hv Hf Hi. destruct (content_simple f i Hf) as [e He].
  rewrite (setter_simple f i e He).
  rewrite (reconfigure_run _ _ _ w v Hv (Hi e He)).
  rewrite (setValue_initialized _ (reconfigured v (slot f) e)) by reflexivity.
  rewrite (bind_run _ _ _ _ _ (setValue_initialized w v x Hv)).
  cbv zeta. cbn [reconfigured EditorView_setState view_state doc base compartments].
  destruct (whole_change (doc (view_state v)) x);
    (erewrite reconfigure_initialized; [| reflexivity | exact (Hi e He)]); reflexivity.
Qed.

Lemma setValue_commutes_with_setter_witness :
  ∃ v, view sample_registered = Some v
       ∧ f_theme ≠ f_language
       ∧ acceptable f_theme (with_theme dark)
       ∧ (setValue "hello" ;; setter f_theme (with_theme dark)) sample_registered
         = (setter f_theme (with_theme dark) ;; setValue "hello") sample_registered.
Proof.
  let o := eval vm_compute in (view sample_registered) in
  match o with Some ?v => exists v end.
  assert (H1 : acceptable f_theme (with_theme dark)) by (intros e [= <-]; reflexivity).
  split; [reflexivity |]. split; [discriminate |]. split; [exact H1 |].
  apply (setValue_commutes_with_setter f_theme _ "hello" sample_registered _ eq_refl);
    [discriminate | done].
Defined.

(** X6.  On a component with a view, [setDisabledState b] returns normally,
    stores [b] in the [disabled] model, puts [editable.of(!b)] in the
    editable compartment and leaves the document and the other inputs as
    they were; a change notification for [disabled] that follows leaves the
    component as it is. *)
Theorem setDisabledState_agrees_with_input {P : Platform}
    (b : bool) (w : World) (v : EditorView) :
  view w = Some v →
  ∃ w', setDisabledState b w = (w', Return tt)
        ∧ inputs w' = disabled_set b (inputs w)
        ∧ disabled (inputs w') = b
        ∧ slot_content w' _editableConf = Some (ext_editable (negb b))
        ∧ (∀ c, c ≠ _editableConf → slot_content w' c = slot_content w c)
        ∧ current_content w' = current_content w
        ∧ ngOnChanges {["disabled"]} w' = (w', Return tt).
Proof.
  intros Hv. unfold setDisabledState. rewrite bind_modify. unfold setEditable.
  rewrite (reconfigure_initialized _ v) by done.
  eexists. split; [reflexivity |]. split; [reflexivity |]. split; [reflexivity |].
  split; [unfold slot_content; cbn; by rewrite lookup_insert_eq |].
  split. { intros c Hc. unfold slot_content. rewrite Hv. cbn. by rewrite lookup_insert_ne. }
  split; [unfold current_content; by rewrite Hv |].
  rewrite (ngOnChanges_field f_disabled _ (reconfigured v _editableConf (ext_editable (negb b))))
    by reflexivity.
  cbn [setter]. unfold setEditable.
  rewrite (reconfigure_initialized _ (reconfigured v _editableConf (ext_editable (negb b))))
    by reflexivity.
  rewrite reconfigured_twice. reflexivity.
Qed.

Lemma setDisabledState_agrees_with_input_witness :
  ∃ v, view sample = Some v
       ∧ ∃ w', setDisabledState true sample = (w', Return tt)
               ∧ disabled (inputs w') = true
               ∧ slot_content w' _editableConf = Some (ext_editable false).
Proof.
  let o := eval vm_compute in (view sample) in
  match o with Some ?v => exists v end.
  split; [reflexivity |].
  destruct (setDisabledState_agrees_with_input true sample _ eq_refl)
    as (w' & H1 & _ & H2 & H3 & _).
  exists w'. by repeat split.
Defined.

(** X7.  A dispatch to the view that changes the document and is annotated
    [External.of(b)] always updates the document, to the old text with the
    range of the change replaced by the inserted text, line breaks
    normalised; the listener forwards the new document to the callback and
    the change event when [b] is false and stays silent when [b] is true. *)
Theorem External_annotation_filters_by_truthiness {P : Platform}
    (c : ChangeSpec) (b : bool) (w : World) (v : EditorView) :
  view w = Some v →
  change_in_range c (doc (view_state v)) = true →
  change_is_empty c = false →
  ∃ w', view_dispatch {| changes := Some c;
                         annotations := [annotation_of External (val_bool b)];
                         effects := [] |} w = (w', Return tt)
        ∧ current_content w' = Some (apply_change c (doc (view_state v)))
        ∧ events w' = if b then events w
                      else events w ++ forwarded w (apply_change c (doc (view_state v))).
Proof.
  intros Hv Hr He. unfold view_dispatch. rewrite bind_get, Hv.
  unfold EditorState_update. cbn [changes annotations effects].
  rewrite Hr, He. cbn [negb fold_left rejected]. rewrite bind_modify.
  destruct b.
  - rewrite _updateListener_ignores; [| by right].
    eexists. by repeat split.
  - rewrite _updateListener_forwards; [| reflexivity | reflexivity].
    eexists. by repeat split.
Qed.

Lemma External_annotation_filters_by_truthiness_witness :
  ∃ v, view sample_registered = Some v
       ∧ change_in_range {| from := 0; to := 0; insert_text := a_CRLF_b |}
           (doc (view_state v)) = true
       ∧ change_is_empty {| from := 0; to := 0; insert_text := a_CRLF_b |} = false
       ∧ (∃ w', view_dispatch {| changes := Some {| from := 0; to := 0;
                                                    insert_text := a_CRLF_b |};
                                 annotations := [annotation_of External (val_bool true)];
                                 effects := [] |} sample_registered = (w', Return tt)
                ∧ current_content w' = Some a_LF_b
                ∧ events w' = [])
       ∧ events (fst (view_dispatch
                        {| changes := Some {| from := 0; to := 0; insert_text := a_CRLF_b |};
                           annotations := [annotation_of External (val_bool false)];
                           effects := [] |} sample_registered))
         = [call_onChange 7 a_LF_b; emit_change a_LF_b].
Proof.
  let o := eval vm_compute in (view sample_registered) in
  match o with Some ?v => exists v end.
  split; [reflexivity |]. split; [reflexivity |]. split; [reflexivity |].
  split; [| reflexivity].
  destruct (External_annotation_filters_by_truthiness
              {| from := 0; to := 0; insert_text := a_CRLF_b |} true sample_registered _
              eq_refl eq_refl eq_refl) as (w' & H1 & H2 & H3).
  exists w'. by repeat split.
Defined.

End CodeEditorContent.

Section CodeEditorEvents.
Import CodeEditor.

(** [ngOnInit], however it ends: the view exists with the [value] input as
    document, the two listeners are attached, and nothing was written to the
    inputs, the registered callbacks or the log. *)
Lemma ngOnInit_outcome {P : Platform} (w : World) :
  ∃ w' v' r,
    ngOnInit w = (w', r)
    ∧ view w' = Some v'
    ∧ view_id v' = views_created w
    ∧ views_created w' = S (views_created w)
    ∧ doc (view_state v') = normalize_line_breaks (value (inputs w))
    ∧ contentDOM_listeners w' = contentDOM_listeners w ++ [dom_focus; dom_blur]
    ∧ _onTouched w' = _onTouched w
    ∧ events w' = events w
    ∧ inputs w' = inputs w
    ∧ (r = Return tt ∨ ∃ u, r = Throw (InvalidIndentUnit u))
    ∧ (accepted (inputs w) → r = Return tt).
Proof.
  rewrite ngOnInit_setters.
  destruct (keeps_ngOnInit_setters (inputs w) (view_created w) _ eq_refl eq_refl)
    as (w' & r & Hrun & (v0 & v' & H0 & H' & Hid & Hn & Hi & Ht & Hl & Hq) & Hr).
  injection H0 as <-. destruct (Hq eq_refl) as [Hdoc Hev].
  exists w', v', r. split; [exact Hrun |]. split; [exact H' |].
  split; [exact Hid |]. split; [exact Hn |]. split; [exact Hdoc |].
  split; [exact Hl |]. split; [exact Ht |]. split; [exact Hev |]. split; [exact Hi |].
  split.
  - destruct Hr as [-> | [Hu _]]; [by left | by right].
  - intros Hacc. destruct Hr as [-> | [_ Hn']]; [reflexivity | contradiction].
Qed.

(** X8.  On a component without content listeners a focus or blur event
    does nothing.  After [ngOnInit], whether it returned or threw, and
    [registerOnTouched fn], a focus (blur) event calls [fn] and then emits
    [focus] ([blur]); these two entries are all the log gains. *)
Theorem focus_and_blur_notify_touched {P : Platform} (w : World) (fn : nat) (e : DomEvent) :
  contentDOM_listeners w = [] →
  contentDOM_dispatchEvent e w = (w, Return tt)
  ∧ ∃ w1 r w2,
      ngOnInit w = (w1, r)
      ∧ (registerOnTouched fn ;; contentDOM_dispatchEvent e) w1 = (w2, Return tt)
      ∧ events w2 = events w ++
          [call_onTouched fn; match e with dom_focus => emit_focus | dom_blur => emit_blur end].
Proof.
  intros Hl. split.
  - unfold contentDOM_dispatchEvent. rewrite bind_get, Hl.
    rewrite bool_decide_eq_false_2; [reflexivity | apply not_elem_of_nil].
  - destruct (ngOnInit_outcome w) as (w1 & v1 & r & Hrun & _ & _ & _ & _ & Hl1 & _ & Hev & _).
    exists w1, r. eexists. split; [exact Hrun |].
    unfold registerOnTouched. rewrite bind_modify.
    unfold contentDOM_dispatchEvent. rewrite bind_get. code_editor_proj.
    rewrite Hl1, Hl. rewrite bool_decide_eq_true_2.
    2:{ destruct e; [apply list_elem_of_here | apply list_elem_of_further, list_elem_of_here]. }
    cbn [when]. unfold contentDOM_handler, call__onTouched, bind, get, emit, modify.
    cbv beta iota. code_editor_proj. cbv beta iota. split; [reflexivity |].
    code_editor_proj. rewrite Hev. by rewrite <- app_assoc.
Qed.

Lemma focus_and_blur_notify_touched_witness :
  contentDOM_listeners (constructed (with_indentUnit "ab")) = []
  ∧ ∃ w1 w2,
      ngOnInit (constructed (with_indentUnit "ab")) = (w1, Throw (InvalidIndentUnit "ab"))
      ∧ (registerOnTouched 3 ;; contentDOM_dispatchEvent dom_blur) w1 = (w2, Return tt)
      ∧ events w2 = [call_onTouched 3; emit_blur].
Proof.
  split; [reflexivity |].
  destruct (focus_and_blur_notify_touched (constructed (with_indentUnit "ab")) 3 dom_blur
              eq_refl)
    as (_ & w1 & r & w2 & H1 & H2 & H3).
  assert (Hr : r = Throw (InvalidIndentUnit "ab")).
  { transitivity (snd (ngOnInit (constructed (with_indentUnit "ab"))));
      [by rewrite H1 | reflexivity]. }
  rewrite Hr in H1.
  exists w1, w2. split; [exact H1 |]. split; [exact H2 | exact H3].
Defined.

End CodeEditorEvents.

Section CodeEditorLoads.
Import CodeEditor.

(** X9.  Loads are neither de-duplicated nor cancelled.  After two
    [setLanguage] calls whose names resolve to two languages, both loads are
    pending; the language compartment ends with the package of whichever
    load settles last: that of the second request when the loads settle in
    request order, that of the first, stale, request when they settle in
    the opposite order. *)
Theorem last_settled_load_wins {P : Platform}
    (w : World) (v : EditorView) (n1 n2 : string) (d1 d2 : LanguageDescription)
    (s1 s2 : LanguageSupport) :
  view w = Some v →
  loading w = [] →
  n1 ≠ "" → n1 ≠ "plaintext" → n2 ≠ "" → n2 ≠ "plaintext" →
  List.find (matches_language n1) (languages (inputs w)) = Some d1 →
  List.find (matches_language n2) (languages (inputs w)) = Some d2 →
  load d1 = Some s1 → load d2 = Some s2 →
  (∃ w', (setLanguage n1 ;; setLanguage n2 ;; settle_load 0 ;; settle_load 0) w
         = (w', Return tt)
         ∧ slot_content w' _languageConf = Some (ext_array [ext_language s2])
         ∧ loading w' = [])
  ∧ (∃ w', (setLanguage n1 ;; setLanguage n2 ;; settle_load 1 ;; settle_load 0) w
           = (w', Return tt)
           ∧ slot_content w' _languageConf = Some (ext_array [ext_language s1])
           ∧ loading w' = []).
Proof.
  intros Hv Hl Hn1 Hn1' Hn2 Hn2' Hf1 Hf2 Hs1 Hs2.
  assert (Hrun : ∀ k : M World unit,
    (setLanguage n1 ;; setLanguage n2 ;; k) w = k (set_loading [d1; d2] w)).
  { intros k. rewrite (bind_run _ _ _ _ _ (setLanguage_found w n1 d1 Hn1 Hn1' Hf1)).
    rewrite (bind_run _ _ _ _ _
               (setLanguage_found (set_loading (loading w ++ [d1]) w) n2 d2 Hn2 Hn2' Hf2)).
    code_editor_proj. by rewrite Hl. }
  split; rewrite Hrun.
  - rewrite (bind_run _ _ _ _ _
               (settle_load_fulfilled (set_loading [d1; d2] w) v 0 d1 s1 Hv eq_refl Hs1)).
    erewrite settle_load_fulfilled; [| reflexivity | reflexivity | exact Hs2].
    eexists. split; [reflexivity |]. split; [| reflexivity].
    unfold slot_content. cbn. by rewrite lookup_insert_eq.
  - rewrite (bind_run _ _ _ _ _
               (settle_load_fulfilled (set_loading [d1; d2] w) v 1 d2 s2 Hv eq_refl Hs2)).
    erewrite settle_load_fulfilled; [| reflexivity | reflexivity | exact Hs1].
    eexists. split; [reflexivity |]. split; [| reflexivity].
    unfold slot_content. cbn. by rewrite lookup_insert_eq.
Qed.

Lemma last_settled_load_wins_witness :
  ∃ v, view sample_c_cpp = Some v
       ∧ loading sample_c_cpp = []
       ∧ "c" ≠ "" ∧ "c" ≠ "plaintext" ∧ "cpp" ≠ "" ∧ "cpp" ≠ "plaintext"
       ∧ List.find (matches_language "c") (languages (inputs sample_c_cpp)) = Some c_language
       ∧ List.find (matches_language "cpp") (languages (inputs sample_c_cpp))
         = Some cpp_language
       ∧ load c_language = Some 2 ∧ load cpp_language = Some 3
       ∧ ∃ w', (setLanguage "c" ;; setLanguage "cpp" ;; settle_load 1 ;; settle_load 0)
                 sample_c_cpp = (w', Return tt)
               ∧ slot_content w' _languageConf = Some (ext_array [ext_language 2]).
Proof.
  let o := eval vm_compute in (view sample_c_cpp) in
  match o with Some ?v => exists v end.
  split; [reflexivity |]. split; [reflexivity |].
  assert (H1 : "c" ≠ "") by discriminate.
  assert (H2 : "c" ≠ "plaintext") by discriminate.
  assert (H3 : "cpp" ≠ "") by discriminate.
  assert (H4 : "cpp" ≠ "plaintext") by discriminate.
  do 4 (split; [assumption |]).
  do 4 (split; [reflexivity |]).
  assert (H5 : List.find (matches_language "c") (languages (inputs sample_c_cpp))
               = Some c_language) by reflexivity.
  assert (H6 : List.find (matches_language "cpp") (languages (inputs sample_c_cpp))
               = Some cpp_language) by reflexivity.
  destruct (last_settled_load_wins sample_c_cpp _ "c" "cpp" c_language cpp_language 2 3
              eq_refl eq_refl H1 H2 H3 H4 H5 H6 eq_refl eq_refl)
    as (_ & w' & Hrun & Hslot & _).
  exists w'. split; [exact Hrun | exact Hslot].
Defined.

End CodeEditorLoads.

Section CodeEditorRoot.
Import CodeEditor.

(** A compartment that has content in the old state and in the accumulator
    keeps it whatever extension is resolved next. *)
Lemma resolve_compartments_keeps (old : gmap Compartment Extension) (c : Compartment)
    (x : Extension) :
  old !! c = Some x →
  ∀ e acc, acc !! c = Some x → resolve_compartments old e acc !! c = Some x.
Proof.
  intros Hold. fix IH 1. intros e acc Hacc.
  destruct e as [l | | c0 inner | | | | | | | | | | | | ]; cbn [resolve_compartments];
    try exact Hacc.
  - revert acc Hacc. induction l as [|e' l IHl]; intros acc Hacc; cbn [fold_left].
    + exact Hacc.
    + apply IHl. by apply IH.
  - destruct (decide (c0 = c)) as [-> | Hne].
    + by rewrite lookup_insert_eq, Hold.
    + by rewrite lookup_insert_ne.
Qed.

Lemma resolve_compartments_list (old : gmap Compartment Extension) (c : Compartment)
    (x inner : Extension) (l : list Extension) :
  old !! c = Some x →
  ext_compartment c inner ∈ l →
  ∀ acc, fold_left (λ acc e, resolve_compartments old e acc) l acc !! c = Some x.
Proof.
  intros Hold Hin.
  assert (Hkeep : ∀ l acc, acc !! c = Some x →
            fold_left (λ acc e, resolve_compartments old e acc) l acc !! c = Some x).
  { clear l Hin. induction l as [|e l IHl]; intros acc Hacc; cbn [fold_left];
      [exact Hacc | by apply IHl, resolve_compartments_keeps]. }
  induction l as [|e l IH]; [by apply elem_of_nil in Hin |].
  intros acc. cbn [fold_left]. apply elem_of_cons in Hin as [<- | Hin].
  - apply Hkeep. cbn [resolve_compartments]. by rewrite lookup_insert_eq, Hold.
  - by apply IH.
Qed.

Lemma _getAllExtensions_slot (w : World) (f : Field) :
  ∃ l, _getAllExtensions w = ext_array l ∧ ext_compartment (slot f) (ext_array []) ∈ l.
Proof.
  unfold _getAllExtensions. eexists. split; [reflexivity |].
  apply elem_of_app. left.
  destruct f; cbn [slot]; repeat first [apply list_elem_of_here | apply list_elem_of_further].
Qed.

Lemma ngOnChanges_root {P : Platform} (key : string) (w : World) (v : EditorView) :
  view w = Some v →
  key = "setup" ∨ key = "extensions" →
  ngOnChanges {[key]} w = setExtensions (_getAllExtensions w) w.
Proof.
  intros Hv Hk. unfold ngOnChanges. rewrite !changed_singleton.
  rewrite bind_get, Hv, bool_decide_is_Some.
  destruct Hk as [-> | ->];
    decide_literal_keys;
    cbn [negb orb when]; unfold bind at 1 2 3 4 5 6 7 8 9 10; unfold ret; cbv beta iota;
    by rewrite bind_get.
Qed.

(** X10.  On a component whose view has content for all nine compartments,
    a change notification for [setup] or for [extensions] returns normally,
    replaces the root extension set by [_getAllExtensions()], and leaves the
    content of each of the nine compartments, the document, the view
    identity and the event log as they were. *)
Theorem root_change_keeps_field_configuration {P : Platform}
    (key : string) (w : World) (v : EditorView) :
  view w = Some v →
  key = "setup" ∨ key = "extensions" →
  (∀ f, is_Some (compartments (view_state v) !! slot f)) →
  ∃ w' v',
    ngOnChanges {[key]} w = (w', Return tt)
    ∧ view w' = Some v'
    ∧ view_id v' = view_id v
    ∧ base (view_state v') = _getAllExtensions w
    ∧ doc (view_state v') = doc (view_state v)
    ∧ (∀ f, compartments (view_state v') !! slot f
            = compartments (view_state v) !! slot f)
    ∧ events w' = events w.
Proof.
  intros Hv Hk Hall. rewrite (ngOnChanges_root key w v Hv Hk).
  unfold setExtensions.
  rewrite (_dispatchEffects_initialized w v [StateEffect_reconfigure _] Hv eq_refl).
  eexists _, _. split; [reflexivity |]. split; [reflexivity |].
  cbn [fold_left apply_effect EditorView_setState view_id view_state base doc compartments].
  repeat split.
  intros f. destruct (Hall f) as [x Hx]. rewrite Hx.
  destruct (_getAllExtensions_slot w f) as (l & -> & Hin).
  cbn [resolve_compartments]. by apply resolve_compartments_list with (ext_array []).
Qed.

Lemma root_change_keeps_field_configuration_witness :
  ∃ v, view sample = Some v
       ∧ (∀ f, is_Some (compartments (view_state v) !! slot f))
       ∧ ∃ w' v',
           ngOnChanges {["setup"]} sample = (w', Return tt)
           ∧ view w' = Some v'
           ∧ compartments (view_state v') !! _editableConf = Some (ext_editable true).
Proof.
  let o := eval vm_compute in (view sample) in
  match o with Some ?v => exists v end.
  split; [reflexivity |].
  match goal with
  | |- (∀ f, is_Some (compartments (view_state ?v) !! _)) ∧ _ =>
      assert (Hall : ∀ f, is_Some (compartments (view_state v) !! slot f))
  end.
  { intros []; eexists; reflexivity. }
  split; [exact Hall |].
  destruct (root_change_keeps_field_configuration "setup" sample _ eq_refl
              (or_introl eq_refl) Hall)
    as (w' & v' & H1 & H2 & _ & _ & _ & H3 & _).
  exists w', v'. split; [exact H1 |]. split; [exact H2 |].
  etrans; [apply (H3 f_disabled) | reflexivity].
Defined.

End CodeEditorRoot.

(** * Further properties of the diff wrapper *)

Section DiffEditorLifecycle.
Import DiffEditor.

Lemma diff_updateListener_quiet (editor : Editor) (tr : Transaction) (w : World) :
  tr_changes tr = None → _updateListener editor (ViewUpdate_of tr) w = (w, Return tt).
Proof.
  intros Hc. unfold _updateListener, ViewUpdate_of, tr_docChanged.
  cbn [vu_docChanged]. by rewrite Hc.
Qed.

(** [setEditable] on an existing merge view. *)
Lemma diff_setEditable_initialized {P : Platform}
    (w : World) (mv : MergeView) (editor : Editor) (b : bool) :
  mergeView w = Some mv →
  setEditable editor b w
  = (set_mergeView
       (Some (mv_set_editor mv editor
                (reconfigured (mv_editor mv editor) _editableConf (ext_editable b)))) w,
     Return tt).
Proof.
  intros Hmv. unfold setEditable. rewrite bind_get, Hmv.
  unfold editor_dispatch. rewrite EditorState_update_effects.
  cbn [rejected rejected_unit fold_left]. rewrite bind_modify.
  by rewrite diff_updateListener_quiet.
Qed.

(** Both sides made editable or not, one after the other. *)
Lemma diff_setEditable_both {P : Platform} (w : World) (mv : MergeView) (b : bool) :
  mergeView w = Some mv →
  (setEditable editor_a b ;; setEditable editor_b b) w
  = (set_mergeView (Some (both_editable mv b)) w, Return tt).
Proof.
  intros Hmv.
  rewrite (bind_run _ _ _ _ _ (diff_setEditable_initialized w mv editor_a b Hmv)).
  cbv beta. cbn [mv_editor].
  by rewrite (diff_setEditable_initialized
                (set_mergeView
                   (Some (mv_set_editor mv editor_a
                            (reconfigured (mv_a mv) _editableConf (ext_editable b)))) w)
                (mv_set_editor mv editor_a
                   (reconfigured (mv_a mv) _editableConf (ext_editable b)))
                editor_b b eq_refl).
Qed.

Lemma ngOnInit_run {P : Platform} (w : World) :
  ngOnInit w
  = (set_mergeView (Some (both_editable (new_MergeView w) (negb (disabled (inputs w)))))
       (set_contentDOM_listeners
          (contentDOM_listeners w ++
             [(editor_a, dom_focus); (editor_a, dom_blur);
              (editor_b, dom_focus); (editor_b, dom_blur)])
          (set_views_created (S (views_created w)) w)),
     Return tt).
Proof.
  unfold ngOnInit. rewrite bind_get. cbv zeta. rewrite bind_modify.
  unfold addEventListener. rewrite !bind_modify.
  erewrite diff_setEditable_both by reflexivity.
  f_equal. destruct w. diff_editor_proj. unfold new_MergeView. diff_editor_proj.
  by rewrite <- !app_assoc.
Qed.

(** X11.  [ngOnInit] of the diff wrapper returns normally on any component.
    It creates one merge view whose sub-editors are distinct, hold the
    [originalValue] and [modifiedValue] inputs, line breaks normalised, as
    documents and have [editable.of(!disabled)] in the editable compartment,
    and whose seven options are the inputs of the same names.  No callback
    is called, no declared output emits and the inputs are not written; the
    two model fields agree with the two documents when neither contains a
    carriage return. *)
Theorem diff_ngOnInit_builds_merge_view {P : Platform} (w : World) :
  ∃ w' mv,
    ngOnInit w = (w', Return tt)
    ∧ mergeView w' = Some mv
    ∧ views_created w' = S (views_created w)
    ∧ view_id (mv_a mv) ≠ view_id (mv_b mv)
    ∧ doc (view_state (mv_a mv)) = normalize_line_breaks (originalValue (inputs w))
    ∧ doc (view_state (mv_b mv)) = normalize_line_breaks (modifiedValue (inputs w))
    ∧ (∀ editor, compartments (view_state (mv_editor mv editor)) !! _editableConf
                 = Some (ext_editable (negb (disabled (inputs w)))))
    ∧ (∀ o, option_get o (mv_config mv) = option_change o (inputs w))
    ∧ events w' = events w
    ∧ inputs w' = inputs w
    ∧ (has_CR (originalValue (inputs w)) = false →
       has_CR (modifiedValue (inputs w)) = false → in_sync w').
Proof.
  rewrite ngOnInit_run. eexists _, _. split; [reflexivity |]. split; [reflexivity |].
  split; [reflexivity |]. split; [cbn; lia |]. split; [reflexivity |].
  split; [reflexivity |]. split.
  { intros []; cbn; by rewrite lookup_insert_eq. }
  split; [by intros [] |]. split; [reflexivity |]. split; [reflexivity |].
  intros Ha Hb. apply normalize_line_breaks_fixed in Ha, Hb.
  unfold in_sync, current_content. cbn. by rewrite Ha, Hb.
Qed.

End DiffEditorLifecycle.

Section DiffEditorProtocol.
Import DiffEditor.

(** What [setValue] does on a side: the document becomes the value with its
    line breaks normalised; unless the old document and the value are both
    empty, the side's listener fires, writes the side's model field and
    appends to the log. *)
Lemma diff_setValue_events {P : Platform}
    (w : World) (mv : MergeView) (editor : Editor) (x : string) :
  mergeView w = Some mv →
  ∃ w' mv',
    setValue editor x w = (w', Return tt)
    ∧ mergeView w' = Some mv'
    ∧ mv' = mv_set_editor mv editor
              (EditorView_setState (mv_editor mv editor)
                 {| doc := normalize_line_breaks x;
                    base := base (view_state (mv_editor mv editor));
                    compartments := compartments (view_state (mv_editor mv editor)) |})
    ∧ _onChange w' = _onChange w
    ∧ (doc (view_state (mv_editor mv editor)) = "" ∧ x = "" →
       inputs w' = inputs w ∧ events w' = events w)
    ∧ (¬ (doc (view_state (mv_editor mv editor)) = "" ∧ x = "") →
       inputs w' = model_set editor (normalize_line_breaks x) (inputs w)
       ∧ ∀ fn, _onChange w = Some fn →
           events w' = events w ++
             match editor with
             | editor_a =>
                 [call_onChange fn {| original := normalize_line_breaks x;
                                      modified := modifiedValue (inputs w) |};
                  emit_originalValueChange (normalize_line_breaks x)]
             | editor_b =>
                 [call_onChange fn {| original := originalValue (inputs w);
                                      modified := normalize_line_breaks x |};
                  emit_modifiedValueChange (normalize_line_breaks x)]
             end).
Proof.
  intros Hmv. rewrite (diff_setValue_initialized w mv editor x Hmv). cbv zeta.
  destruct (whole_change (doc (view_state (mv_editor mv editor))) x) eqn:Hc.
  - assert (Hne : ¬ (doc (view_state (mv_editor mv editor)) = "" ∧ x = "")).
    { intros H. apply whole_change_None in H. congruence. }
    destruct editor.
    + rewrite diff_updateListener_a by reflexivity. cbv zeta. diff_editor_proj.
      eexists _, _. split; [reflexivity |]. split; [reflexivity |]. split; [reflexivity |].
      split; [reflexivity |]. split; [by intros ? |]. intros _. split; [reflexivity |].
      intros fn Hfn. diff_editor_proj. by rewrite Hfn.
    + rewrite diff_updateListener_b by reflexivity. cbv zeta. diff_editor_proj.
      eexists _, _. split; [reflexivity |]. split; [reflexivity |]. split; [reflexivity |].
      split; [reflexivity |]. split; [by intros ? |]. intros _. split; [reflexivity |].
      intros fn Hfn. diff_editor_proj. by rewrite Hfn.
  - rewrite diff_updateListener_quiet by reflexivity.
    eexists _, _. split; [reflexivity |]. split; [reflexivity |]. split; [reflexivity |].
    split; [reflexivity |]. split; [by intros _ |].
    intros Hne. exfalso. apply Hne. by apply whole_change_None.
Qed.

(** X12.  On a diff wrapper with a merge view and a registered callback,
    [writeValue] of a value that is not an object changes nothing, and
    [writeValue] of a pair returns normally with both documents and both
    model fields equal to the pair's halves, line breaks normalised.  Each
    side whose document changes (old document or new value non-empty) calls
    the callback and emits that side's change event with the side's new
    document: the call for the original side carries the modified half as
    it was written, the call for the modified side carries both halves
    normalised. *)
Theorem diff_writeValue_round_trip {P : Platform}
    (w : World) (mv : MergeView) (o m : string) (fn : nat) :
  mergeView w = Some mv →
  _onChange w = Some fn →
  writeValue None w = (w, Return tt)
  ∧ ∃ w',
      writeValue (Some {| original := o; modified := m |}) w = (w', Return tt)
      ∧ originalValue (inputs w') = normalize_line_breaks o
      ∧ modifiedValue (inputs w') = normalize_line_breaks m
      ∧ current_content w' editor_a = Some (normalize_line_breaks o)
      ∧ current_content w' editor_b = Some (normalize_line_breaks m)
      ∧ events w' = events w
          ++ (if bool_decide (doc (view_state (mv_a mv)) = "" ∧ o = "") then []
              else [call_onChange fn {| original := normalize_line_breaks o; modified := m |};
                    emit_originalValueChange (normalize_line_breaks o)])
          ++ (if bool_decide (doc (view_state (mv_b mv)) = "" ∧ m = "") then []
              else [call_onChange fn {| original := normalize_line_breaks o;
                                        modified := normalize_line_breaks m |};
                    emit_modifiedValueChange (normalize_line_breaks m)]).
Proof.
  intros Hmv Hfn. split.
  { unfold writeValue. rewrite bind_get. by destruct (mergeView w). }
  unfold writeValue. rewrite bind_get, Hmv. cbn [original modified].
  rewrite !bind_modify.
  set (w0 := set_inputs _ (set_inputs _ w)).
  assert (Hmv0 : mergeView w0 = Some mv) by exact Hmv.
  assert (Hfn0 : _onChange w0 = Some fn) by exact Hfn.
  assert (Ho0 : originalValue (inputs w0) = o) by reflexivity.
  assert (Hm0 : modifiedValue (inputs w0) = m) by reflexivity.
  assert (He0 : events w0 = events w) by reflexivity.
  clearbody w0.
  destruct (diff_setValue_events w0 mv editor_a o Hmv0)
    as (w1 & mv1 & Hrun1 & Hmv1 & Hmv1' & Hfn1 & Hq1 & Hl1).
  rewrite (bind_run _ _ _ _ _ Hrun1).
  destruct (diff_setValue_events w1 mv1 editor_b m Hmv1)
    as (w2 & mv2 & Hrun2 & Hmv2 & Hmv2' & Hfn2 & Hq2 & Hl2).
  exists w2. split; [exact Hrun2 |].
  assert (Hdb : doc (view_state (mv_editor mv1 editor_b)) = doc (view_state (mv_b mv)))
    by (by rewrite Hmv1').
  rewrite Hfn0 in Hfn1.
  cbn [mv_editor model_set] in Hq1, Hl1.
  assert (H1 : originalValue (inputs w1) = normalize_line_breaks o
               ∧ modifiedValue (inputs w1) = m
               ∧ events w1 = events w ++
                   (if bool_decide (doc (view_state (mv_a mv)) = "" ∧ o = "") then []
                    else [call_onChange fn {| original := normalize_line_breaks o;
                                              modified := m |};
                          emit_originalValueChange (normalize_line_breaks o)])).
  { destruct (decide (doc (view_state (mv_a mv)) = "" ∧ o = "")) as [Hd | Hd].
    - rewrite (bool_decide_eq_true_2 _ Hd).
      destruct (Hq1 Hd) as [Hi He]. rewrite Hi, He, He0, app_nil_r, Ho0, Hm0.
      destruct Hd as [_ ->]. by repeat split.
    - rewrite (bool_decide_eq_false_2 _ Hd).
      destruct (Hl1 Hd) as [Hi He]. rewrite Hi, (He fn Hfn0), He0, Hm0.
      split; [reflexivity |]. split; [| reflexivity].
      change (modifiedValue (inputs w0) = m). exact Hm0. }
  destruct H1 as (Ho1 & Hm1 & He1).
  rewrite Hdb in Hq2, Hl2. cbn [model_set] in Hl2.
  assert (H2 : originalValue (inputs w2) = normalize_line_breaks o
               ∧ modifiedValue (inputs w2) = normalize_line_breaks m
               ∧ events w2 = events w1 ++
                   (if bool_decide (doc (view_state (mv_b mv)) = "" ∧ m = "") then []
                    else [call_onChange fn {| original := normalize_line_breaks o;
                                              modified := normalize_line_breaks m |};
                          emit_modifiedValueChange (normalize_line_breaks m)])).
  { destruct (decide (doc (view_state (mv_b mv)) = "" ∧ m = "")) as [Hd | Hd].
    - rewrite (bool_decide_eq_true_2 _ Hd).
      destruct (Hq2 Hd) as [Hi He]. rewrite Hi, He, app_nil_r, Ho1, Hm1.
      destruct Hd as [_ ->]. by repeat split.
    - rewrite (bool_decide_eq_false_2 _ Hd).
      destruct (Hl2 Hd) as [Hi He]. rewrite Hi, (He fn Hfn1), Ho1.
      split; [exact Ho1 |]. by split. }
  destruct H2 as (Ho2 & Hm2 & He2).
  split; [exact Ho2 |]. split; [exact Hm2 |].
  split; [| split].
  - unfold current_content. rewrite Hmv2. by rewrite Hmv2', Hmv1'.
  - unfold current_content. rewrite Hmv2. by rewrite Hmv2'.
  - by rewrite He2, He1, <- app_assoc.
Qed.

Lemma diff_writeValue_round_trip_witness :
  ∃ mv, mergeView sample_registered = Some mv
        ∧ _onChange sample_registered = Some 7
        ∧ ∃ w', writeValue (Some {| original := "old"; modified := a_CRLF_b |})
                  sample_registered = (w', Return tt)
                ∧ current_content w' editor_a = Some "old"
                ∧ current_content w' editor_b = Some a_LF_b
                ∧ modifiedValue (inputs w') = a_LF_b
                ∧ events w'
                  = [call_onChange 7 {| original := "old"; modified := a_CRLF_b |};
                     emit_originalValueChange "old";
                     call_onChange 7 {| original := "old"; modified := a_LF_b |};
                     emit_modifiedValueChange a_LF_b].
Proof.
  let o := eval vm_compute in (mergeView sample_registered) in
  match o with Some ?mv => exists mv end.
  split; [reflexivity |]. split; [reflexivity |].
  destruct (diff_writeValue_round_trip sample_registered _ "old" a_CRLF_b 7 eq_refl eq_refl)
    as (_ & w' & Hrun & _ & Hm & Ha & Hb & Hev).
  exists w'. split; [exact Hrun |]. split; [exact Ha |]. split; [exact Hb |].
  split; [exact Hm | exact Hev].
Defined.

End DiffEditorProtocol.

Section DiffEditorChanges.
Import DiffEditor.

Lemma diff_changed_singleton (k k' : string) : changed {[k]} k' = bool_decide (k' = k).
Proof. unfold changed. apply bool_decide_ext. set_solver. Qed.

Lemma diff_ngOnChanges_option_run {P : Platform} (o : Option_) (w : World) :
  ngOnChanges {[option_key o]} w = reconfigure (option_change o (inputs w)) w.
Proof.
  unfold ngOnChanges. rewrite !diff_changed_singleton.
  destruct o; cbn [option_key option_change]; decide_literal_keys;
    cbn [when]; unfold bind, ret, get, reconfigure, modify; reflexivity.
Qed.

Lemma diff_ngOnChanges_disabled_run {P : Platform} (w : World) :
  ngOnChanges {["disabled"]} w
  = (setEditable editor_a (negb (disabled (inputs w))) ;;
     setEditable editor_b (negb (disabled (inputs w)))) w.
Proof.
  unfold ngOnChanges. rewrite !diff_changed_singleton. decide_literal_keys.
  cbn [when]. unfold bind at 1 2 3 4 5 6 7 8 9. unfold ret. cbv beta iota.
  by rewrite bind_get.
Qed.

Lemma both_editable_twice (mv : MergeView) (b b' : bool) :
  both_editable (both_editable mv b') b = both_editable mv b.
Proof.
  unfold both_editable. cbn [mv_set_editor mv_a mv_b mv_config mv_destroyed].
  by rewrite !reconfigured_twice.
Qed.

(** X13.  On a diff wrapper with a merge view, [setDisabledState b] returns
    normally, stores [b] in the [disabled] model and puts [editable.of(!b)]
    in the editable compartment of both sub-editors; the documents, the
    options of the merge view and the other inputs are unchanged, and a
    change notification for [disabled] that follows leaves the component as
    it is. *)
Theorem diff_setDisabledState_both_sides {P : Platform}
    (b : bool) (w : World) (mv : MergeView) :
  mergeView w = Some mv →
  ∃ w' mv',
    setDisabledState b w = (w', Return tt)
    ∧ mergeView w' = Some mv'
    ∧ inputs w' = disabled_set b (inputs w)
    ∧ disabled (inputs w') = b
    ∧ (∀ editor,
         compartments (view_state (mv_editor mv' editor)) !! _editableConf
         = Some (ext_editable (negb b))
         ∧ doc (view_state (mv_editor mv' editor)) = doc (view_state (mv_editor mv editor))
         ∧ view_id (mv_editor mv' editor) = view_id (mv_editor mv editor))
    ∧ mv_config mv' = mv_config mv
    ∧ ngOnChanges {["disabled"]} w' = (w', Return tt).
Proof.
  intros Hmv. unfold setDisabledState. rewrite bind_modify.
  rewrite (diff_setEditable_both _ mv) by exact Hmv.
  eexists _, _. split; [reflexivity |]. split; [reflexivity |]. split; [reflexivity |].
  split; [reflexivity |].
  split. { intros []; cbn; by rewrite lookup_insert_eq. }
  split; [reflexivity |].
  rewrite diff_ngOnChanges_disabled_run. diff_editor_proj. cbn [disabled disabled_set].
  rewrite (diff_setEditable_both _ (both_editable mv (negb b))) by reflexivity.
  rewrite both_editable_twice. reflexivity.
Qed.

Lemma diff_setDisabledState_both_sides_witness :
  ∃ mv, mergeView sample = Some mv
        ∧ ∃ w' mv',
            setDisabledState true sample = (w', Return tt)
            ∧ mergeView w' = Some mv'
            ∧ compartments (view_state (mv_a mv')) !! _editableConf
              = Some (ext_editable false)
            ∧ compartments (view_state (mv_b mv')) !! _editableConf
              = Some (ext_editable false).
Proof.
  let o := eval vm_compute in (mergeView sample) in
  match o with Some ?mv => exists mv end.
  split; [reflexivity |].
  destruct (diff_setDisabledState_both_sides true sample _ eq_refl)
    as (w' & mv' & H1 & H2 & _ & _ & H3 & _).
  exists w', mv'. split; [exact H1 |]. split; [exact H2 |].
  split; [apply (H3 editor_a) | apply (H3 editor_b)].
Defined.

(** X14.  On a diff wrapper with a merge view, a change notification for
    one of the seven options (orientation, revertControls,
    renderRevertControl, highlightChanges, gutter, collapseUnchanged,
    diffConfig) returns normally and replaces that option by its input; the
    other six options, both sub-editors, the inputs and the event log are
    unchanged. *)
Theorem diff_ngOnChanges_replaces_one_option {P : Platform}
    (o : Option_) (w : World) (mv : MergeView) :
  mergeView w = Some mv →
  ∃ w' mv',
    ngOnChanges {[option_key o]} w = (w', Return tt)
    ∧ mergeView w' = Some mv'
    ∧ option_get o (mv_config mv') = option_change o (inputs w)
    ∧ (∀ o', o' ≠ o → option_get o' (mv_config mv') = option_get o' (mv_config mv))
    ∧ mv_a mv' = mv_a mv
    ∧ mv_b mv' = mv_b mv
    ∧ events w' = events w
    ∧ inputs w' = inputs w.
Proof.
  intros Hmv. rewrite diff_ngOnChanges_option_run. unfold reconfigure, modify. rewrite Hmv.
  eexists _, _. split; [reflexivity |]. split; [reflexivity |].
  cbn [MergeView_reconfigure mv_config mv_a mv_b].
  destruct (mv_config mv) as [co crc crr ch cg ccu cdc].
  split; [by destruct o |]. split; [| by repeat split].
  intros o' Hne. destruct o, o'; first [reflexivity | by destruct Hne].
Qed.

Lemma diff_ngOnChanges_replaces_one_option_witness :
  ∃ mv, mergeView sample = Some mv
        ∧ ∃ w' mv',
            ngOnChanges {["gutter"]} sample = (w', Return tt)
            ∧ mergeView w' = Some mv'
            ∧ cfg_gutter (mv_config mv') = true
            ∧ mv_a mv' = mv_a mv.
Proof.
  let o := eval vm_compute in (mergeView sample) in
  match o with Some ?mv => exists mv end.
  split; [reflexivity |].
  destruct (diff_ngOnChanges_replaces_one_option o_gutter sample _ eq_refl)
    as (w' & mv' & H1 & H2 & H3 & _ & H4 & _).
  exists w', mv'. split; [exact H1 |]. split; [exact H2 |]. split; [| exact H4].
  cbn [option_get option_change] in H3. by injection H3.
Defined.

End DiffEditorChanges.

Section DiffEditorSync.
Import DiffEditor.

Lemma EditorState_update_Return {P : Platform} (st : EditorState) (spec : TransactionSpec)
    (tr : Transaction) :
  EditorState_update st spec = Return tr →
  tr_annotations tr = annotations spec
  ∧ doc (tr_state tr)
    = match tr_changes tr with Some c => apply_change c (doc st) | None => doc st end.
Proof.
  unfold EditorState_update.
  destruct (changes spec) as [c|].
  - destruct (negb (change_in_range c (doc st))); [discriminate |].
    destruct (change_is_empty c), (rejected (effects spec)); try discriminate;
      intros [= <-]; cbn [tr_annotations tr_state tr_changes];
      by rewrite apply_effects_doc.
  - destruct (rejected (effects spec)); [discriminate |].
    intros [= <-]. cbn [tr_annotations tr_state tr_changes]. by rewrite apply_effects_doc.
Qed.

Lemma synced_intro (w : World) (mv : MergeView) :
  mergeView w = Some mv →
  doc (view_state (mv_a mv)) = originalValue (inputs w) →
  doc (view_state (mv_b mv)) = modifiedValue (inputs w) →
  synced w.
Proof.
  intros Hmv Ha Hb. split; [eauto |]. unfold in_sync, current_content.
  rewrite Hmv. cbn. by rewrite Ha, Hb.
Qed.

Lemma synced_elim (w : World) (mv : MergeView) :
  mergeView w = Some mv → synced w →
  doc (view_state (mv_a mv)) = originalValue (inputs w)
  ∧ doc (view_state (mv_b mv)) = modifiedValue (inputs w).
Proof.
  intros Hmv [_ [Ha Hb]]. unfold current_content in *. rewrite Hmv in *.
  cbn in *. split; congruence.
Qed.

(** Any dispatch to a sub-editor whose transaction is not marked
    [External] keeps the model fields in step with the documents. *)
Lemma editor_dispatch_synced {P : Platform} (w : World) (mv : MergeView) (editor : Editor)
    (spec : TransactionSpec) :
  mergeView w = Some mv → synced w →
  truthy (ann_value <$> List.find (λ a, bool_decide (ann_type a = External))
                          (annotations spec)) = false →
  ∃ w' r, editor_dispatch mv editor spec w = (w', r) ∧ synced w'.
Proof.
  intros Hmv Hs Hext. destruct (synced_elim w mv Hmv Hs) as [Ha Hb].
  unfold editor_dispatch.
  destruct (EditorState_update _ spec) as [tr | e] eqn:Hu; [| by exists w, (Throw e)].
  destruct (EditorState_update_Return _ _ _ Hu) as [Hann Hdoc].
  rewrite bind_modify.
  destruct (tr_changes tr) as [c|] eqn:Hc.
  - assert (Hd : vu_docChanged (ViewUpdate_of tr) = true).
    { unfold ViewUpdate_of, tr_docChanged. cbn. by rewrite Hc. }
    assert (He : existsb (λ tr, truthy (Transaction_annotation tr External))
                   (vu_transactions (ViewUpdate_of tr)) = false).
    { cbn. unfold Transaction_annotation. by rewrite Hann, Hext. }
    destruct editor.
    + rewrite (diff_updateListener_a _ _ Hd He). cbv zeta. eexists _, _.
      split; [reflexivity |]. eapply synced_intro; [reflexivity | reflexivity | exact Hb].
    + rewrite (diff_updateListener_b _ _ Hd He). cbv zeta. eexists _, _.
      split; [reflexivity |]. eapply synced_intro; [reflexivity | exact Ha | reflexivity].
  - rewrite diff_updateListener_quiet by exact Hc. eexists _, _. split; [reflexivity |].
    destruct editor.
    + eapply synced_intro; [reflexivity | | exact Hb]. cbn. by rewrite Hdoc.
    + eapply synced_intro; [reflexivity | exact Ha |]. cbn. by rewrite Hdoc.
Qed.

Lemma keeps_synced_seq (m k : M World unit) :
  keeps_synced m → keeps_synced k → keeps_synced (m ;; k).
Proof.
  intros Hm Hk w Hs. destruct (Hm w Hs) as (w1 & r1 & Hrun1 & Hs1).
  unfold bind. rewrite Hrun1. destruct r1 as [[] | e].
  - by apply Hk.
  - by exists w1, (Throw e).
Qed.

Lemma keeps_synced_when (c : bool) (m : M World unit) :
  keeps_synced m → keeps_synced (when c m).
Proof. intros Hm. destruct c; [exact Hm |]. intros w Hs. by exists w, (Return tt). Qed.

Lemma keeps_synced_get (f : World → M World unit) :
  (∀ w0, keeps_synced (f w0)) → keeps_synced (do w <- get; f w).
Proof. intros Hf w Hs. rewrite bind_get. by apply (Hf w w). Qed.

Lemma keeps_synced_setValue {P : Platform} (editor : Editor) (x : string) :
  keeps_synced (setValue editor x).
Proof.
  intros w Hs. destruct Hs as [[mv Hmv] Hin]. unfold setValue. rewrite bind_get, Hmv.
  apply editor_dispatch_synced; [exact Hmv | by split; eauto | reflexivity].
Qed.

Lemma keeps_synced_setEditable {P : Platform} (editor : Editor) (b : bool) :
  keeps_synced (setEditable editor b).
Proof.
  intros w Hs. destruct Hs as [[mv Hmv] Hin]. unfold setEditable. rewrite bind_get, Hmv.
  apply editor_dispatch_synced; [exact Hmv | by split; eauto | reflexivity].
Qed.

Lemma keeps_synced_reconfigure (ch : MergeConfigChange) : keeps_synced (reconfigure ch).
Proof.
  intros w Hs. destruct Hs as [[mv Hmv] Hin]. unfold reconfigure, modify.
  eexists _, _. split; [reflexivity |].
  destruct (synced_elim w mv Hmv (conj (ex_intro _ mv Hmv) Hin)) as [Ha Hb].
  rewrite Hmv. by eapply synced_intro.
Qed.

Lemma keeps_synced_writeValue {P : Platform} (value : option DiffEditorModel) :
  keeps_synced (writeValue value).
Proof.
  intros w Hs. destruct Hs as [[mv Hmv] Hin]. unfold writeValue. rewrite bind_get, Hmv.
  destruct value as [[o m]|];
    [| exists w, (Return tt); split; [reflexivity | split; [by exists mv | exact Hin]]].
  cbn [original modified]. rewrite !bind_modify.
  set (w0 := set_inputs _ (set_inputs _ w)).
  assert (Hmv0 : mergeView w0 = Some mv) by exact Hmv.
  assert (Ho0 : originalValue (inputs w0) = o) by reflexivity.
  assert (Hm0 : modifiedValue (inputs w0) = m) by reflexivity.
  clearbody w0.
  destruct (diff_setValue_events w0 mv editor_a o Hmv0)
    as (w1 & mv1 & Hrun1 & Hmv1 & Hmv1' & _ & Hq1 & Hl1).
  rewrite (bind_run _ _ _ _ _ Hrun1).
  destruct (diff_setValue_events w1 mv1 editor_b m Hmv1)
    as (w2 & mv2 & Hrun2 & Hmv2 & Hmv2' & _ & Hq2 & Hl2).
  exists w2, (Return tt). split; [exact Hrun2 |].
  cbn [mv_editor model_set] in Hq1, Hl1, Hq2, Hl2.
  assert (Hin1 : originalValue (inputs w1) = normalize_line_breaks o
                 ∧ modifiedValue (inputs w1) = m).
  { destruct (decide (doc (view_state (mv_a mv)) = "" ∧ o = "")) as [Hd | Hd].
    - destruct (Hq1 Hd) as [-> _]. rewrite Ho0, Hm0. destruct Hd as [_ ->]. by split.
    - destruct (Hl1 Hd) as [-> _]. by split. }
  destruct Hin1 as [Ho1 Hm1].
  assert (Hin2 : originalValue (inputs w2) = normalize_line_breaks o
                 ∧ modifiedValue (inputs w2) = normalize_line_breaks m).
  { destruct (decide (doc (view_state (mv_b mv1)) = "" ∧ m = "")) as [Hd | Hd].
    - destruct (Hq2 Hd) as [-> _]. rewrite Ho1, Hm1. destruct Hd as [_ ->]. by split.
    - destruct (Hl2 Hd) as [-> _]. by split. }
  destruct Hin2 as [Hio Him].
  apply (synced_intro w2 mv2 Hmv2).
  - rewrite Hmv2', Hmv1'. cbn. by rewrite Hio.
  - rewrite Hmv2'. cbn. by rewrite Him.
Qed.

(** X15.  Invariant of the diff wrapper: once a merge view exists and the
    model fields [originalValue] and [modifiedValue] equal the two
    documents, they still do after [setValue], [setEditable], [writeValue],
    [setDisabledState], [ngOnChanges] with any set of keys, and any user
    edit, whether the operation returns or throws. *)
Theorem diff_model_follows_documents {P : Platform} (op : Operation) (w : World) :
  synced w → ∃ w' r, perform op w = (w', r) ∧ synced w'.
Proof.
  revert w. fold (keeps_synced (perform op)).
  destruct op as [editor x | editor b | value | b | changes | editor c ue];
    cbn [perform].
  - apply keeps_synced_setValue.
  - apply keeps_synced_setEditable.
  - apply keeps_synced_writeValue.
  - unfold setDisabledState. intros w Hs. rewrite bind_modify.
    apply (keeps_synced_seq _ _ (keeps_synced_setEditable _ _)
             (keeps_synced_setEditable _ _)).
    destruct Hs as [[mv Hmv] Hin].
    destruct (synced_elim w mv Hmv (conj (ex_intro _ mv Hmv) Hin)) as [Ha Hb].
    by apply (synced_intro _ mv).
  - unfold ngOnChanges.
    do 2 (apply keeps_synced_seq;
          [apply keeps_synced_when, keeps_synced_get; intros w0;
           apply keeps_synced_setValue |]).
    do 7 (apply keeps_synced_seq;
          [apply keeps_synced_when, keeps_synced_get; intros w0;
           apply keeps_synced_reconfigure |]).
    apply keeps_synced_when, keeps_synced_get. intros w0. cbv zeta.
    apply keeps_synced_seq; apply keeps_synced_setEditable.
  - intros w Hs. destruct Hs as [[mv Hmv] Hin]. unfold user_edit.
    rewrite bind_get, Hmv.
    apply editor_dispatch_synced; [exact Hmv | by split; eauto | reflexivity].
Qed.

Lemma diff_model_follows_documents_witness :
  synced sample
  ∧ ∃ w' r,
      perform (op_user_edit editor_a {| from := 0; to := 0; insert_text := "x" |}
                 "input.type") sample = (w', r)
      ∧ synced w'.
Proof.
  assert (Hs : synced sample).
  { split; [eexists; reflexivity |]. split; reflexivity. }
  split; [exact Hs |]. exact (diff_model_follows_documents _ sample Hs).
Defined.

(** X16.  On a diff wrapper with a merge view, a change notification for
    [originalValue] (for [modifiedValue]) returns normally and makes the
    document of the original (modified) side equal to that input with its
    line breaks normalised.  Unless the old document and the input are both
    empty, the side's listener then writes the new document back into the
    model field, so the field keeps the host's text exactly when that text
    contains no carriage return; the other model field and the other side's
    document are unchanged. *)
Theorem diff_value_input_reaches_document {P : Platform}
    (editor : Editor) (w : World) (mv : MergeView) :
  mergeView w = Some mv →
  let x := model_value editor (inputs w) in
  ∃ w',
    ngOnChanges {[model_key editor]} w = (w', Return tt)
    ∧ current_content w' editor = Some (normalize_line_breaks x)
    ∧ inputs w'
      = (if bool_decide (doc (view_state (mv_editor mv editor)) = "" ∧ x = "")
         then inputs w else model_set editor (normalize_line_breaks x) (inputs w))
    ∧ (has_CR x = false → inputs w' = inputs w)
    ∧ ∀ other, other ≠ editor →
        current_content w' other = current_content w other
        ∧ model_value other (inputs w') = model_value other (inputs w).
Proof.
  intros Hmv x.
  assert (Hrun : ngOnChanges {[model_key editor]} w = setValue editor x w).
  { unfold ngOnChanges. rewrite !diff_changed_singleton. subst x.
    destruct editor; cbn [model_key model_value];
      decide_literal_keys;
      cbn [when]; unfold bind, ret, get; cbv beta iota;
      by destruct (setValue _ _ w) as [? [[]|?]]. }
  rewrite Hrun.
  destruct (diff_setValue_events w mv editor x Hmv)
    as (w' & mv' & Hr & Hmv' & Hd & _ & Hq & Hl).
  assert (Hi : inputs w'
               = (if bool_decide (doc (view_state (mv_editor mv editor)) = "" ∧ x = "")
                  then inputs w else model_set editor (normalize_line_breaks x) (inputs w))).
  { case_bool_decide as Hc; [by destruct (Hq Hc) | by destruct (Hl Hc)]. }
  exists w'. split; [exact Hr |]. split; [| split; [exact Hi |]; split].
  - unfold current_content. rewrite Hmv', Hd. cbn. by rewrite mv_editor_set_eq.
  - intros Hcr. rewrite Hi. case_bool_decide; [reflexivity |].
    apply normalize_line_breaks_fixed in Hcr. rewrite Hcr. subst x.
    by destruct editor, (inputs w).
  - intros other Hne. split.
    + unfold current_content. rewrite Hmv', Hmv, Hd. cbn.
      by rewrite mv_editor_set_ne.
    + rewrite Hi. case_bool_decide; [reflexivity |]. by destruct editor, other.
Qed.

Lemma diff_value_input_reaches_document_witness :
  let w := set_inputs (modifiedValue_set a_CRLF_b (inputs sample)) sample in
  ∃ mv, mergeView w = Some mv
        ∧ ∃ w', ngOnChanges {["modifiedValue"]} w = (w', Return tt)
                ∧ current_content w' editor_b = Some a_LF_b
                ∧ modifiedValue (inputs w') = a_LF_b
                ∧ current_content w' editor_a = Some "".
Proof.
  cbv zeta.
  let o := eval vm_compute in (mergeView sample) in
  match o with Some ?mv => exists mv end.
  split; [reflexivity |].
  destruct (diff_value_input_reaches_document editor_b
              (set_inputs (modifiedValue_set a_CRLF_b (inputs sample)) sample) _ eq_refl)
    as (w' & H1 & H2 & H3 & _ & H4).
  exists w'. split; [exact H1 |]. split; [exact H2 |]. split.
  - by rewrite H3.
  - apply (H4 editor_a). discriminate.
Defined.

End DiffEditorSync.

Section DiffEditorEvents.
Import DiffEditor.

(** X17.  On a diff wrapper without content listeners a focus or blur event
    does nothing.  After [ngOnInit] and [registerOnTouched fn], a focus or
    blur event on a side calls [fn] and then emits that side's focus or
    blur event: [originalFocus], [originalBlur], [modifiedFocus] or
    [modifiedBlur]. *)
Theorem diff_focus_and_blur_per_side {P : Platform}
    (w : World) (fn : nat) (editor : Editor) (e : DomEvent) :
  contentDOM_listeners w = [] →
  contentDOM_dispatchEvent editor e w = (w, Return tt)
  ∧ ∃ w1 w2,
      ngOnInit w = (w1, Return tt)
      ∧ (registerOnTouched fn ;; contentDOM_dispatchEvent editor e) w1 = (w2, Return tt)
      ∧ events w2 = events w ++
          [call_onTouched fn;
           match editor, e with
           | editor_a, dom_focus => emit_originalFocus
           | editor_a, dom_blur => emit_originalBlur
           | editor_b, dom_focus => emit_modifiedFocus
           | editor_b, dom_blur => emit_modifiedBlur
           end].
Proof.
  intros Hl. split.
  - unfold contentDOM_dispatchEvent. rewrite bind_get, Hl.
    rewrite bool_decide_eq_false_2; [reflexivity | apply not_elem_of_nil].
  - rewrite ngOnInit_run. eexists _, _. split; [reflexivity |].
    unfold registerOnTouched. rewrite bind_modify.
    unfold contentDOM_dispatchEvent. rewrite bind_get. diff_editor_proj. rewrite Hl.
    rewrite bool_decide_eq_true_2.
    2:{ destruct editor, e;
          repeat first [apply list_elem_of_here | apply list_elem_of_further]. }
    cbn [when]. unfold contentDOM_handler, call__onTouched, bind, get, emit, modify.
    cbv beta iota. diff_editor_proj. cbv beta iota. split; [reflexivity |].
    diff_editor_proj. by rewrite <- app_assoc.
Qed.

Lemma diff_focus_and_blur_per_side_witness :
  contentDOM_listeners (constructed default_inputs) = []
  ∧ ∃ w1 w2,
      ngOnInit (constructed default_inputs) = (w1, Return tt)
      ∧ (registerOnTouched 3 ;; contentDOM_dispatchEvent editor_b dom_focus) w1
        = (w2, Return tt)
      ∧ events w2 = [call_onTouched 3; emit_modifiedFocus].
Proof.
  split; [reflexivity |].
  destruct (diff_focus_and_blur_per_side (constructed default_inputs) 3 editor_b dom_focus
              eq_refl) as (_ & w1 & w2 & H1 & H2 & H3).
  exists w1, w2. split; [exact H1 |]. split; [exact H2 | exact H3].
Defined.

End DiffEditorEvents.

(** * Teardown *)

Section Teardown.

(** X18.  Teardown.  Before [ngOnInit], [ngOnDestroy] of the single-editor
    wrapper throws a [TypeError] and that of the diff wrapper does nothing.
    After [ngOnInit] of the single-editor wrapper, whether it returned or
    threw, [ngOnDestroy] returns normally and the view [ngOnInit] created
    is destroyed, its document still the [value] input with line breaks
    normalised.  After [ngOnInit] of the diff wrapper, [ngOnDestroy] returns
    normally and the merge view and both of its sub-editors are
    destroyed. *)
Theorem teardown_of_both_wrappers {P : Platform}
    (w : CodeEditor.World) (dw : DiffEditor.World) :
  CodeEditor.view w = None →
  DiffEditor.mergeView dw = None →
  CodeEditor.ngOnDestroy w = (w, Throw TypeError)
  ∧ DiffEditor.ngOnDestroy dw = (dw, Return tt)
  ∧ (∃ w1 r w' v',
        CodeEditor.ngOnInit w = (w1, r)
        ∧ CodeEditor.ngOnDestroy w1 = (w', Return tt)
        ∧ CodeEditor.view w' = Some v'
        ∧ view_id v' = CodeEditor.views_created w
        ∧ destroyed v' = true
        ∧ doc (view_state v')
          = normalize_line_breaks (CodeEditor.value (CodeEditor.inputs w)))
  ∧ (∃ dw' mv, (DiffEditor.ngOnInit ;; DiffEditor.ngOnDestroy) dw = (dw', Return tt)
               ∧ DiffEditor.mergeView dw' = Some mv
               ∧ DiffEditor.mv_destroyed mv = true
               ∧ destroyed (DiffEditor.mv_a mv) = true
               ∧ destroyed (DiffEditor.mv_b mv) = true).
Proof.
  intros Hv Hmv. split; [| split; [| split]].
  - unfold CodeEditor.ngOnDestroy. by rewrite bind_get, Hv.
  - unfold DiffEditor.ngOnDestroy, modify. rewrite Hmv. cbn.
    by rewrite diff_set_mergeView_None.
  - destruct (ngOnInit_outcome w) as (w1 & v1 & r & Hrun & Hv1 & Hid & _ & Hdoc & _).
    exists w1, r. eexists _, _. split; [exact Hrun |].
    unfold CodeEditor.ngOnDestroy. rewrite bind_get, Hv1. unfold modify.
    split; [reflexivity |]. split; [reflexivity |]. by repeat split.
  - rewrite (bind_run _ _ _ _ _ (ngOnInit_run dw)).
    unfold DiffEditor.ngOnDestroy, modify. eexists _, _. split; [reflexivity |].
    split; [reflexivity |]. by repeat split.
Qed.

Lemma teardown_of_both_wrappers_witness :
  CodeEditor.view (CodeEditor.constructed CodeEditor.default_inputs) = None
  ∧ DiffEditor.mergeView (DiffEditor.constructed DiffEditor.default_inputs) = None
  ∧ CodeEditor.ngOnDestroy (CodeEditor.constructed CodeEditor.default_inputs)
    = (CodeEditor.constructed CodeEditor.default_inputs, Throw TypeError)
  ∧ DiffEditor.ngOnDestroy (DiffEditor.constructed DiffEditor.default_inputs)
    = (DiffEditor.constructed DiffEditor.default_inputs, Return tt)
  ∧ ∃ dw' mv,
      (DiffEditor.ngOnInit ;; DiffEditor.ngOnDestroy)
        (DiffEditor.constructed DiffEditor.default_inputs) = (dw', Return tt)
      ∧ DiffEditor.mergeView dw' = Some mv
      ∧ DiffEditor.mv_destroyed mv = true.
Proof.
  destruct (teardown_of_both_wrappers
              (CodeEditor.constructed CodeEditor.default_inputs)
              (DiffEditor.constructed DiffEditor.default_inputs) eq_refl eq_refl)
    as (H1 & H2 & _ & dw' & mv & H3 & H4 & H5 & _).
  split; [reflexivity |]. split; [reflexivity |]. split; [exact H1 |]. split; [exact H2 |].
  exists dw', mv. split; [exact H3 |]. split; [exact H4 | exact H5].
Defined.

End Teardown.
